(** * ValeoBot: chat-mapping and reporting engine

    A shallow embedding of [bot.py], [chatter_tracker.py] and
    [db_storage.py].

    Conventions of the embedding.
    - Python is dynamically typed: what [json.load] returns, and so what
      ends up in the fields of a [ChatMapping], is a [pyval].
    - A Python [dict] is an insertion-ordered association list with
      distinct keys ([PyDict]); [context.bot_data], which is only read and
      written by key, is a [gmap].
    - Python floats are idealised as exact rationals ([Q]): rounding,
      infinities and NaN are outside the model.
    - An exception is an explicit outcome ([None], [Raised], ...), and a
      [try]/[except] is the [match] that handles it.
    - Network calls, the DBMS and the builtins [float(str)] and [int(str)]
      are not code of this repository: they are parameters. *)

From Stdlib Require Import ZArith QArith Lqa List Sorted.
From stdpp Require Import base option list strings gmap.

Set Warnings "-register-all".

Local Open Scope string_scope.
Local Open Scope list_scope.

(** ** Python values *)

Inductive pyval : Type :=
| PNone
| PBool (b : bool)
| PInt (z : Z)
| PFloat (q : Q)
| PStr (s : string)
| PList (l : list pyval)
| PDict (d : list (string * pyval)).

(** [bool(v)]: the truth value Python gives to [v] in [if v], [not v],
    [a or b]. *)
Definition py_truthy (v : pyval) : bool :=
  match v with
  | PNone => false
  | PBool b => b
  | PInt z => negb (z =? 0)%Z
  | PFloat q => negb (Qeq_bool q 0)
  | PStr s => negb (String.eqb s "")
  | PList l => match l with [] => false | _ => true end
  | PDict d => match d with [] => false | _ => true end
  end.

(** [a or b] *)
Definition py_or (a b : pyval) : pyval := if py_truthy a then a else b.

(** The numeric value of [bool], [int] and [float] objects, the three
    kinds Python compares with one another. *)
Definition py_num (v : pyval) : option Q :=
  match v with
  | PBool b => Some (if b then 1 else 0)%Q
  | PInt z => Some (inject_Z z)
  | PFloat q => Some q
  | _ => None
  end.

(** ** Dictionaries *)

Module PyDict.
Section Dict.
Context {V : Type}.

  (** [d.get(k)] / [d[k]]: [None] is a missing key. *)
Fixpoint get (k : string) (d : list (string * V)) : option V :=
    match d with
    | [] => None
    | (k', v) :: d' => if String.eqb k' k then Some v else get k d'
    end.

  (** [k in d] *)
Definition mem (k : string) (d : list (string * V)) : bool :=
    match get k d with Some _ => true | None => false end.

  (** [d.get(k, dflt)] *)
Definition get_default (k : string) (dflt : V) (d : list (string * V)) : V :=
    match get k d with Some v => v | None => dflt end.

  (** [d[k] = v]: an existing key keeps its place, a new one goes last. *)
Fixpoint set (k : string) (v : V) (d : list (string * V)) : list (string * V) :=
    match d with
    | [] => [(k, v)]
    | (k', v') :: d' =>
        if String.eqb k' k then (k', v) :: d' else (k', v') :: set k v d'
    end.

  (** [del d[k]] (for a key that is present). *)
Fixpoint del (k : string) (d : list (string * V)) : list (string * V) :=
    match d with
    | [] => []
    | (k', v') :: d' => if String.eqb k' k then d' else (k', v') :: del k d'
    end.

  (** [list(d.keys())] *)
Definition keys (d : list (string * V)) : list string := map fst d.

  (** [dict(items)]: built by successive assignments. *)
Definition of_items (items : list (string * V)) : list (string * V) :=
    fold_left (fun acc kv => set (fst kv) (snd kv) acc) items [].
End Dict.
End PyDict.

Abbreviation pydict V := (list (string * V)) (only parsing).

(** [a == b] between a value and a [str]. *)
Definition py_eq_str (v : pyval) (s : string) : bool :=
  match v with PStr s' => String.eqb s' s | _ => false end.

(** [a == b] on values. Numbers compare by value across [bool], [int] and
    [float]; lists element by element; dictionaries by key, whatever the
    order; values of different kinds are unequal. *)
Fixpoint py_eq (a b : pyval) : bool :=
  match a, b with
  | PNone, PNone => true
  | PStr s1, PStr s2 => String.eqb s1 s2
  | PList l1, PList l2 =>
      (fix go (l1 l2 : list pyval) : bool :=
         match l1, l2 with
         | [], [] => true
         | x :: l1', y :: l2' => py_eq x y && go l1' l2'
         | _, _ => false
         end) l1 l2
  | PDict d1, PDict d2 =>
      Nat.eqb (length d1) (length d2) &&
      (fix go (d1 : list (string * pyval)) : bool :=
         match d1 with
         | [] => true
         | (k, v) :: d1' =>
             match PyDict.get k d2 with
             | Some v' => py_eq v v' && go d1'
             | None => false
             end
         end) d1
  | _, _ =>
      match py_num a, py_num b with
      | Some x, Some y => Qeq_bool x y
      | _, _ => false
      end
  end.

(** Iterating over a value ([for x in v]); [None] is the [TypeError] of a
    value that is not iterable. A string yields its characters, a
    dictionary its keys. *)
Fixpoint py_chars (s : string) : list pyval :=
  match s with
  | EmptyString => []
  | String c s' => PStr (String c EmptyString) :: py_chars s'
  end.

Definition py_iter (v : pyval) : option (list pyval) :=
  match v with
  | PList l => Some l
  | PDict d => Some (map (fun kv => PStr (fst kv)) d)
  | PStr s => Some (py_chars s)
  | _ => None
  end.

(** ** Data model ([bot.py], "Data Models") *)

Record ModelConfig := mkModelConfig {
  platform : pyval;
  platform_account_id : pyval;
  nickname : pyval  (* [PNone] when absent *)
}.

Record ChatMapping := mkChatMapping {
  models : list ModelConfig;
  chat_type : pyval;
  enable_daily_report : pyval;
  enable_weekly_report : pyval;
  enable_whale_alerts : pyval;
  enable_chatter_report : pyval;
  whale_alert_threshold : pyval
}.

(** ** Storage ([bot.py], "Storage Management") *)

(** What [open] and [json.load] find at [MAPPING_FILE]. *)
Inductive file_state : Type :=
| FileMissing                (* [os.path.exists] is false *)
| FileCorrupt                (* [open] or [json.load] raises *)
| FileJson (data : pyval).   (* the parsed content *)

(** One element of the [models] comprehension of [load]:
    [model_data["platform"]] and [model_data["platform_account_id"]] raise
    on anything but a dictionary that has the key. *)
Definition decode_model (model_data : pyval) : option ModelConfig :=
  match model_data with
  | PDict d =>
      p ← PyDict.get "platform" d;
      a ← PyDict.get "platform_account_id" d;
      Some (mkModelConfig p a (PyDict.get_default "nickname" PNone d))
  | _ => None
  end.

(** The defaults [load] writes into [mapping_data] when it has no
    ["chat_type"]. *)
Definition set_old_defaults (d : pydict pyval) : pydict pyval :=
  PyDict.set "whale_alert_threshold" (PInt 4)
    (PyDict.set "enable_chatter_report" (PBool false)
      (PyDict.set "enable_whale_alerts" (PBool true)
        (PyDict.set "enable_weekly_report" (PBool true)
          (PyDict.set "enable_daily_report" (PBool true)
            (PyDict.set "chat_type" (PStr "agency") d))))).

(** The body of the loop of [StorageManager.load] for one record;
    [None] is an exception (which [load] turns into an empty result).
    On a [mapping_data] that is not a dictionary either the [in] test, the
    subscript or [.get] raises. *)
Definition decode_mapping (mapping_data : pyval) : option ChatMapping :=
  match mapping_data with
  | PDict d =>
      ms ← (if PyDict.mem "platform" d && PyDict.mem "platform_account_id" d
            then
              p ← PyDict.get "platform" d;
              a ← PyDict.get "platform_account_id" d;
              Some [mkModelConfig p a PNone]
            else
              items ← py_iter (PyDict.get_default "models" (PList []) d);
              mapM decode_model items);
      let d1 := if PyDict.mem "chat_type" d then d else set_old_defaults d in
      let d2 := if PyDict.mem "enable_chatter_report" d1 then d1
                else PyDict.set "enable_chatter_report" (PBool false) d1 in
      Some {| models := ms;
              chat_type := PyDict.get_default "chat_type" (PStr "agency") d2;
              enable_daily_report :=
                PyDict.get_default "enable_daily_report" (PBool true) d2;
              enable_weekly_report :=
                PyDict.get_default "enable_weekly_report" (PBool true) d2;
              enable_whale_alerts :=
                PyDict.get_default "enable_whale_alerts" (PBool true) d2;
              enable_chatter_report :=
                PyDict.get_default "enable_chatter_report" (PBool false) d2;
              whale_alert_threshold :=
                PyDict.get_default "whale_alert_threshold" (PInt 4) d2 |}
  | _ => None
  end.

(** The [for chat_id, mapping_data in data.items()] loop. *)
Fixpoint load_items (items : pydict pyval) (mappings : pydict ChatMapping)
  : option (pydict ChatMapping) :=
  match items with
  | [] => Some mappings
  | (chat_id, mapping_data) :: rest =>
      m ← decode_mapping mapping_data;
      load_items rest (PyDict.set chat_id m mappings)
  end.

(** The dictionary [save] hands to [json.dump]. *)
Definition encode_model (m : ModelConfig) : pyval :=
  PDict [("platform", platform m);
         ("platform_account_id", platform_account_id m);
         ("nickname", nickname m)].

Definition encode_mapping (m : ChatMapping) : pyval :=
  PDict [("models", PList (map encode_model (models m)));
         ("chat_type", chat_type m);
         ("enable_daily_report", enable_daily_report m);
         ("enable_weekly_report", enable_weekly_report m);
         ("enable_whale_alerts", enable_whale_alerts m);
         ("enable_chatter_report", enable_chatter_report m);
         ("whale_alert_threshold", whale_alert_threshold m)].

(** State passing over the durable state [S] of a backend. *)
Definition St (S A : Type) : Type := S → A * S.

Definition st_ret {S A} (a : A) : St S A := fun s => (a, s).
Definition st_bind {S A B} (m : St S A) (k : A → St S B) : St S B :=
  fun s => let '(a, s') := m s in k a s'.
Definition st_read {S} : St S S := fun s => (s, s).
Definition st_write {S} (s' : S) : St S unit := fun _ => (tt, s').

Module StorageManager.

  (** [StorageManager.load]: reads the file, never writes it. *)
Definition load : St file_state (pydict ChatMapping) :=
    st_bind st_read (fun f =>
      st_ret
        match f with
        | FileMissing => []
        | FileCorrupt => []
        | FileJson (PDict data) =>
            match load_items data [] with
            | Some mappings => mappings
            | None => []          (* [except Exception]: logged *)
            end
        | FileJson _ => []        (* [data.items()] raises *)
        end).

  (** [StorageManager.save]: the file is opened for writing and replaced
      by the dump of [mappings]. (I/O failures are outside the model.) *)
Definition save (mappings : pydict ChatMapping) : St file_state unit :=
    st_write
      (FileJson (PDict (map (fun kv => (fst kv, encode_mapping (snd kv)))
                            mappings))).

End StorageManager.

(** A legacy file with one single-account record. *)
Definition legacy_file : file_state :=
  FileJson (PDict [("-1001", PDict [("platform", PStr "onlyfans");
                                    ("platform_account_id", PStr "maxes")])]).


(** ** Relational backend ([db_storage.py] and the wrapper in [bot.py]) *)

(** A row of [chat_mappings] (without the two timestamps). *)
Record chat_row := mkChatRow {
  r_chat_type : pyval;
  r_enable_daily_report : pyval;
  r_enable_weekly_report : pyval;
  r_enable_monthly_report : pyval;
  r_enable_whale_alerts : pyval;
  r_enable_chatter_report : pyval;
  r_whale_alert_threshold : pyval
}.

(** A row of [chat_models]. The rows are kept in the order of their
    [SERIAL] id, which is the order of insertion. *)
Record model_row := mkModelRow {
  mr_chat_id : string;
  mr_platform : pyval;
  mr_platform_account_id : pyval;
  mr_nickname : pyval
}.

Record db := mkDb {
  chat_mappings : pydict chat_row;   (* [chat_id] is the primary key *)
  chat_models : list model_row
}.

(** Outcome of an operation that may raise. *)
Inductive status := Done | Raised.

Module DatabaseStorage.
Section Dbms.

  (** Whether the DBMS accepts the statements of
      [save_mapping(chat_id, mapping)]: column types and lengths,
      [NOT NULL], and [UNIQUE(chat_id, platform, platform_account_id)]
      among the models of [mapping]. As [save_mapping] replaces all rows of
      [chat_id], this depends on its arguments only. *)
Variable dbms_accepts : string → pydict pyval → bool.

  (** The model dictionaries of [mapping.get('models', [])], read with
      [model.get(...)]. *)
Definition model_row_of (chat_id : string) (model : pyval) : option model_row :=
    match model with
    | PDict m => Some (mkModelRow chat_id
                         (PyDict.get_default "platform" PNone m)
                         (PyDict.get_default "platform_account_id" PNone m)
                         (PyDict.get_default "nickname" PNone m))
    | _ => None
    end.

  (** [DatabaseStorage.save_mapping]: one transaction, rolled back (and
      the exception raised again) when a statement fails. *)
Definition save_mapping (chat_id : string) (mapping : pydict pyval)
    : St db status :=
    fun s =>
      match py_iter (PyDict.get_default "models" (PList []) mapping) with
      | Some ms =>
          match mapM (model_row_of chat_id) ms with
          | Some rows =>
              if dbms_accepts chat_id mapping then
                let row :=
                  mkChatRow
                    (PyDict.get_default "chat_type" (PStr "agency") mapping)
                    (PyDict.get_default "enable_daily_report" (PBool true) mapping)
                    (PyDict.get_default "enable_weekly_report" (PBool true) mapping)
                    (PyDict.get_default "enable_monthly_report" (PBool true) mapping)
                    (PyDict.get_default "enable_whale_alerts" (PBool true) mapping)
                    (PyDict.get_default "enable_chatter_report" (PBool false) mapping)
                    (PyDict.get_default "whale_alert_threshold" (PInt 4) mapping) in
                (Done,
                 mkDb (PyDict.set chat_id row (chat_mappings s))
                      (filter (λ r, mr_chat_id r ≠ chat_id) (chat_models s)
                       ++ rows))
              else (Raised, s)
          | None => (Raised, s)
          end
      | None => (Raised, s)
      end.

  (** [DatabaseStorage.load_mapping] *)
Definition load_mapping (chat_id : string) : St db (option (pydict pyval)) :=
    fun s =>
      (match PyDict.get chat_id (chat_mappings s) with
       | None => None
       | Some row =>
           let ms := filter (λ r, mr_chat_id r = chat_id) (chat_models s) in
           Some [("chat_type", r_chat_type row);
                 ("enable_daily_report", r_enable_daily_report row);
                 ("enable_weekly_report", r_enable_weekly_report row);
                 ("enable_monthly_report", r_enable_monthly_report row);
                 ("enable_whale_alerts", r_enable_whale_alerts row);
                 ("enable_chatter_report", r_enable_chatter_report row);
                 ("whale_alert_threshold", r_whale_alert_threshold row);
                 ("models",
                  PList (map (λ r, PDict [("platform", mr_platform r);
                                          ("platform_account_id",
                                           mr_platform_account_id r);
                                          ("nickname", mr_nickname r)])
                             ms))]
       end, s).

  (** [DatabaseStorage.load_all_mappings]: the dictionaries are never
      empty, so [if mapping:] keeps every chat that [load_mapping] finds. *)
Fixpoint load_each (chat_ids : list string) (mappings : pydict (pydict pyval))
    : St db (pydict (pydict pyval)) :=
    match chat_ids with
    | [] => st_ret mappings
    | chat_id :: rest =>
        st_bind (load_mapping chat_id) (fun mapping =>
          match mapping with
          | Some ((_ :: _) as m) => load_each rest (PyDict.set chat_id m mappings)
          | _ => load_each rest mappings
          end)
    end.

Definition load_all_mappings : St db (pydict (pydict pyval)) :=
    st_bind st_read (fun s => load_each (PyDict.keys (chat_mappings s)) []).

  (** [DatabaseStorage.delete_mapping]: the child rows go with the parent
      ([ON DELETE CASCADE]). *)
Definition delete_mapping (chat_id : string) : St db unit :=
    fun s =>
      (tt, mkDb (filter (λ kv, kv.1 ≠ chat_id) (chat_mappings s))
                (filter (λ r, mr_chat_id r ≠ chat_id) (chat_models s))).

End Dbms.
End DatabaseStorage.

Module DatabaseStorageWrapper.
Section Dbms.
Import DatabaseStorage.
Variable dbms_accepts : string → pydict pyval → bool.

    (** The [models] comprehension of the wrapper's [load]:
        [m['platform']] raises on a missing key. *)
Definition load_entry (mapping_data : pydict pyval) : option ChatMapping :=
      items ← py_iter (PyDict.get_default "models" (PList []) mapping_data);
      ms ← mapM decode_model items;
      Some {| models := ms;
              chat_type :=
                PyDict.get_default "chat_type" (PStr "agency") mapping_data;
              enable_daily_report :=
                PyDict.get_default "enable_daily_report" (PBool true) mapping_data;
              enable_weekly_report :=
                PyDict.get_default "enable_weekly_report" (PBool true) mapping_data;
              enable_whale_alerts :=
                PyDict.get_default "enable_whale_alerts" (PBool true) mapping_data;
              enable_chatter_report :=
                PyDict.get_default "enable_chatter_report" (PBool false) mapping_data;
              whale_alert_threshold :=
                PyDict.get_default "whale_alert_threshold" (PInt 4) mapping_data |}.

Fixpoint load_entries (items : pydict (pydict pyval))
        (mappings : pydict ChatMapping) : option (pydict ChatMapping) :=
      match items with
      | [] => Some mappings
      | (chat_id, mapping_data) :: rest =>
          m ← load_entry mapping_data;
          load_entries rest (PyDict.set chat_id m mappings)
      end.

    (** [DatabaseStorageWrapper.load]; [None] is an exception, which this
        [load] does not catch. *)
Definition load : St db (option (pydict ChatMapping)) :=
      st_bind load_all_mappings (fun mappings_dict =>
        st_ret (load_entries mappings_dict [])).

    (** The dictionary the wrapper's [save] builds for one mapping. *)
Definition mapping_dict (m : ChatMapping) : pydict pyval :=
      [("chat_type", chat_type m);
       ("enable_daily_report", enable_daily_report m);
       ("enable_weekly_report", enable_weekly_report m);
       ("enable_whale_alerts", enable_whale_alerts m);
       ("enable_chatter_report", enable_chatter_report m);
       ("whale_alert_threshold", whale_alert_threshold m);
       ("models", PList (map encode_model (models m)))].

Fixpoint delete_each (chat_ids : list string) : St db unit :=
      match chat_ids with
      | [] => st_ret tt
      | chat_id :: rest =>
          st_bind (delete_mapping chat_id) (fun _ => delete_each rest)
      end.

Fixpoint save_each (mappings : pydict ChatMapping) : St db status :=
      match mappings with
      | [] => st_ret Done
      | (chat_id, m) :: rest =>
          st_bind (save_mapping dbms_accepts chat_id (mapping_dict m)) (fun r =>
            match r with
            | Done => save_each rest
            | Raised => st_ret Raised    (* the loop is left *)
            end)
      end.

    (** [DatabaseStorageWrapper.save]: delete what is no longer in
        [mappings], then save or update the rest. *)
Definition save (mappings : pydict ChatMapping) : St db status :=
      st_bind load_all_mappings (fun existing_mappings =>
        let deleted_chat_ids :=
          filter (λ k, k ∉ PyDict.keys mappings)
                 (PyDict.keys existing_mappings) in
        st_bind (delete_each deleted_chat_ids) (fun _ =>
          save_each mappings)).

End Dbms.
End DatabaseStorageWrapper.

(** What [load_mapping] returns is a dictionary the wrapper can decode. *)
Definition model_dict (r : model_row) : pyval :=
  PDict [("platform", mr_platform r);
         ("platform_account_id", mr_platform_account_id r);
         ("nickname", mr_nickname r)].

Definition is_row_dict (md : pydict pyval) : Prop :=
  ∃ row ms,
    md = [("chat_type", r_chat_type row);
          ("enable_daily_report", r_enable_daily_report row);
          ("enable_weekly_report", r_enable_weekly_report row);
          ("enable_monthly_report", r_enable_monthly_report row);
          ("enable_whale_alerts", r_enable_whale_alerts row);
          ("enable_chatter_report", r_enable_chatter_report row);
          ("whale_alert_threshold", r_whale_alert_threshold row);
          ("models", PList (map model_dict ms))].

(** ** The storage the bot runs with

    [storage] is a [DatabaseStorageWrapper] when [DATABASE_URL] is set and
    a [StorageManager] otherwise; both offer [load] and [save]. *)

Inductive backend := JsonFile | Postgres.

Definition durable (b : backend) : Type :=
  match b with JsonFile => file_state | Postgres => db end.

Section Storage.
Variable dbms_accepts : string → pydict pyval → bool.

  (** [storage.load()]; [None] is an exception. *)
Definition storage_load (b : backend)
    : St (durable b) (option (pydict ChatMapping)) :=
    match b with
    | JsonFile => st_bind StorageManager.load (fun m => st_ret (Some m))
    | Postgres => DatabaseStorageWrapper.load
    end.

  (** [storage.save(mappings)] *)
Definition storage_save (b : backend) (mappings : pydict ChatMapping)
    : St (durable b) status :=
    match b with
    | JsonFile => st_bind (StorageManager.save mappings) (fun _ => st_ret Done)
    | Postgres => DatabaseStorageWrapper.save dbms_accepts mappings
    end.
End Storage.

(** A database with two chats, one of them with two models. *)
Definition sample_db : db :=
  mkDb [("-1001", mkChatRow (PStr "agency") (PBool true) (PBool true)
                    (PBool true) (PBool false) (PBool false) (PInt 4));
        ("-1002", mkChatRow (PStr "chatter") (PBool false) (PBool false)
                    (PBool true) (PBool true) (PBool false) (PInt 3))]
       [mkModelRow "-1001" (PStr "onlyfans") (PStr "111") (PStr "Bella");
        mkModelRow "-1002" (PStr "onlyfans") (PStr "222") PNone;
        mkModelRow "-1001" (PStr "fansly") (PStr "333") PNone].

(** ** Dates and times ([bot.py], "Date/Time Utilities")

    A [date] is its proleptic Gregorian ordinal ([date.toordinal()], day 1
    is 0001-01-01), so [d + timedelta(days=1)] is [d + 1]. A [datetime] is
    a count of microseconds since 00:00 of day 0: a wall-clock time for a
    local [datetime], an instant for a UTC one. *)

Local Open Scope Z_scope.

Definition US_PER_HOUR : Z := 3600000000.
Definition US_PER_DAY : Z := 24 * US_PER_HOUR.

(** The calendar arithmetic of Python's [datetime] module. *)
Definition days_before_year (year : Z) : Z :=
  let y := year - 1 in y * 365 + y / 4 - y / 100 + y / 400.

Definition is_leap (year : Z) : bool :=
  (year mod 4 =? 0) && (negb (year mod 100 =? 0) || (year mod 400 =? 0)).

Definition days_before_month (year month : Z) : Z :=
  nth (Z.to_nat month)
      [-1; 0; 31; 59; 90; 120; 151; 181; 212; 243; 273; 304; 334] 0
  + (if (2 <? month) && is_leap year then 1 else 0).

(** [date(year, month, day).toordinal()] *)
Definition ymd2ord (year month day : Z) : Z :=
  days_before_year year + days_before_month year month + day.

(** [date.fromordinal(n).year] *)
Definition ord2year (n : Z) : Z :=
  let n := n - 1 in
  let n400 := n / 146097 in
  let n := n mod 146097 in
  let year := n400 * 400 + 1 in
  let n100 := n / 36524 in
  let n := n mod 36524 in
  let n4 := n / 1461 in
  let n := n mod 1461 in
  let n1 := n / 365 in
  let year := year + n100 * 100 + n4 * 4 + n1 in
  if (n1 =? 4) || (n100 =? 4) then year - 1 else year.

(** A time zone, as [datetime] uses a [tzinfo]: the UTC offset of a
    wall-clock time (with [fold=0], as every [datetime] built here has),
    and the wall-clock time of an instant. *)
Record tzinfo := mkTz {
  utcoffset : Z → Z;
  fromutc : Z → Z
}.

(** [dt.astimezone(timezone.utc)] for a [dt] with time zone [tz] *)
Definition to_utc (tz : tzinfo) (wall : Z) : Z := wall - utcoffset tz wall.

(** Modelled: [ZoneInfo("Europe/Berlin")], which is data of the tz
    database and not of this repository, by the rule that database has
    for the zone since 1996 ([CET-1CEST,M3.5.0,M10.5.0/3]): summer time,
    UTC+2 instead of UTC+1, from the last Sunday of March to the last
    Sunday of October, both changes at 01:00 UTC. Day 1 is a Monday, so
    Sundays are the ordinals divisible by 7. *)
Definition last_sunday (year month : Z) : Z :=
  let last := ymd2ord year month 31 in last - last mod 7.

(** For a wall-clock time: between 02:00 and 03:00 of the day of a
    change, [fold=0] selects the offset before the change. *)
Definition berlin_dst_wall (wall : Z) : bool :=
  let year := ord2year (wall / US_PER_DAY) in
  (last_sunday year 3 * US_PER_DAY + 3 * US_PER_HOUR <=? wall) &&
  (wall <? last_sunday year 10 * US_PER_DAY + 3 * US_PER_HOUR).

Definition berlin_dst_utc (t : Z) : bool :=
  let year := ord2year (t / US_PER_DAY) in
  (last_sunday year 3 * US_PER_DAY + US_PER_HOUR <=? t) &&
  (t <? last_sunday year 10 * US_PER_DAY + US_PER_HOUR).

Definition BERLIN_TZ : tzinfo :=
  {| utcoffset := fun wall =>
       if berlin_dst_wall wall then 2 * US_PER_HOUR else US_PER_HOUR;
     fromutc := fun t =>
       t + (if berlin_dst_utc t then 2 * US_PER_HOUR else US_PER_HOUR) |}.

Module OnlyFansCalendar.

(** [get_of_day_range(date)] *)
Definition get_of_day_range (date : Z) : Z * Z :=
  let start_local := date * US_PER_DAY + US_PER_HOUR in
  let end_local := start_local + US_PER_DAY - 1 in
  let start_utc := to_utc BERLIN_TZ start_local in
  let end_utc := to_utc BERLIN_TZ end_local in
  (start_utc, end_utc).

(** [get_current_of_day()], with the instant [datetime.now] returns. *)
Definition get_current_of_day (now : Z) : Z * Z :=
  let now_berlin := fromutc BERLIN_TZ now in
  let today := now_berlin / US_PER_DAY in
  let start_local := today * US_PER_DAY + US_PER_HOUR in
  let start_local :=
    if now_berlin mod US_PER_DAY / US_PER_HOUR <? 1
    then start_local - US_PER_DAY else start_local in
  let end_local := now_berlin in
  let start_utc := to_utc BERLIN_TZ start_local in
  let end_utc := now in     (* [end_local] is [now] in another zone *)
  (start_utc, end_utc).

(** [get_previous_of_day()] *)
Definition get_previous_of_day (now : Z) : Z * Z :=
  let today := fromutc BERLIN_TZ now / US_PER_DAY in
  let yesterday := today - 1 in
  get_of_day_range yesterday.

End OnlyFansCalendar.

Local Close Scope Z_scope.

(** ** Strings *)

(** [s.lower()] on ASCII letters ([str.lower] also maps letters outside
    ASCII, which are outside the model). *)
Definition ascii_lower (c : Ascii.ascii) : Ascii.ascii :=
  let n := Ascii.N_of_ascii c in
  if ((65 <=? n) && (n <=? 90))%N then Ascii.ascii_of_N (n + 32) else c.

Fixpoint py_lower (s : string) : string :=
  match s with
  | EmptyString => EmptyString
  | String c s' => String (ascii_lower c) (py_lower s')
  end.

(** [" ".join(args)] *)
Fixpoint py_join_space (args : list string) : string :=
  match args with
  | [] => ""
  | [a] => a
  | a :: rest => a ++ " " ++ py_join_space rest
  end.

(** ** The OnlyMonster API client ([bot.py], "OnlyMonster API Client") *)

Record RevenueStats := mkRevenueStats {
  total_amount : Q;
  currency : pyval;
  transaction_count : nat;
  start_time : Z;
  end_time : Z;
  new_subscribers : pyval;
  total_subscribers : pyval
}.

(** The requests the bot sends. *)
Inductive request : Type :=
| ReqTransactions (platform : string) (account_id : pyval) (start end_ : Z) (limit : Z)
| ReqSubscribers (platform : string) (account_id : pyval) (start end_ : Z)
| ReqChatterPerformance (platform account_id : pyval) (start_date end_date : Z)
| ReqFansOnline (platform : string) (account_id : pyval).

Section Client.

(** [session.get(...)], [raise_for_status()] and [response.json()]:
    the parsed answer, or [None] for a [RequestException]. *)
Variable http_get : request → option pyval.

(** [float(s)] for a string; [None] is a [ValueError]. *)
Variable str_to_float : string → option Q.

(** [float(v)]; [None] is a [TypeError] or a [ValueError]. *)
Definition py_float (v : pyval) : option Q :=
  match v with
  | PStr s => str_to_float s
  | PNone | PList _ | PDict _ => None
  | _ => py_num v
  end.

(** [len(v)]; [None] is a [TypeError]. *)
Definition py_len (v : pyval) : option nat :=
  match v with
  | PList l => Some (length l)
  | PDict d => Some (length d)
  | PStr s => Some (String.length s)
  | _ => None
  end.

(** [get_transactions]: [platform.lower()] raises on a value that is not
    a string, and a failed request is raised again. *)
Definition get_transactions (platform account_id : pyval) (start end_ : Z)
  : option pyval :=
  match platform with
  | PStr p => http_get (ReqTransactions (py_lower p) account_id start end_ 500)
  | _ => None
  end.

(** [get_subscribers]: a failed request gives [{}]. *)
Definition get_subscribers (platform account_id : pyval) (start end_ : Z)
  : option pyval :=
  match platform with
  | PStr p =>
      match http_get (ReqSubscribers (py_lower p) account_id start end_) with
      | Some sub_data => Some sub_data
      | None => Some (PDict [])
      end
  | _ => None
  end.

(** One turn of the loop over [items] in [calculate_revenue], on
    [(total_amount, currency)]; [None] is the [AttributeError] of
    [transaction.get] on a value that is not a dictionary. An amount that
    [float] refuses is logged and the loop [continue]s. *)
Definition revenue_step (acc : Q * pyval) (transaction : pyval)
  : option (Q * pyval) :=
  let '(total_amount, currency) := acc in
  match transaction with
  | PDict t =>
      let amount := PyDict.get_default "amount" PNone t in
      let currency' :=
        if py_eq_str currency "USD" && PyDict.mem "currency" t
        then PyDict.get_default "currency" PNone t else currency in
      match amount with
      | PNone => Some (total_amount, currency')
      | _ =>
          match py_float amount with
          | Some x => Some ((total_amount + x)%Q, currency')
          | None => Some (total_amount, currency)
          end
      end
  | _ => None
  end.

Fixpoint revenue_loop (items : list pyval) (acc : Q * pyval)
  : option (Q * pyval) :=
  match items with
  | [] => Some acc
  | transaction :: rest =>
      acc' ← revenue_step acc transaction; revenue_loop rest acc'
  end.

(** The [try] around [get_subscribers]: any exception leaves both counts
    [None]. *)
Definition subscriber_counts (sub_data : option pyval) : pyval * pyval :=
  match sub_data with
  | Some (PDict ((_ :: _) as d)) =>
      (PyDict.get_default "new_subscribers" PNone d,
       PyDict.get_default "total_subscribers" PNone d)
  | _ => (PNone, PNone)
  end.

(** [calculate_revenue]; [None] is an exception (logged and raised
    again). *)
Definition calculate_revenue (platform account_id : pyval) (start end_ : Z)
  : option RevenueStats :=
  data ← get_transactions platform account_id start end_;
  match data with
  | PDict d =>
      let items := py_or (PyDict.get_default "items" (PList []) d) (PList []) in
      transactions ← py_iter items;
      acc ← revenue_loop transactions (0%Q, PStr "USD");
      let subs := subscriber_counts
                    (get_subscribers platform account_id start end_) in
      let net_amount := (acc.1 * (80 # 100))%Q in
      n ← py_len items;
      Some {| total_amount := net_amount;
              currency := acc.2;
              transaction_count := n;
              start_time := start;
              end_time := end_;
              new_subscribers := subs.1;
              total_subscribers := subs.2 |}
  | _ => None
  end.



End Client.

(** An answer of the transactions endpoint with five items, of which one
    has an amount that is not a number, one has none and one has [null],
    and a [float] that knows one string. *)
Definition sample_http_get (r : request) : option pyval :=
  match r with
  | ReqTransactions _ _ _ _ _ =>
      Some (PDict [("items",
              PList [PDict [("amount", PInt 100); ("currency", PStr "EUR")];
                     PDict [("amount", PStr "abc")];
                     PDict [("currency", PStr "USD")];
                     PDict [("amount", PNone)];
                     PDict [("amount", PStr "12.5")]])])
  | _ => None
  end.

Definition sample_str_to_float (s : string) : option Q :=
  if String.eqb s "12.5" then Some (125 # 10) else None.

(** [s.strip()]: ASCII white space removed at both ends. *)
Definition is_space (c : Ascii.ascii) : bool :=
  let n := Ascii.N_of_ascii c in
  ((n =? 32) || ((9 <=? n) && (n <=? 13)))%N.

Fixpoint lstrip (l : list Ascii.ascii) : list Ascii.ascii :=
  match l with
  | c :: l' => if is_space c then lstrip l' else l
  | [] => []
  end.

Definition py_strip (s : string) : string :=
  String.string_of_list_ascii
    (rev (lstrip (rev (lstrip (String.list_ascii_of_string s))))).

(** [v.lower()] on a value: [None] is the [AttributeError] of a value
    that is not a string. *)
Definition py_lower_val (v : pyval) : option string :=
  match v with PStr s => Some (py_lower s) | _ => None end.

(** [a >= b]; [None] is a [TypeError]. Numbers compare by value, strings
    and lists lexicographically. *)
Fixpoint py_ge (a b : pyval) : option bool :=
  match a, b with
  | PStr s1, PStr s2 => Some (String.leb s2 s1)
  | PList l1, PList l2 =>
      (fix go (l1 l2 : list pyval) : option bool :=
         match l1, l2 with
         | _, [] => Some true
         | [], _ :: _ => Some false
         | x :: l1', y :: l2' => if py_eq x y then go l1' l2' else py_ge x y
         end) l1 l2
  | _, _ =>
      match py_num a, py_num b with
      | Some x, Some y => Some (Qle_bool y x)
      | _, _ => None
      end
  end.

(** ** Commands ([bot.py], "Bot Command Handlers")

    A command works on the mappings it loaded and may save a new set;
    what it answers is kept as the kind of answer and the data shown. *)

Inductive reply : Type :=
| ReplyUsage
| ReplyUnsupportedPlatform (platform : string)
| ReplyAlreadyLinked (account_id platform : string)
| ReplyAdded (account_id platform : string) (linked : list ModelConfig)
| ReplyLinked (account_id platform chat_type : string)
| ReplyNotLinked
| ReplyUnlinkUsage (linked : list ModelConfig)
| ReplyRemovedAll (model_count : nat)
| ReplyModelNotFound (identifier : string)
| ReplyRemovedLast (removed : ModelConfig)
| ReplyRemoved (removed : ModelConfig) (remaining : list ModelConfig)
| ReplyRevenue (title : string) (display_name platform : pyval)
               (stats : RevenueStats)
| ReplyCombined (total_revenue total_subs : Q)
                (breakdown : list (pyval * RevenueStats))
| ReplyError.

(** What a command did: the set it saved, if it saved, and its answer;
    [Uncaught] is an exception that leaves the handler. *)
Inductive outcome : Type :=
| Answer (saved : option (pydict ChatMapping)) (r : reply)
| Uncaught.

Definition saved_by (o : outcome) : option (pydict ChatMapping) :=
  match o with Answer s _ => s | Uncaught => None end.

(** The loop of [cmd_link] that looks for the model among the linked. *)
Definition already_linked (platform' account_id : string) (ms : list ModelConfig)
  : bool :=
  existsb (fun model => py_eq_str (platform model) platform' &&
                        py_eq_str (platform_account_id model) account_id) ms.

(** [cmd_link] after [storage.load()], for [context.args] and the chat. *)
Definition cmd_link (args : list string) (chat_id : string)
    (mappings : pydict ChatMapping) : outcome :=
  match args with
  | arg0 :: arg1 :: opt =>
      let platform' := py_lower (py_strip arg0) in
      let account_id := py_strip arg1 in
      let '(chat_type', nickname') :=
        match opt with
        | [] => (None, PNone)
        | arg2 :: rest =>
            let arg3 := py_lower (py_strip arg2) in
            if String.eqb arg3 "agency" || String.eqb arg3 "chatter" then
              (Some arg3,
               match rest with
               | [] => PNone
               | _ => PStr (py_join_space rest)
               end)
            else (None, PStr (py_join_space opt))
        end in
      if negb (String.eqb platform' "onlyfans" || String.eqb platform' "fansly")
      then Answer None (ReplyUnsupportedPlatform platform')
      else
        match PyDict.get chat_id mappings with
        | Some existing_mapping =>
            if already_linked platform' account_id (models existing_mapping)
            then Answer None (ReplyAlreadyLinked account_id platform')
            else
              let ms := models existing_mapping ++
                        [mkModelConfig (PStr platform') (PStr account_id) nickname'] in
              let existing_mapping :=
                {| models := ms;
                   chat_type := chat_type existing_mapping;
                   enable_daily_report := enable_daily_report existing_mapping;
                   enable_weekly_report := enable_weekly_report existing_mapping;
                   enable_whale_alerts := enable_whale_alerts existing_mapping;
                   enable_chatter_report := enable_chatter_report existing_mapping;
                   whale_alert_threshold := whale_alert_threshold existing_mapping |} in
              Answer (Some (PyDict.set chat_id existing_mapping mappings))
                     (ReplyAdded account_id platform' ms)
        | None =>
            let '(chat_type', enable_daily, enable_weekly, enable_whale) :=
              if bool_decide (chat_type' = Some "chatter")
              then ("chatter", false, false, true)
              else ("agency", true, true, false) in
            let m :=
              {| models := [mkModelConfig (PStr platform') (PStr account_id) nickname'];
                 chat_type := PStr chat_type';
                 enable_daily_report := PBool enable_daily;
                 enable_weekly_report := PBool enable_weekly;
                 enable_whale_alerts := PBool enable_whale;
                 enable_chatter_report := PBool false;
                 whale_alert_threshold := PInt 4 |} in
            Answer (Some (PyDict.set chat_id m mappings))
                   (ReplyLinked account_id platform' chat_type')
        end
  | _ => Answer None ReplyUsage
  end.

(** The test of [cmd_unlink] and [cmd_today] for one model:
    [model.platform_account_id.lower() == identifier or
     (model.nickname and model.nickname.lower() == identifier)];
    [None] is the [AttributeError] of [.lower()] on a value that is not a
    string. *)
Definition model_matches (identifier : string) (model : ModelConfig)
  : option bool :=
  a ← py_lower_val (platform_account_id model);
  if String.eqb a identifier then Some true
  else if py_truthy (nickname model) then
    n ← py_lower_val (nickname model); Some (String.eqb n identifier)
  else Some false.

(** The [for model in mapping.models: if ...: break] loops: the first
    model that matches, with its index. *)
Fixpoint find_model (identifier : string) (ms : list ModelConfig) (i : nat)
  : option (option (nat * ModelConfig)) :=
  match ms with
  | [] => Some None
  | model :: rest =>
      b ← model_matches identifier model;
      if b : bool then Some (Some (i, model))
      else find_model identifier rest (S i)
  end.

(** [==] of the dataclass [ModelConfig]: field by field. *)
Definition model_eq (a b : ModelConfig) : bool :=
  py_eq (platform a) (platform b) &&
  py_eq (platform_account_id a) (platform_account_id b) &&
  py_eq (nickname a) (nickname b).

(** [ms.remove(x)] for the [x] found at index [i]: the first element that
    is [x] itself or equal to it goes. *)
Fixpoint list_remove (i : nat) (x : ModelConfig) (ms : list ModelConfig)
  {struct ms} : list ModelConfig :=
  match ms with
  | [] => []
  | y :: rest =>
      match i with
      | O => rest
      | S i' => if model_eq y x then rest else y :: list_remove i' x rest
      end
  end.

Definition with_models (m : ChatMapping) (ms : list ModelConfig) : ChatMapping :=
  {| models := ms;
     chat_type := chat_type m;
     enable_daily_report := enable_daily_report m;
     enable_weekly_report := enable_weekly_report m;
     enable_whale_alerts := enable_whale_alerts m;
     enable_chatter_report := enable_chatter_report m;
     whale_alert_threshold := whale_alert_threshold m |}.

(** [cmd_unlink] after [storage.load()]. *)
Definition cmd_unlink (args : list string) (chat_id : string)
    (mappings : pydict ChatMapping) : outcome :=
  match PyDict.get chat_id mappings with
  | None => Answer None ReplyNotLinked
  | Some mapping =>
      match args with
      | [] =>
          match models mapping with
          | [] => Uncaught            (* [mapping.models[0]] *)
          | _ => Answer None (ReplyUnlinkUsage (models mapping))
          end
      | _ =>
          let model_identifier := py_lower (py_join_space args) in
          if String.eqb model_identifier "all" then
            Answer (Some (PyDict.del chat_id mappings))
                   (ReplyRemovedAll (length (models mapping)))
          else
            match find_model model_identifier (models mapping) 0 with
            | None => Uncaught
            | Some None => Answer None (ReplyModelNotFound model_identifier)
            | Some (Some (i, model_to_remove)) =>
                match list_remove i model_to_remove (models mapping) with
                | [] =>
                    Answer (Some (PyDict.del chat_id mappings))
                           (ReplyRemovedLast model_to_remove)
                | ms =>
                    Answer (Some (PyDict.set chat_id (with_models mapping ms)
                                             mappings))
                           (ReplyRemoved model_to_remove ms)
                end
            end
      end
  end.

Section Handlers.

Variable http_get : request → option pyval.
Variable str_to_float : string → option Q.

(** [MessageFormatter.format_revenue]; [None] is an exception:
    [platform.title()] wants a string and [stats.new_subscribers > 0] a
    number. *)
Definition format_revenue (stats : RevenueStats) (account_id platform' : pyval)
    (title : string) : option reply :=
  match platform' with
  | PStr _ =>
      match new_subscribers stats with
      | PNone => Some (ReplyRevenue title account_id platform' stats)
      | v => match py_num v with
             | Some _ => Some (ReplyRevenue title account_id platform' stats)
             | None => None
             end
      end
  | _ => None
  end.

(** The loop of [cmd_today] that fills [all_stats]: the first
    [calculate_revenue] that raises ends it. *)
Definition fetch_all_stats (models_to_show : list ModelConfig) (start end_ : Z)
  : option (list (ModelConfig * RevenueStats)) :=
  mapM (fun model =>
          stats ← calculate_revenue http_get str_to_float (platform model)
                    (platform_account_id model) start end_;
          Some (model, stats))
       models_to_show.

(** A term of [sum(s.new_subscribers or 0 for ...)]; [None] is the
    [TypeError] of adding something that is not a number. *)
Definition subs_or_zero (stats : RevenueStats) : option Q :=
  if py_truthy (new_subscribers stats) then py_num (new_subscribers stats)
  else Some 0%Q.

(** The body of the [try] of [cmd_today]; [None] is an exception, which
    the handler answers with the error message. *)
Definition today_report (models_to_show : list ModelConfig) (now : Z)
  : option reply :=
  let '(start_utc, end_utc) := OnlyFansCalendar.get_current_of_day now in
  all_stats ← fetch_all_stats models_to_show start_utc end_utc;
  match all_stats with
  | [(model, stats)] =>
      format_revenue stats
        (py_or (nickname model) (platform_account_id model))
        (platform model) "Today's Revenue (1 AM - Now)"
  | _ =>
      let total_revenue :=
        fold_left Qplus (map (fun ms => total_amount ms.2) all_stats) 0%Q in
      subs ← mapM (fun ms => subs_or_zero ms.2) all_stats;
      let total_subs := fold_left Qplus subs 0%Q in
      match models_to_show with
      | [] => None                (* [models_to_show[0]] *)
      | _ =>
          Some (ReplyCombined total_revenue total_subs
                  (map (fun ms => (py_or (nickname ms.1)
                                         (platform_account_id ms.1), ms.2))
                       all_stats))
      end
  end.

(** [cmd_today] after [storage.load()]. *)
Definition cmd_today (args : list string) (chat_id : string)
    (mappings : pydict ChatMapping) (now : Z) : outcome :=
  match PyDict.get chat_id mappings with
  | None => Answer None ReplyNotLinked
  | Some mapping =>
      let specific_model :=
        match args with a :: _ => py_lower a | [] => "" end in
      let answer (models_to_show : list ModelConfig) :=
        match today_report models_to_show now with
        | Some r => Answer None r
        | None => Answer None ReplyError
        end in
      if String.eqb specific_model "" then answer (models mapping)
      else
        match find_model specific_model (models mapping) 0 with
        | None => Uncaught
        | Some (Some (_, model)) => answer [model]
        | Some None =>
            match models mapping with
            | [] => Uncaught          (* [mapping.models[0]] *)
            | _ => Answer None (ReplyModelNotFound specific_model)
            end
        end
  end.

End Handlers.

(** ** Chatter performance ([chatter_tracker.py]) *)

Definition MIN_MESSAGES_THRESHOLD : Z := 50.

Record ChatterStats := mkChatterStats {
  chatter_name : pyval;
  total_sales : Q;
  avg_response_time_seconds : Q;
  ppv_conversion_rate : Q;
  total_messages : Z;
  template_messages : Z;
  manual_messages : Z
}.

(** [l.sort(key=lambda x: x.total_sales, reverse=True)]: Python's sort is
    stable, also when reversed, so it is the insertion of each element
    before the first one whose sales are not greater. *)
Fixpoint insert_desc (x : ChatterStats) (l : list ChatterStats)
  : list ChatterStats :=
  match l with
  | [] => [x]
  | y :: l' =>
      if Qle_bool (total_sales y) (total_sales x) then x :: l
      else y :: insert_desc x l'
  end.

Definition sort_by_sales_desc (l : list ChatterStats) : list ChatterStats :=
  foldr insert_desc [] l.

Section Chatter.

Variable http_get : request → option pyval.
Variable str_to_float : string → option Q.

(** [int(s)] for a string; [None] is a [ValueError]. *)
Variable str_to_int : string → option Z.

(** [int(v)]; [None] is a [TypeError] or a [ValueError]. A float is cut
    towards zero. *)
Definition py_int (v : pyval) : option Z :=
  match v with
  | PBool b => Some (if b then 1 else 0)%Z
  | PInt z => Some z
  | PFloat q => Some (Z.quot (Qnum q) (Z.pos (Qden q)))
  | PStr s => str_to_int s
  | _ => None
  end.

(** The [ChatterStats(...)] built from one element of ["chatters"];
    [None] is an exception. *)
Definition parse_chatter (chatter_data : pyval) : option ChatterStats :=
  match chatter_data with
  | PDict c =>
      sales ← py_float str_to_float (PyDict.get_default "total_sales" (PInt 0) c);
      rt ← py_float str_to_float (PyDict.get_default "avg_response_time" (PInt 0) c);
      conv ← py_float str_to_float
               (PyDict.get_default "ppv_conversion_rate" (PInt 0) c);
      msgs ← py_int (PyDict.get_default "total_messages" (PInt 0) c);
      tmpl ← py_int (PyDict.get_default "template_messages" (PInt 0) c);
      manual ← py_int (PyDict.get_default "manual_messages" (PInt 0) c);
      Some (mkChatterStats (PyDict.get_default "name" (PStr "Unknown") c)
              sales rt conv msgs tmpl manual)
  | _ => None
  end.

(** [get_chatter_performance]; [None] is an exception (logged and raised
    again). The dates of the request are those of the two UTC times. *)
Definition get_chatter_performance (platform' account_id : pyval)
    (start_time end_time : Z) : option (list ChatterStats) :=
  data ← http_get (ReqChatterPerformance platform' account_id
                     (start_time / US_PER_DAY) (end_time / US_PER_DAY));
  match data with
  | PDict d =>
      chatters ← py_iter (PyDict.get_default "chatters" (PList []) d);
      parsed ← mapM parse_chatter chatters;
      Some (sort_by_sales_desc
              (filter (λ stats, (MIN_MESSAGES_THRESHOLD ≤ total_messages stats)%Z)
                      parsed))
  | _ => None
  end.

(** [get_yesterday_performance], at the instant [now]. *)
Definition get_yesterday_performance (platform' account_id : pyval) (now : Z)
  : option (list ChatterStats) :=
  let now_berlin := fromutc BERLIN_TZ now in
  let today := (now_berlin / US_PER_DAY)%Z in
  let yesterday := (today - 1)%Z in
  let start_local := (yesterday * US_PER_DAY + US_PER_HOUR)%Z in
  let end_local := (today * US_PER_DAY + (59 * 60 + 59) * 1000000)%Z in
  get_chatter_performance platform' account_id
    (to_utc BERLIN_TZ start_local) (to_utc BERLIN_TZ end_local).

End Chatter.

(** ** Combining the chatters of several accounts ([chatter_report_job])

    [combined_chatters] is a dictionary keyed by chatter name. A key of a
    Python dictionary is found by hash and [==]: [None], numbers by their
    value, strings; lists and dictionaries are unhashable. *)

Inductive hkey : Type :=
| KNone
| KNum (q : Q)      (* in lowest terms *)
| KStr (s : string).

Definition key_of (v : pyval) : option hkey :=
  match v with
  | PNone => Some KNone
  | PStr s => Some (KStr s)
  | PList _ | PDict _ => None
  | _ => q ← py_num v; Some (KNum (Qred q))
  end.

#[global] Instance Q_eq_dec : EqDecision Q.
Proof. solve_decision. Defined.

#[global] Instance hkey_eq_dec : EqDecision hkey.
Proof. solve_decision. Defined.

(** The value of [combined_chatters] under one name. *)
Record chatter_sums := mkChatterSums {
  sum_sales : Q;
  sum_messages : Z;
  sum_template : Z;
  sum_manual : Z;
  response_times : list Q;
  conversions : list Q
}.

(** What the [defaultdict] creates for a new name. *)
Definition no_sums : chatter_sums := mkChatterSums 0 0 0 0 [] [].

(** The body of the loop over [all_chatter_stats], on the value of the
    name of [stats]. *)
Definition add_stats (c : chatter_sums) (stats : ChatterStats) : chatter_sums :=
  {| sum_sales := (sum_sales c + total_sales stats)%Q;
     sum_messages := (sum_messages c + total_messages stats)%Z;
     sum_template := (sum_template c + template_messages stats)%Z;
     sum_manual := (sum_manual c + manual_messages stats)%Z;
     response_times := response_times c ++ [avg_response_time_seconds stats];
     conversions := conversions c ++ [ppv_conversion_rate stats] |}.

(** [combined_chatters]: one entry per name in the order in which the
    names first came up, each with the name object that created it. *)
Fixpoint combine_into (k : hkey) (stats : ChatterStats)
    (combined : list (hkey * (pyval * chatter_sums)))
  : list (hkey * (pyval * chatter_sums)) :=
  match combined with
  | [] => [(k, (chatter_name stats, add_stats no_sums stats))]
  | (k', (name, c)) :: rest =>
      if decide (k' = k) then (k', (name, add_stats c stats)) :: rest
      else (k', (name, c)) :: combine_into k stats rest
  end.

(** The loop over [all_chatter_stats]; [None] is the [TypeError] of an
    unhashable name. *)
Fixpoint combine_chatters (all_chatter_stats : list ChatterStats)
    (combined : list (hkey * (pyval * chatter_sums)))
  : option (list (hkey * (pyval * chatter_sums))) :=
  match all_chatter_stats with
  | [] => Some combined
  | stats :: rest =>
      k ← key_of (chatter_name stats);
      combine_chatters rest (combine_into k stats combined)
  end.

(** [sum(l)] and [sum(l) / len(l)] *)
Definition py_sum (l : list Q) : Q := fold_left Qplus l 0%Q.

Definition py_mean (l : list Q) : Q :=
  (py_sum l / inject_Z (Z.of_nat (length l)))%Q.

(** "Convert back to ChatterStats objects" *)
Definition to_stats (entry : hkey * (pyval * chatter_sums)) : ChatterStats :=
  let '(_, (name, data)) := entry in
  {| chatter_name := name;
     total_sales := sum_sales data;
     avg_response_time_seconds := py_mean (response_times data);
     ppv_conversion_rate := py_mean (conversions data);
     total_messages := sum_messages data;
     template_messages := sum_template data;
     manual_messages := sum_manual data |}.

(** [final_stats] of [chatter_report_job], sorted. *)
Definition merge_chatters (all_chatter_stats : list ChatterStats)
  : option (list ChatterStats) :=
  combined ← combine_chatters all_chatter_stats [];
  Some (sort_by_sales_desc (map to_stats combined)).

(** ** Scheduled jobs ([bot.py], "Scheduled Jobs") *)

(** What a job hands to [context.bot.send_message]. *)
Inductive message : Type :=
| RevenueMessage (text : reply)
| ChatterReportMessage (final_stats : list ChatterStats)
                       (model_names : list string)
| WhaleAlertMessage (fan_username buying_power last_spent account_id : pyval).

(** An attribute of a [ChatMapping] object. *)
Inductive attr : Type :=
| AttrModels (ms : list ModelConfig)
| AttrValue (v : pyval).

(** [getattr(mapping, name)]: the dataclass has the seven fields it
    declares; [None] is an [AttributeError]. *)
Definition ChatMapping_getattr (m : ChatMapping) (name : string) : option attr :=
  if String.eqb name "models" then Some (AttrModels (models m))
  else if String.eqb name "chat_type" then Some (AttrValue (chat_type m))
  else if String.eqb name "enable_daily_report"
    then Some (AttrValue (enable_daily_report m))
  else if String.eqb name "enable_weekly_report"
    then Some (AttrValue (enable_weekly_report m))
  else if String.eqb name "enable_whale_alerts"
    then Some (AttrValue (enable_whale_alerts m))
  else if String.eqb name "enable_chatter_report"
    then Some (AttrValue (enable_chatter_report m))
  else if String.eqb name "whale_alert_threshold"
    then Some (AttrValue (whale_alert_threshold m))
  else None.

(** An attribute read where the code goes on with a plain value. *)
Definition attr_value (m : ChatMapping) (name : string) : option pyval :=
  match ChatMapping_getattr m name with
  | Some (AttrValue v) => Some v
  | _ => None
  end.

Section Jobs.

Variable http_get : request → option pyval.
Variable str_to_float : string → option Q.
Variable str_to_int : string → option Z.

(** [str(v)], as an f-string formats a value. *)
Variable py_str : pyval → string.

(** The body of the [try] of [daily_report_job] for one chat: the message
    sent, or [None] for an exception (logged). The arguments of
    [calculate_revenue] are [mapping.platform] and
    [mapping.platform_account_id]. *)
Definition daily_report_for (chat_id : string) (mapping : ChatMapping)
    (start_utc end_utc : Z) : option (Z * message) :=
  p ← attr_value mapping "platform";
  a ← attr_value mapping "platform_account_id";
  stats ← calculate_revenue http_get str_to_float p a start_utc end_utc;
  msg ← format_revenue stats a p "📅 Daily Revenue Report";
  cid ← str_to_int chat_id;
  Some (cid, RevenueMessage msg).

(** [daily_report_job] after [storage.load()], at the instant [now]: the
    messages it sends. *)
Definition daily_report_job (mappings : pydict ChatMapping) (now : Z)
  : list (Z * message) :=
  match mappings with
  | [] => []
  | _ =>
      let '(start_utc, end_utc) := OnlyFansCalendar.get_previous_of_day now in
      omap (fun kv =>
              if py_truthy (enable_daily_report kv.2)
              then daily_report_for kv.1 kv.2 start_utc end_utc
              else None)
           mappings
  end.

(** The loop over [mapping.models] in [chatter_report_job]: a model whose
    fetch raises is logged and skipped. *)
Fixpoint fetch_chatters (ms : list ModelConfig) (now : Z)
  : list ChatterStats * list pyval :=
  match ms with
  | [] => ([], [])
  | model :: rest =>
      let '(all_chatter_stats, model_names) := fetch_chatters rest now in
      match get_yesterday_performance http_get str_to_float str_to_int
              (platform model) (platform_account_id model) now with
      | Some chatter_stats =>
          (chatter_stats ++ all_chatter_stats,
           py_or (nickname model) (platform_account_id model) :: model_names)
      | None => (all_chatter_stats, model_names)
      end
  end.

(** [", ".join(model_names)] wants strings. *)
Definition as_str (v : pyval) : option string :=
  match v with PStr s => Some s | _ => None end.

(** The body of the outer [try] of [chatter_report_job] for one chat. *)
Definition chatter_report_for (chat_id : string) (mapping : ChatMapping)
    (now : Z) : option (Z * message) :=
  let '(all_chatter_stats, model_names) := fetch_chatters (models mapping) now in
  match all_chatter_stats with
  | [] => None                    (* logged, [continue] *)
  | _ =>
      final_stats ← merge_chatters all_chatter_stats;
      names ← mapM as_str model_names;
      cid ← str_to_int chat_id;
      Some (cid, ChatterReportMessage final_stats names)
  end.

(** [chatter_report_job] after [storage.load()]. *)
Definition chatter_report_job (mappings : pydict ChatMapping) (now : Z)
  : list (Z * message) :=
  omap (fun kv =>
          if py_truthy (enable_chatter_report kv.2) then
            match models kv.2 with
            | [] => None
            | _ => chatter_report_for kv.1 kv.2 now
            end
          else None)
       mappings.

(** [buying_power >= mapping.whale_alert_threshold] for one fan; [None] is
    an exception ([fan.get] on a value that is not a dictionary, or a
    comparison Python refuses). *)
Definition fan_qualifies (threshold fan : pyval) : option bool :=
  match fan with
  | PDict f => py_ge (PyDict.get_default "buying_power" (PInt 0) f) threshold
  | _ => None
  end.

Definition alert_key (chat_id : string) (fan_id : pyval) : string :=
  "whale_" ++ chat_id ++ "_" ++ py_str fan_id.

(** What [whale_alert_job] does for a fan that qualifies, with the clock
    at [current_time]: the new [context.bot_data] and the alert, if one is
    sent; [None] is an exception ([last_spent] that [:.2f] cannot format, a
    [chat_id] that is not a number). *)
Definition whale_alert (chat_id : string) (account_id fan : pyval)
    (current_time : Q) (bot_data : gmap string Q)
  : option (gmap string Q * option (Z * message)) :=
  match fan with
  | PDict f =>
      let buying_power := PyDict.get_default "buying_power" (PInt 0) f in
      let fan_username := PyDict.get_default "username" (PStr "Unknown") f in
      let fan_id := PyDict.get_default "id" (PStr "") f in
      let last_spent := PyDict.get_default "last_purchase_amount" (PInt 0) f in
      let key := alert_key chat_id fan_id in
      let last_alert := default 0%Q (bot_data !! key) in
      if negb (Qle_bool (current_time - last_alert) 1800) then
        _ ← py_num last_spent;
        cid ← str_to_int chat_id;
        Some (<[key := current_time]> bot_data,
              Some (cid, WhaleAlertMessage fan_username buying_power
                           last_spent account_id))
      else Some (bot_data, None)
  | _ => None
  end.

(** The loop over [fans]. The clock is read once for each fan that
    qualifies: [clock n] is its [n]-th reading. An exception leaves the
    loop with what was sent and recorded so far. *)
Fixpoint whale_fans (clock : nat → Q) (chat_id : string)
    (threshold account_id : pyval) (fans : list pyval)
    (st : gmap string Q * nat)
  : (gmap string Q * nat) * list (Z * message) :=
  match fans with
  | [] => (st, [])
  | fan :: rest =>
      match fan_qualifies threshold fan with
      | Some true =>
          match whale_alert chat_id account_id fan (clock st.2) st.1 with
          | Some (bot_data, sent) =>
              let '(st', out) :=
                whale_fans clock chat_id threshold account_id rest
                           (bot_data, S st.2) in
              (st', option_list sent ++ out)
          | None => ((st.1, S st.2), [])
          end
      | Some false =>
          whale_fans clock chat_id threshold account_id rest st
      | None => (st, [])
      end
  end.

(** The body of the [try] of [whale_alert_job] for one chat. The request
    is built from [mapping.platform] and [mapping.platform_account_id]. *)
Definition whale_alerts_for (clock : nat → Q) (chat_id : string)
    (mapping : ChatMapping) (st : gmap string Q * nat)
  : (gmap string Q * nat) * list (Z * message) :=
  match attr_value mapping "platform",
        attr_value mapping "platform_account_id" with
  | Some (PStr p), Some account_id =>
      match http_get (ReqFansOnline (py_lower p) account_id) with
      | Some (PDict data) =>
          match py_iter (py_or (PyDict.get_default "fans" (PList []) data)
                               (PList [])) with
          | Some fans =>
              whale_fans clock chat_id (whale_alert_threshold mapping)
                         account_id fans st
          | None => (st, [])
          end
      | _ => (st, [])
      end
  | _, _ => (st, [])              (* [AttributeError], logged *)
  end.

(** [whale_alert_job] after [storage.load()]. *)
Fixpoint whale_alert_job (clock : nat → Q) (mappings : pydict ChatMapping)
    (st : gmap string Q * nat)
  : (gmap string Q * nat) * list (Z * message) :=
  match mappings with
  | [] => (st, [])
  | (chat_id, mapping) :: rest =>
      if py_truthy (enable_whale_alerts mapping) then
        let '(st', out) := whale_alerts_for clock chat_id mapping st in
        let '(st'', out') := whale_alert_job clock rest st' in
        (st'', out ++ out')
      else whale_alert_job clock rest st
  end.

End Jobs.

(** ** Sample data *)


Definition sample_str_to_int (s : string) : option Z :=
  if String.eqb s "-1001" then Some (-1001)%Z else None.

(** A registry with one agency chat that has daily reports on. *)
Definition sample_mappings : pydict ChatMapping :=
  [("-1001", mkChatMapping [mkModelConfig (PStr "onlyfans") (PStr "maxes") PNone]
               (PStr "agency") (PBool true) (PBool true) (PBool false)
               (PBool false) (PInt 4))].




(** ** Invariants of a chat's models *)

(** No two models of a chat share [(platform, account_id)]. *)
Definition model_key (m : ModelConfig) : pyval * pyval :=
  (platform m, platform_account_id m).

Definition models_unique (m : ChatMapping) : Prop :=
  NoDup (map model_key (models m)).

Definition registry_unique (mappings : pydict ChatMapping) : Prop :=
  Forall models_unique mappings.*2.

(** The names under which [cmd_unlink] and [cmd_today] find a model: its
    account id and its nickname, in lower case. *)
Definition lookup_names (m : ModelConfig) : list string :=
  match py_lower_val (platform_account_id m) with
  | Some a => [a] | None => []
  end ++
  match py_lower_val (nickname m) with
  | Some n => [n] | None => []
  end.

Definition shares_name (a b : ModelConfig) : bool :=
  existsb (fun n => existsb (String.eqb n) (lookup_names b)) (lookup_names a).

(** No two models of a chat can be found under the same name. *)
Fixpoint names_unique (ms : list ModelConfig) : bool :=
  match ms with
  | [] => true
  | m :: rest => forallb (fun m' => negb (shares_name m m')) rest
                 && names_unique rest
  end.

(** A chat with a model nicknamed "Bella", before and after
    [/link onlyfans 222 agency bella]. *)
Definition bella_mappings : pydict ChatMapping :=
  [("-1001", mkChatMapping
               [mkModelConfig (PStr "onlyfans") (PStr "111") (PStr "Bella")]
               (PStr "agency") (PBool true) (PBool true) (PBool false)
               (PBool false) (PInt 4))].

Definition two_bellas : list ModelConfig :=
  [mkModelConfig (PStr "onlyfans") (PStr "111") (PStr "Bella");
   mkModelConfig (PStr "onlyfans") (PStr "222") (PStr "bella")].

(** ** What the merge of the chatters is expected to be *)



(** The distinct elements of a list, in the order of their first
    occurrence. *)
Fixpoint first_occurrences {A} `{EqDecision A} (l : list A) : list A :=
  match l with
  | [] => []
  | x :: rest => x :: filter (λ y, y ≠ x) (first_occurrences rest)
  end.

Definition z_sum (l : list Z) : Z := fold_left Z.add l 0%Z.

#[global] Instance Qeq_decision (a b : Q) : Decision (a == b)%Q := Qeq_dec a b.

(** "Marc" as two accounts report him, and another chatter. *)
Definition marc_a : ChatterStats :=
  mkChatterStats (PStr "Marc") 200 60 (1 # 2) 80 10 70.
Definition marc_b : ChatterStats :=
  mkChatterStats (PStr "Marc") 50 90 (1 # 4) 60 20 40.
Definition lena_a : ChatterStats :=
  mkChatterStats (PStr "Lena") 250 30 (3 # 4) 100 0 100.




(** The chatter endpoint for two accounts: "Marc" works on both, "Tiny"
    has too few messages on the first. *)
Definition chatter_http_get (r : request) : option pyval :=
  match r with
  | ReqChatterPerformance _ account_id _ _ =>
      if py_eq_str account_id "A" then
        Some (PDict [("chatters",
                PList [PDict [("name", PStr "Tiny"); ("total_sales", PInt 900);
                              ("total_messages", PInt 10)];
                       PDict [("name", PStr "Marc"); ("total_sales", PInt 200);
                              ("avg_response_time", PInt 60);
                              ("ppv_conversion_rate", PFloat (1 # 2));
                              ("total_messages", PInt 80);
                              ("template_messages", PInt 10);
                              ("manual_messages", PInt 70)]])])
      else if py_eq_str account_id "B" then
        Some (PDict [("chatters",
                PList [PDict [("name", PStr "Marc"); ("total_sales", PInt 50);
                              ("avg_response_time", PInt 90);
                              ("ppv_conversion_rate", PFloat (1 # 4));
                              ("total_messages", PInt 60);
                              ("template_messages", PInt 20);
                              ("manual_messages", PInt 40)]])])
      else None
  | _ => None
  end.

Definition two_accounts : list ModelConfig :=
  [mkModelConfig (PStr "onlyfans") (PStr "A") PNone;
   mkModelConfig (PStr "onlyfans") (PStr "B") (PStr "Bee");
   mkModelConfig (PStr "onlyfans") (PStr "down") PNone].

(** ** A command and the storage

    Every handler starts with [mappings = storage.load()] and calls
    [storage.save(mappings)] where it changes them. [None] is an exception
    that leaves the handler. *)
Definition run_command (dbms_accepts : string → pydict pyval → bool)
    (b : backend) (command : pydict ChatMapping → outcome)
  : St (durable b) (option reply) :=
  st_bind (storage_load b) (fun loaded =>
    match loaded with
    | None => st_ret None
    | Some mappings =>
        match command mappings with
        | Uncaught => st_ret None
        | Answer None r => st_ret (Some r)
        | Answer (Some mappings') r =>
            st_bind (storage_save dbms_accepts b mappings') (fun saved =>
              match saved with
              | Done => st_ret (Some r)
              | Raised => st_ret None
              end)
        end
    end).

(** ** The other handlers and jobs *)

(** The seven platform days that end with yesterday's, as
    [weekly_report_job] and [cmd_week] compute them. *)
Definition last_seven_days (now : Z) : Z * Z :=
  let today := (fromutc BERLIN_TZ now / US_PER_DAY)%Z in
  let end_day := (today - 1)%Z in
  let start_day := (end_day - 6)%Z in
  ((OnlyFansCalendar.get_of_day_range start_day).1,
   (OnlyFansCalendar.get_of_day_range end_day).2).

Section OtherHandlers.

Variable http_get : request → option pyval.
Variable str_to_float : string → option Q.
Variable str_to_int : string → option Z.

(** The body of the [try] of [cmd_yesterday] and of [cmd_week]: both
    pass [mapping.platform] and [mapping.platform_account_id] on. *)
Definition single_account_report (mapping : ChatMapping) (range : Z * Z)
    (title : string) : option reply :=
  p ← attr_value mapping "platform";
  a ← attr_value mapping "platform_account_id";
  stats ← calculate_revenue http_get str_to_float p a range.1 range.2;
  format_revenue stats a p title.

(** [cmd_yesterday] after [storage.load()]. *)
Definition cmd_yesterday (chat_id : string) (mappings : pydict ChatMapping)
    (now : Z) : outcome :=
  match PyDict.get chat_id mappings with
  | None => Answer None ReplyNotLinked
  | Some mapping =>
      match single_account_report mapping
              (OnlyFansCalendar.get_previous_of_day now)
              "Yesterday's Revenue" with
      | Some r => Answer None r
      | None => Answer None ReplyError
      end
  end.

(** [cmd_week] after [storage.load()]. *)
Definition cmd_week (chat_id : string) (mappings : pydict ChatMapping)
    (now : Z) : outcome :=
  match PyDict.get chat_id mappings with
  | None => Answer None ReplyNotLinked
  | Some mapping =>
      match single_account_report mapping (last_seven_days now)
              "📊 Weekly Revenue (Last 7 Days)" with
      | Some r => Answer None r
      | None => Answer None ReplyError
      end
  end.

(** The body of the [try] of [weekly_report_job] for one chat. *)
Definition weekly_report_for (chat_id : string) (mapping : ChatMapping)
    (range : Z * Z) : option (Z * message) :=
  msg ← single_account_report mapping range
          "📊 Weekly Revenue Report (Last 7 Days)";
  cid ← str_to_int chat_id;
  Some (cid, RevenueMessage msg).

(** [weekly_report_job] after [storage.load()]: the messages it sends. *)
Definition weekly_report_job (mappings : pydict ChatMapping) (now : Z)
  : list (Z * message) :=
  match mappings with
  | [] => []
  | _ =>
      omap (fun kv =>
              if py_truthy (enable_weekly_report kv.2)
              then weekly_report_for kv.1 kv.2 (last_seven_days now)
              else None)
           mappings
  end.

(** What [cmd_config] answers. *)
Inductive config_reply : Type :=
| ConfigNotLinked
| ConfigShown (mapping : ChatMapping)
| ConfigToggled (setting : string) (value : bool)
| ConfigChatterReport (value : bool) (model_names : list string)
| ConfigThresholdSet (threshold : Z)
| ConfigThresholdOutOfRange
| ConfigThresholdInvalid
| ConfigInvalid.

(** [cmd_config] after [storage.load()]: the set it saved, if it saved,
    and its answer; no answer is an exception while the answer is built
    (the [join] of names that are not strings). *)
Definition cmd_config (args : list string) (chat_id : string)
    (mappings : pydict ChatMapping)
  : option (pydict ChatMapping) * option config_reply :=
  match PyDict.get chat_id mappings with
  | None => (None, Some ConfigNotLinked)
  | Some mapping =>
      match args with
      | [] => (None, Some (ConfigShown mapping))
      | [_] => (None, Some ConfigInvalid)
      | arg0 :: arg1 :: _ =>
          let setting := py_lower arg0 in
          let value := String.eqb (py_lower arg1) "on" in
          let save (m : ChatMapping) := Some (PyDict.set chat_id m mappings) in
          if String.eqb setting "daily" then
            (save {| models := models mapping;
                     chat_type := chat_type mapping;
                     enable_daily_report := PBool value;
                     enable_weekly_report := enable_weekly_report mapping;
                     enable_whale_alerts := enable_whale_alerts mapping;
                     enable_chatter_report := enable_chatter_report mapping;
                     whale_alert_threshold := whale_alert_threshold mapping |},
             Some (ConfigToggled "daily" value))
          else if String.eqb setting "weekly" then
            (save {| models := models mapping;
                     chat_type := chat_type mapping;
                     enable_daily_report := enable_daily_report mapping;
                     enable_weekly_report := PBool value;
                     enable_whale_alerts := enable_whale_alerts mapping;
                     enable_chatter_report := enable_chatter_report mapping;
                     whale_alert_threshold := whale_alert_threshold mapping |},
             Some (ConfigToggled "weekly" value))
          else if String.eqb setting "whale" then
            (save {| models := models mapping;
                     chat_type := chat_type mapping;
                     enable_daily_report := enable_daily_report mapping;
                     enable_weekly_report := enable_weekly_report mapping;
                     enable_whale_alerts := PBool value;
                     enable_chatter_report := enable_chatter_report mapping;
                     whale_alert_threshold := whale_alert_threshold mapping |},
             Some (ConfigToggled "whale" value))
          else if String.eqb setting "chatter_report" then
            (save {| models := models mapping;
                     chat_type := chat_type mapping;
                     enable_daily_report := enable_daily_report mapping;
                     enable_weekly_report := enable_weekly_report mapping;
                     enable_whale_alerts := enable_whale_alerts mapping;
                     enable_chatter_report := PBool value;
                     whale_alert_threshold := whale_alert_threshold mapping |},
             if value then
               names ← mapM (fun m => as_str (py_or (nickname m)
                                                    (platform_account_id m)))
                            (models mapping);
               Some (ConfigChatterReport true names)
             else Some (ConfigChatterReport false []))
          else if String.eqb setting "threshold" then
            match str_to_int arg1 with
            | Some threshold =>
                if ((0 <=? threshold) && (threshold <=? 5))%Z then
                  (save {| models := models mapping;
                           chat_type := chat_type mapping;
                           enable_daily_report := enable_daily_report mapping;
                           enable_weekly_report := enable_weekly_report mapping;
                           enable_whale_alerts := enable_whale_alerts mapping;
                           enable_chatter_report := enable_chatter_report mapping;
                           whale_alert_threshold := PInt threshold |},
                   Some (ConfigThresholdSet threshold))
                else (None, Some ConfigThresholdOutOfRange)
            | None => (None, Some ConfigThresholdInvalid)
            end
          else (None, Some ConfigInvalid)
      end
  end.

End OtherHandlers.

(** Whether summer time is in force at 01:00 on the wall clock of a day
    (under the rule of [BERLIN_TZ]). *)
Definition summer_at_one (d : Z) : bool :=
  ((last_sunday (ord2year d) 3 <? d) && (d <=? last_sunday (ord2year d) 10))%Z.

(** ** Invariants of the registry that the commands keep *)

(** A chat of the registry has at least one model. *)
Definition has_models (m : ChatMapping) : Prop := models m ≠ [].

(** The whale threshold of a chat is an integer that [/config threshold]
    accepts. *)
Definition threshold_in_range (m : ChatMapping) : Prop :=
  ∃ t : Z, whale_alert_threshold m = PInt t ∧ (0 ≤ t ≤ 5)%Z.

(** The five settings [/config] can change, in the order of its help. *)
Definition settings (m : ChatMapping) : list pyval :=
  [enable_daily_report m; enable_weekly_report m; enable_whale_alerts m;
   enable_chatter_report m; whale_alert_threshold m].

(** A [str_to_int] that knows the digits. *)
Definition digit_to_int (s : string) : option Z :=
  if String.eqb s "0" then Some 0%Z
  else if String.eqb s "3" then Some 3%Z
  else if String.eqb s "5" then Some 5%Z
  else if String.eqb s "9" then Some 9%Z
  else None.

(** A chat with the two models that answer to "bella". *)
Definition two_bellas_mapping : ChatMapping :=
  mkChatMapping two_bellas (PStr "agency") (PBool true) (PBool true)
    (PBool false) (PBool false) (PInt 4).

Definition second_bella_mapping : ChatMapping :=
  mkChatMapping [mkModelConfig (PStr "onlyfans") (PStr "222") (PStr "bella")]
    (PStr "agency") (PBool true) (PBool true) (PBool false) (PBool false)
    (PInt 4).

(** A file in which the record of the second chat has a model without
    [platform_account_id]. *)
Definition damaged_file : file_state :=
  FileJson (PDict
    [("-1001", encode_mapping second_bella_mapping);
     ("-1002", PDict [("models", PList [PDict [("platform", PStr "fansly")]]);
                      ("chat_type", PStr "agency")])]).

(** The totals at the head of [format_chatter_report], for a list that is
    not empty: the sales, the messages and the mean conversion rate. *)
Definition report_totals (chatter_stats : list ChatterStats) : Q * Z * Q :=
  (py_sum (map total_sales chatter_stats),
   z_sum (map total_messages chatter_stats),
   (py_sum (map ppv_conversion_rate chatter_stats)
    / inject_Z (Z.of_nat (length chatter_stats)))%Q).

(** The merge of three records, two of them of "Marc". *)
Definition merged_sample : list ChatterStats :=
  default [] (merge_chatters [marc_a; lena_a; marc_b]).

(** The API of [sample_http_get] with a subscribers endpoint that
    answers. *)
Definition subscribers_http_get (r : request) : option pyval :=
  match r with
  | ReqSubscribers _ _ _ _ =>
      Some (PDict [("new_subscribers", PInt 3); ("total_subscribers", PInt 40)])
  | _ => sample_http_get r
  end.

(** An API whose subscribers endpoint fails. *)
Definition without_subscribers (http_get : request → option pyval)
    (r : request) : option pyval :=
  match r with
  | ReqSubscribers _ _ _ _ => None
  | _ => http_get r
  end.

(** ** The rows of a record in the database *)

(** The row of [chat_mappings] and the rows of [chat_models] that
    [save_mapping] writes for the dictionary the wrapper builds; the
    wrapper's dictionary has no ["enable_monthly_report"]. *)
Definition row_of (m : ChatMapping) : chat_row :=
  mkChatRow (chat_type m) (enable_daily_report m) (enable_weekly_report m)
    (PBool true) (enable_whale_alerts m) (enable_chatter_report m)
    (whale_alert_threshold m).

Definition rows_of (chat_id : string) (m : ChatMapping) : list model_row :=
  map (λ x, mkModelRow chat_id (platform x) (platform_account_id x)
              (nickname x))
      (models m).

(** The fields of a record have the types of their columns: strings for
    [VARCHAR], booleans for [BOOLEAN], an integer for [INTEGER], and a
    nickname that is a string or [None]. These are the values the
    database gives back as it got them. *)
Definition is_str (v : pyval) : bool :=
  match v with PStr _ => true | _ => false end.

Definition is_bool (v : pyval) : bool :=
  match v with PBool _ => true | _ => false end.

Definition is_int (v : pyval) : bool :=
  match v with PInt _ => true | _ => false end.

Definition column_typed (m : ChatMapping) : bool :=
  is_str (chat_type m) && is_bool (enable_daily_report m) &&
  is_bool (enable_weekly_report m) && is_bool (enable_whale_alerts m) &&
  is_bool (enable_chatter_report m) && is_int (whale_alert_threshold m) &&
  forallb (λ x, is_str (platform x) && is_str (platform_account_id x) &&
                match nickname x with PStr _ | PNone => true | _ => false end)
          (models m).

(** Two chats to save over [sample_db]: one that is there and one that
    is new. *)
Definition sample_registry : pydict ChatMapping :=
  [("-1002", mkChatMapping [mkModelConfig (PStr "onlyfans") (PStr "999") PNone]
               (PStr "chatter") (PBool false) (PBool false) (PBool true)
               (PBool false) (PInt 5));
   ("-1003", mkChatMapping
               [mkModelConfig (PStr "fansly") (PStr "7") (PStr "Cleo");
                mkModelConfig (PStr "onlyfans") (PStr "8") PNone]
               (PStr "agency") (PBool true) (PBool true) (PBool false)
               (PBool true) (PInt 2))].

(* ===================================================================== *)
(** * Properties *)
(* ===================================================================== *)

(** ** Dictionaries *)

Section DictFacts.
Context {V : Type}.
Implicit Types (d : pydict V) (k : string) (v : V).

Lemma get_None_keys k d : PyDict.get k d = None ↔ k ∉ PyDict.keys d.
Proof.
    induction d as [|[k' v'] d IH]; simpl.
    - split; [intros _; apply not_elem_of_nil | done].
    - rewrite not_elem_of_cons. destruct (String.eqb_spec k' k) as [->|Hne].
      + split; [done | intros [? _]; done].
      + rewrite IH. split; [intros ?; split; [congruence | done] | intros [_ ?]; done].
Qed.

Lemma get_Some_elem k v d : PyDict.get k d = Some v → (k, v) ∈ d.
Proof.
    induction d as [|[k' v'] d IH]; simpl; [done|].
    destruct (String.eqb_spec k' k) as [->|Hne].
    - intros [= ->]. apply elem_of_cons; by left.
    - intros H. apply elem_of_cons; right; auto.
Qed.

Lemma elem_get_NoDup k v d :
    NoDup (PyDict.keys d) → (k, v) ∈ d → PyDict.get k d = Some v.
Proof.
    induction d as [|[k' v'] d IH]; simpl; intros Hnd Hin.
    - by apply elem_of_nil in Hin.
    - apply NoDup_cons in Hnd as [Hk Hnd].
      apply elem_of_cons in Hin as [[= <- <-]|Hin].
      + by rewrite String.eqb_refl.
      + destruct (String.eqb_spec k' k) as [->|Hne]; [|auto].
        exfalso. apply Hk. apply (list_elem_of_fmap_2 fst) in Hin. exact Hin.
Qed.

Lemma get_set_eq k v d : PyDict.get k (PyDict.set k v d) = Some v.
Proof.
    induction d as [|[k' v'] d IH]; simpl.
    - by rewrite String.eqb_refl.
    - destruct (String.eqb_spec k' k) as [->|Hne]; simpl.
      + by rewrite String.eqb_refl.
      + by destruct (String.eqb_spec k' k).
Qed.

Lemma get_set_ne k k' v d :
    k ≠ k' → PyDict.get k' (PyDict.set k v d) = PyDict.get k' d.
Proof.
    intros Hne. induction d as [|[k0 v0] d IH]; simpl.
    - by destruct (String.eqb_spec k k').
    - destruct (String.eqb_spec k0 k) as [->|Hne0]; simpl.
      + by destruct (String.eqb_spec k k').
      + by rewrite IH.
Qed.

Lemma set_fresh k v d :
    k ∉ PyDict.keys d → PyDict.set k v d = d ++ [(k, v)].
Proof.
    induction d as [|[k0 v0] d IH]; simpl; [done|].
    rewrite not_elem_of_cons. intros [Hne Hk].
    destruct (String.eqb_spec k0 k) as [->|_]; [done|]. by rewrite IH.
Qed.

Lemma keys_set_present k v d :
    k ∈ PyDict.keys d → PyDict.keys (PyDict.set k v d) = PyDict.keys d.
Proof.
    induction d as [|[k0 v0] d IH]; simpl; intros Hin.
    - by apply elem_of_nil in Hin.
    - destruct (String.eqb_spec k0 k) as [->|Hne]; simpl; [done|].
      apply elem_of_cons in Hin as [->|Hin]; [done|]. by rewrite IH.
Qed.

Lemma keys_set k v d :
    PyDict.keys (PyDict.set k v d) =
      if bool_decide (k ∈ PyDict.keys d) then PyDict.keys d
      else PyDict.keys d ++ [k].
Proof.
    case_bool_decide as Hk.
    - by apply keys_set_present.
    - rewrite set_fresh by done. unfold PyDict.keys. by rewrite map_app.
Qed.

Lemma NoDup_keys_set k v d :
    NoDup (PyDict.keys d) → NoDup (PyDict.keys (PyDict.set k v d)).
Proof.
    intros Hnd. rewrite keys_set. case_bool_decide as Hk; [done|].
    apply NoDup_app. split; [done|]. split.
    - intros x Hx Hx'. apply list_elem_of_singleton in Hx' as ->. done.
    - apply NoDup_singleton.
Qed.

Lemma keys_del_subset k k' d :
    k' ∈ PyDict.keys (PyDict.del k d) → k' ∈ PyDict.keys d.
Proof.
    induction d as [|[k0 v0] d IH]; simpl; [done|].
    destruct (String.eqb_spec k0 k) as [->|Hne]; simpl.
    - intros ?. apply elem_of_cons; by right.
    - rewrite !elem_of_cons. intros [->|?]; [by left | right; auto].
Qed.

Lemma NoDup_keys_del k d :
    NoDup (PyDict.keys d) → NoDup (PyDict.keys (PyDict.del k d)).
Proof.
    induction d as [|[k0 v0] d IH]; simpl; [done|].
    rewrite NoDup_cons. intros [Hk Hnd].
    destruct (String.eqb_spec k0 k) as [->|Hne]; simpl; [done|].
    apply NoDup_cons. split; [|auto].
    intros Hin. apply Hk. by apply keys_del_subset in Hin.
Qed.

Lemma get_del_eq k d :
    NoDup (PyDict.keys d) → PyDict.get k (PyDict.del k d) = None.
Proof.
    induction d as [|[k0 v0] d IH]; simpl; [done|].
    rewrite NoDup_cons. intros [Hk Hnd].
    destruct (String.eqb_spec k0 k) as [->|Hne]; simpl.
    - by apply get_None_keys.
    - destruct (String.eqb_spec k0 k); [done|]. auto.
Qed.

Lemma get_del_ne k k' d :
    k ≠ k' → PyDict.get k' (PyDict.del k d) = PyDict.get k' d.
Proof.
    intros Hne. induction d as [|[k0 v0] d IH]; simpl; [done|].
    destruct (String.eqb_spec k0 k) as [->|Hne0]; simpl.
    - by destruct (String.eqb_spec k k').
    - by rewrite IH.
Qed.
End DictFacts.

(** ** Flat-file backend: decoding what [save] wrote *)









Example load_legacy_file :
  (StorageManager.load legacy_file).1 =
  [("-1001", mkChatMapping [mkModelConfig (PStr "onlyfans") (PStr "maxes") PNone]
               (PStr "agency") (PBool true) (PBool true) (PBool true)
               (PBool false) (PInt 4))].
Proof. reflexivity. Qed.

(** ** Flat-file backend: reading a legacy record *)

Lemma load_items_get_other (items : pydict pyval) (acc M : pydict ChatMapping) k :
  load_items items acc = Some M →
  k ∉ PyDict.keys items → PyDict.get k M = PyDict.get k acc.
Proof.
  revert acc. induction items as [|[k0 md] items IH]; intros acc; simpl.
  - by intros [= <-].
  - destruct (decode_mapping md) as [m|]; simpl; [|done].
    rewrite not_elem_of_cons. intros H [Hne Hk].
    rewrite (IH _ H Hk). by apply get_set_ne.
Qed.

Lemma load_items_get (items : pydict pyval) (acc M : pydict ChatMapping) k md :
  load_items items acc = Some M →
  NoDup (PyDict.keys items) →
  PyDict.get k items = Some md →
  ∃ m, decode_mapping md = Some m ∧ PyDict.get k M = Some m.
Proof.
  revert acc. induction items as [|[k0 md0] items IH]; intros acc; simpl; [done|].
  destruct (decode_mapping md0) as [m0|] eqn:Hdec; simpl; [|done].
  rewrite NoDup_cons. intros H [Hk0 Hnd].
  destruct (String.eqb_spec k0 k) as [->|Hne].
  - intros [= <-]. exists m0. split; [done|].
    rewrite (load_items_get_other _ _ _ _ H Hk0). apply get_set_eq.
  - intros Hget. by apply (IH _ H Hnd Hget).
Qed.

Lemma decode_legacy (d : pydict pyval) (p a : pyval) (m : ChatMapping) :
  PyDict.get "platform" d = Some p →
  PyDict.get "platform_account_id" d = Some a →
  decode_mapping (PDict d) = Some m →
  models m = [mkModelConfig p a PNone] ∧
  chat_type m = PyDict.get_default "chat_type" (PStr "agency") d ∧
  (PyDict.get "chat_type" d = None →
     enable_daily_report m = PBool true ∧
     enable_weekly_report m = PBool true ∧
     enable_whale_alerts m = PBool true ∧
     enable_chatter_report m = PBool false ∧
     whale_alert_threshold m = PInt 4) ∧
  (PyDict.get "chat_type" d ≠ None →
     enable_chatter_report m =
       PyDict.get_default "enable_chatter_report" (PBool false) d ∧
     whale_alert_threshold m =
       PyDict.get_default "whale_alert_threshold" (PInt 4) d).
Proof.
  intros Hp Ha. unfold decode_mapping, PyDict.mem, PyDict.get_default.
  rewrite Hp, Ha. cbn [andb mbind option_bind].
  destruct (PyDict.get "chat_type" d) as [ct|] eqn:Hct.
  - destruct (PyDict.get "enable_chatter_report" d) as [cr|] eqn:Hcr.
    + intros [= <-]; cbn [models chat_type enable_chatter_report
                           whale_alert_threshold].
      rewrite Hct, Hcr. repeat split; done.
    + intros [= <-]; cbn [models chat_type enable_chatter_report
                           whale_alert_threshold].
      rewrite get_set_eq. rewrite !get_set_ne by done. rewrite Hct.
      repeat split; done.
  - unfold set_old_defaults.
    rewrite !get_set_ne by done. rewrite !get_set_eq.
    intros [= <-]; cbn [models chat_type enable_daily_report
                         enable_weekly_report enable_whale_alerts
                         enable_chatter_report whale_alert_threshold].
    repeat (rewrite ?get_set_eq; rewrite ?get_set_ne by done).
    repeat split; done.
Qed.

(** C9. A legacy single-account record (top-level [platform] and
    [platform_account_id]) of a file whose records all decode is loaded as
    a mapping with exactly one model carrying those two values and no
    nickname; a record without [chat_type] gets [chat_type = "agency"],
    [enable_chatter_report = False] and [whale_alert_threshold = 4] (and the
    three other toggles on), one with [chat_type] gets the last two defaults
    for the fields it lacks; [load] leaves the file as it was. *)
Theorem legacy_record_load
    (data : pydict pyval) (chat_id : string) (d : pydict pyval) (p a : pyval) :
  NoDup (PyDict.keys data) →
  PyDict.get chat_id data = Some (PDict d) →
  PyDict.get "platform" d = Some p →
  PyDict.get "platform_account_id" d = Some a →
  is_Some (load_items data []) →
  let f := FileJson (PDict data) in
  (StorageManager.load f).2 = f ∧
  ∃ m, PyDict.get chat_id (StorageManager.load f).1 = Some m ∧
       models m = [mkModelConfig p a PNone] ∧
       chat_type m = PyDict.get_default "chat_type" (PStr "agency") d ∧
       (PyDict.get "chat_type" d = None →
          enable_daily_report m = PBool true ∧
          enable_weekly_report m = PBool true ∧
          enable_whale_alerts m = PBool true ∧
          enable_chatter_report m = PBool false ∧
          whale_alert_threshold m = PInt 4) ∧
       (PyDict.get "chat_type" d ≠ None →
          enable_chatter_report m =
            PyDict.get_default "enable_chatter_report" (PBool false) d ∧
          whale_alert_threshold m =
            PyDict.get_default "whale_alert_threshold" (PInt 4) d).
Proof.
  intros Hnd Hget Hp Ha [M HM] f. split; [done|].
  destruct (load_items_get _ _ _ _ _ HM Hnd Hget) as (m & Hdec & Hm).
  exists m. split.
  - unfold f, StorageManager.load, st_bind, st_read, st_ret. simpl.
    by rewrite HM.
  - by apply decode_legacy.
Qed.

Lemma legacy_record_load_witness :
  ∃ m, PyDict.get "-1001" (StorageManager.load legacy_file).1 = Some m ∧
       models m = [mkModelConfig (PStr "onlyfans") (PStr "maxes") PNone] ∧
       chat_type m = PStr "agency".
Proof.
  destruct (legacy_record_load
              [("-1001", PDict [("platform", PStr "onlyfans");
                                ("platform_account_id", PStr "maxes")])]
              "-1001"
              [("platform", PStr "onlyfans"); ("platform_account_id", PStr "maxes")]
              (PStr "onlyfans") (PStr "maxes"))
    as (_ & m & Hm & Hms & Hct & _).
  - apply NoDup_singleton.
  - reflexivity.
  - reflexivity.
  - reflexivity.
  - eexists; reflexivity.
  - exists m. auto.
Defined.

(** ** Relational backend *)

Section DictKeys.
Context {V : Type}.
Implicit Types (d : pydict V) (k : string) (v : V).

Lemma elem_of_keys_set k k' v d :
    k' ∈ PyDict.keys (PyDict.set k v d) ↔ k' = k ∨ k' ∈ PyDict.keys d.
Proof.
    rewrite keys_set. case_bool_decide as Hk.
    - split; [by right | intros [->|?]; done].
    - rewrite elem_of_app, list_elem_of_singleton. tauto.
Qed.

Lemma elem_of_keys_get k d :
    k ∈ PyDict.keys d ↔ is_Some (PyDict.get k d).
Proof.
    rewrite <- not_eq_None_Some, get_None_keys.
    split; [auto | intros H; by apply dec_stable].
Qed.
End DictKeys.

Import DatabaseStorage.

Lemma load_mapping_state chat_id s : (load_mapping chat_id s).2 = s.
Proof. done. Qed.

Lemma load_each_state ids acc s : (load_each ids acc s).2 = s.
Proof.
  revert acc. induction ids as [|k ids IH]; intros acc; [done|].
  cbn [load_each]. unfold st_bind, load_mapping.
  destruct (PyDict.get k (chat_mappings s)); apply IH.
Qed.

Lemma load_each_keys ids acc s k :
  k ∈ PyDict.keys (load_each ids acc s).1 ↔
  k ∈ PyDict.keys acc ∨ (k ∈ ids ∧ k ∈ PyDict.keys (chat_mappings s)).
Proof.
  revert acc. induction ids as [|k0 ids IH]; intros acc.
  - simpl. split; [by left | intros [?|[H _]]; [done | by apply elem_of_nil in H]].
  - cbn [load_each]. unfold st_bind, load_mapping.
    destruct (PyDict.get k0 (chat_mappings s)) as [row|] eqn:Hrow.
    + rewrite IH, elem_of_keys_set, elem_of_cons.
      assert (k0 ∈ PyDict.keys (chat_mappings s)).
      { apply elem_of_keys_get. by rewrite Hrow. }
      split; [intros [[->|?]|[? ?]] | intros [?|[[->|?] ?]]]; auto.
    + rewrite IH, elem_of_cons.
      apply get_None_keys in Hrow.
      split; [intros [?|[? ?]] | intros [?|[[->|?] ?]]]; auto. done.
Qed.

Lemma load_all_mappings_state s : (load_all_mappings s).2 = s.
Proof. unfold load_all_mappings, st_bind, st_read. apply load_each_state. Qed.

Lemma load_all_mappings_keys s k :
  k ∈ PyDict.keys (load_all_mappings s).1 ↔ k ∈ PyDict.keys (chat_mappings s).
Proof.
  unfold load_all_mappings, st_bind, st_read. rewrite load_each_keys.
  split; [intros [H|[_ ?]]; [by apply elem_of_nil in H | done] | auto].
Qed.

Lemma delete_each_keys ids s k :
  k ∈ PyDict.keys (chat_mappings (DatabaseStorageWrapper.delete_each ids s).2) ↔
  k ∈ PyDict.keys (chat_mappings s) ∧ k ∉ ids.
Proof.
  revert s. induction ids as [|k0 ids IH]; intros s.
  - simpl. split; [intros ?; split; [done | apply not_elem_of_nil] | by intros [? _]].
  - cbn [DatabaseStorageWrapper.delete_each]. unfold st_bind, delete_mapping.
    rewrite IH. cbn [chat_mappings]. unfold PyDict.keys.
    rewrite !list_elem_of_fmap, not_elem_of_cons. split.
    + intros [([k1 v1] & -> & Hin) Hk]. apply list_elem_of_filter in Hin as [Hne Hin].
      split; [by exists (k1, v1) | done].
    + intros [([k1 v1] & -> & Hin) [Hne Hk]]. split; [|done].
      exists (k1, v1). split; [done|]. by apply list_elem_of_filter.
Qed.

Lemma save_mapping_keys dbms chat_id mapping s k :
  k ∈ PyDict.keys (chat_mappings (save_mapping dbms chat_id mapping s).2) →
  k = chat_id ∨ k ∈ PyDict.keys (chat_mappings s).
Proof.
  unfold save_mapping.
  destruct (py_iter _) as [ms|]; [|by right].
  destruct (mapM _ ms) as [rows|]; [|by right].
  destruct (dbms chat_id mapping); [|by right].
  cbn [snd chat_mappings]. by rewrite elem_of_keys_set.
Qed.

Lemma save_each_keys dbms (S : pydict ChatMapping) s k :
  k ∈ PyDict.keys (chat_mappings (DatabaseStorageWrapper.save_each dbms S s).2) →
  k ∈ PyDict.keys S ∨ k ∈ PyDict.keys (chat_mappings s).
Proof.
  revert s. induction S as [|[k0 m] S IH]; intros s; [by right|].
  cbn [DatabaseStorageWrapper.save_each]. unfold st_bind.
  destruct (save_mapping dbms k0 (DatabaseStorageWrapper.mapping_dict m) s)
    as [r s'] eqn:E.
  assert (Hs' : k ∈ PyDict.keys (chat_mappings s') →
                k = k0 ∨ k ∈ PyDict.keys (chat_mappings s)).
  { replace s' with (save_mapping dbms k0 (DatabaseStorageWrapper.mapping_dict m) s).2
      by (by rewrite E). apply save_mapping_keys. }
  simpl. rewrite elem_of_cons. destruct r.
  - intros H. destruct (IH _ H) as [?|H']; [auto|]. destruct (Hs' H'); auto.
  - intros H. destruct (Hs' H); auto.
Qed.

(** After [save], the table holds no chat that [mappings] does not name. *)
Lemma wrapper_save_keys dbms (S : pydict ChatMapping) s k :
  k ∈ PyDict.keys (chat_mappings (DatabaseStorageWrapper.save dbms S s).2) →
  k ∈ PyDict.keys S.
Proof.
  unfold DatabaseStorageWrapper.save, st_bind.
  pose proof (load_all_mappings_state s) as Hst.
  pose proof (load_all_mappings_keys s) as Hks.
  destruct (load_all_mappings s) as [existing s0]. simpl in Hst, Hks. subst s0.
  destruct (DatabaseStorageWrapper.delete_each _ s) as [[] s1] eqn:E.
  intros H. apply save_each_keys in H as [H|H]; [done|].
  replace s1 with
    (DatabaseStorageWrapper.delete_each
       (filter (λ k, k ∉ PyDict.keys S) (PyDict.keys existing)) s).2 in H
    by (by rewrite E).
  apply delete_each_keys in H as [Hin Hnot].
  destruct (decide (k ∈ PyDict.keys S)) as [|Hk]; [done|].
  exfalso. apply Hnot. apply list_elem_of_filter. split; [done|]. by apply Hks.
Qed.

Lemma decode_model_dicts (ms : list model_row) :
  is_Some (mapM decode_model (map model_dict ms)).
Proof.
  exists (map (λ r, mkModelConfig (mr_platform r) (mr_platform_account_id r)
                    (mr_nickname r)) ms).
  apply mapM_Some. induction ms as [|r ms IH]; simpl; constructor; done.
Qed.

Lemma load_entry_row_dict md :
  is_row_dict md → is_Some (DatabaseStorageWrapper.load_entry md).
Proof.
  intros (row & ms & ->). unfold DatabaseStorageWrapper.load_entry.
  cbn [PyDict.get_default PyDict.get String.eqb Ascii.eqb Bool.eqb py_iter
       mbind option_bind].
  destruct (decode_model_dicts ms) as [cfgs ->]. by eexists.
Qed.

Lemma Forall_values_set {V} (P : V → Prop) k v (d : pydict V) :
  P v → Forall P d.*2 → Forall P (PyDict.set k v d).*2.
Proof.
  intros Hv. induction d as [|[k0 v0] d IH]; simpl.
  - by constructor.
  - intros Hd. apply Forall_cons in Hd as [H0 Hd].
    destruct (String.eqb_spec k0 k); simpl; constructor; auto.
Qed.

Lemma load_each_row_dicts ids acc s :
  Forall is_row_dict acc.*2 → Forall is_row_dict (load_each ids acc s).1.*2.
Proof.
  revert acc. induction ids as [|k ids IH]; intros acc Hacc; [done|].
  cbn [load_each]. unfold st_bind, load_mapping.
  destruct (PyDict.get k (chat_mappings s)) as [row|]; [|by apply IH].
  apply IH. apply Forall_values_set; [|done].
  exists row, (filter (λ r, mr_chat_id r = k) (chat_models s)). done.
Qed.

Lemma load_entries_total items acc :
  Forall is_row_dict items.*2 →
  ∃ M, DatabaseStorageWrapper.load_entries items acc = Some M ∧
       ∀ k, k ∈ PyDict.keys M → k ∈ PyDict.keys acc ∨ k ∈ PyDict.keys items.
Proof.
  revert acc. induction items as [|[k0 md] items IH]; intros acc Hall.
  - exists acc. split; [done | auto].
  - apply Forall_cons in Hall as [Hmd Hall].
    cbn [DatabaseStorageWrapper.load_entries].
    destruct (load_entry_row_dict md Hmd) as [m ->]. cbn [mbind option_bind].
    destruct (IH (PyDict.set k0 m acc) Hall) as (M & -> & HM).
    exists M. split; [done|]. intros k Hk. simpl. rewrite elem_of_cons.
    destruct (HM k Hk) as [H|H]; [|auto].
    apply elem_of_keys_set in H as [->|?]; auto.
Qed.

(** The wrapper's [load] returns, and only chats of the table. *)
Lemma wrapper_load_total s :
  ∃ M, (DatabaseStorageWrapper.load s).1 = Some M ∧
       ∀ k, k ∈ PyDict.keys M → k ∈ PyDict.keys (chat_mappings s).
Proof.
  unfold DatabaseStorageWrapper.load, st_bind, st_ret.
  pose proof (load_all_mappings_keys s) as Hks.
  assert (Hrows : Forall is_row_dict (load_all_mappings s).1.*2).
  { unfold load_all_mappings, st_bind, st_read.
    apply load_each_row_dicts. constructor. }
  destruct (load_all_mappings s) as [existing s0]. simpl in *.
  destruct (load_entries_total existing [] Hrows) as (M & HM & Hk).
  exists M. split; [done|]. intros k Hin.
  destruct (Hk k Hin) as [H|H]; [by apply elem_of_nil in H | by apply Hks].
Qed.

(** ** Both backends: [save] replaces the stored set *)

Lemma load_items_keys (items : pydict pyval) (acc M : pydict ChatMapping) k :
  load_items items acc = Some M →
  k ∈ PyDict.keys M → k ∈ PyDict.keys acc ∨ k ∈ PyDict.keys items.
Proof.
  revert acc. induction items as [|[k0 md] items IH]; intros acc; simpl.
  - intros [= <-]. auto.
  - destruct (decode_mapping md) as [m|]; simpl; [|done].
    intros H Hk. rewrite elem_of_cons.
    destruct (IH _ H Hk) as [H'|?]; [|auto].
    apply elem_of_keys_set in H' as [->|?]; auto.
Qed.

Lemma file_save_keys (S : pydict ChatMapping) (f : file_state) k :
  k ∈ PyDict.keys (StorageManager.load (StorageManager.save S f).2).1 →
  k ∈ PyDict.keys S.
Proof.
  unfold StorageManager.load, StorageManager.save.
  unfold st_bind, st_read, st_ret, st_write. cbn [fst snd].
  destruct (load_items _ []) as [M|] eqn:E.
  - intros Hk. destruct (load_items_keys _ _ _ _ E Hk) as [H|H].
    + by apply elem_of_nil in H.
    + unfold PyDict.keys in *. by rewrite <- list_fmap_compose in H.
  - intros H. by apply elem_of_nil in H.
Qed.

(** C6. Whatever was stored before, after [save(S)] a [load] returns, and
    its result has no chat that is absent from [S]; in particular a chat
    that was stored and is not in [S] is gone. This holds for the JSON file
    (which is rewritten as a whole) and for the database (where the wrapper
    deletes the rows that are not in [S] before it saves the others, also
    when one of these saves is refused). *)
Theorem save_drops_absent_chat
    (dbms_accepts : string → pydict pyval → bool)
    (b : backend) (s : durable b) (S : pydict ChatMapping) (chat_id : string) :
  chat_id ∉ PyDict.keys S →
  ∃ after,
    (storage_load b (storage_save dbms_accepts b S s).2).1 = Some after ∧
    chat_id ∉ PyDict.keys after.
Proof.
  intros Habs. destruct b; cbn [storage_load storage_save durable] in *.
  - unfold st_bind at 1 2. unfold st_ret.
    destruct (StorageManager.save S s) as [[] s'] eqn:E. cbn [snd].
    destruct (StorageManager.load s') as [after s''] eqn:E'. cbn [fst].
    exists after. split; [done|]. intros Hin. apply Habs.
    apply (file_save_keys S s).
    by rewrite E; cbn [snd]; rewrite E'.
  - destruct (wrapper_load_total (DatabaseStorageWrapper.save dbms_accepts S s).2)
      as (after & Hload & Hkeys).
    exists after. split; [done|]. intros Hin. apply Habs.
    eapply wrapper_save_keys, Hkeys, Hin.
Qed.

Example save_sample_db :
  let S := [("-1002", mkChatMapping [mkModelConfig (PStr "onlyfans") (PStr "999") PNone]
                        (PStr "chatter") (PBool false) (PBool false) (PBool true)
                        (PBool false) (PInt 5))] in
  (storage_load Postgres
     (storage_save (λ _ _, true) Postgres S sample_db).2).1 = Some S.
Proof. vm_compute. reflexivity. Qed.

Lemma save_drops_absent_chat_witness :
  "-1001" ∈ PyDict.keys (chat_mappings sample_db) ∧
  ∃ after,
    (storage_load Postgres
       (storage_save (λ _ _, true) Postgres [] sample_db).2).1 = Some after ∧
    "-1001" ∉ PyDict.keys after.
Proof.
  split.
  - apply elem_of_cons. by left.
  - apply (save_drops_absent_chat (λ _ _, true) Postgres sample_db [] "-1001").
    apply not_elem_of_nil.
Defined.

(** ** The platform day *)

Local Open Scope Z_scope.

Example ymd2ord_epoch : ymd2ord 1970 1 1 = 719163.
Proof. reflexivity. Qed.

Example ord2year_leap_day :
  ord2year (ymd2ord 2024 2 29) = 2024 ∧ ord2year (ymd2ord 2024 12 31) = 2024
  ∧ ord2year (ymd2ord 2025 1 1) = 2025.
Proof. repeat split; reflexivity. Qed.

Example last_sundays_2025 :
  last_sunday 2025 3 = ymd2ord 2025 3 30 ∧ last_sunday 2025 10 = ymd2ord 2025 10 26.
Proof. split; reflexivity. Qed.

(** The night of the change to summer time: the platform day of Saturday
    2025-03-29 has 24 hours, the one of Sunday 2025-03-30 has 23. *)
Example of_day_range_spring_2025 :
  OnlyFansCalendar.get_of_day_range (ymd2ord 2025 3 29)
  = (ymd2ord 2025 3 29 * US_PER_DAY, ymd2ord 2025 3 30 * US_PER_DAY - 1) ∧
  OnlyFansCalendar.get_of_day_range (ymd2ord 2025 3 30)
  = (ymd2ord 2025 3 30 * US_PER_DAY,
     ymd2ord 2025 3 30 * US_PER_DAY + 23 * US_PER_HOUR - 1).
Proof. split; vm_compute; reflexivity. Qed.

Lemma ord2year_spec n :
  days_before_year (ord2year n) < n ≤ days_before_year (ord2year n + 1).
Proof.
  unfold days_before_year, ord2year. cbv zeta.
  destruct (Z.eqb_spec ((n - 1) mod 146097 mod 36524 mod 1461 / 365) 4);
    destruct (Z.eqb_spec ((n - 1) mod 146097 / 36524) 4); cbn [orb];
    Z.to_euclidean_division_equations; lia.
Qed.

Lemma days_before_year_mono y1 y2 :
  y1 < y2 → days_before_year y1 + 365 ≤ days_before_year y2.
Proof.
  unfold days_before_year. cbv zeta. intros.
  Z.to_euclidean_division_equations. lia.
Qed.

Lemma ord2year_unique n y :
  days_before_year y < n ≤ days_before_year (y + 1) → ord2year n = y.
Proof.
  intros H. pose proof (ord2year_spec n) as H'.
  destruct (Z.lt_trichotomy (ord2year n) y) as [Hlt|[Heq|Hgt]]; [|done|].
  - destruct (Z.eq_dec (ord2year n + 1) y) as [E|E].
    + rewrite E in H'. lia.
    + pose proof (days_before_year_mono (ord2year n + 1) y ltac:(lia)). lia.
  - destruct (Z.eq_dec (y + 1) (ord2year n)) as [E|E].
    + rewrite E in H. lia.
    + pose proof (days_before_year_mono (y + 1) (ord2year n) ltac:(lia)). lia.
Qed.

(** The last Sundays of March and of October of a year are days of that
    year. *)
Lemma last_sunday_in_year y m :
  m = 3 ∨ m = 10 →
  days_before_year y + 53 ≤ last_sunday y m ≤ days_before_year y + 335
  ∧ ord2year (last_sunday y m) = y.
Proof.
  intros Hm.
  assert (Hb : days_before_year y + 53 ≤ last_sunday y m
               ≤ days_before_year y + 335).
  { unfold last_sunday. cbv zeta.
    assert (HL : days_before_year y + 90 ≤ ymd2ord y m 31
                 ≤ days_before_year y + 335).
    { unfold ymd2ord, days_before_month.
      destruct Hm as [-> | ->];
        [change (Z.to_nat 3) with 3%nat | change (Z.to_nat 10) with 10%nat];
        destruct (is_leap y); cbn; lia. }
    pose proof (Z.mod_pos_bound (ymd2ord y m 31) 7 ltac:(lia)). lia. }
  split; [exact Hb|].
  apply ord2year_unique.
  pose proof (days_before_year_mono y (y + 1) ltac:(lia)). lia.
Qed.

Lemma ord2year_between a n b y :
  a ≤ n ≤ b → ord2year a = y → ord2year b = y → ord2year n = y.
Proof.
  intros Hn Ha Hb. apply ord2year_unique.
  pose proof (ord2year_spec a). pose proof (ord2year_spec b).
  rewrite Ha in *. rewrite Hb in *. lia.
Qed.

Lemma day_of_wall d r : 0 ≤ r < US_PER_DAY → (d * US_PER_DAY + r) / US_PER_DAY = d.
Proof.
  intros Hr. symmetry. apply (Z.div_unique _ _ d r); [left; done | lia].
Qed.

(** Before 03:00 of a day, summer time is in force on the wall clock iff
    the day is after the last Sunday of March and not after the last
    Sunday of October. *)
Lemma berlin_dst_wall_early d r :
  0 ≤ r < 3 * US_PER_HOUR →
  berlin_dst_wall (d * US_PER_DAY + r) =
    (last_sunday (ord2year d) 3 <? d) && (d <=? last_sunday (ord2year d) 10).
Proof.
  intros Hr. unfold berlin_dst_wall. cbv zeta.
  rewrite day_of_wall by (unfold US_PER_DAY, US_PER_HOUR in *; lia).
  generalize (last_sunday (ord2year d) 3) (last_sunday (ord2year d) 10).
  intros a b. unfold US_PER_DAY, US_PER_HOUR in *.
  f_equal.
  - destruct (Z.leb_spec (a * (24 * 3600000000) + 3 * 3600000000)
                         (d * (24 * 3600000000) + r));
      destruct (Z.ltb_spec a d); lia.
  - destruct (Z.ltb_spec (d * (24 * 3600000000) + r)
                         (b * (24 * 3600000000) + 3 * 3600000000));
      destruct (Z.leb_spec d b); lia.
Qed.

Lemma berlin_dst_utc_early d r :
  0 ≤ r < US_PER_HOUR →
  berlin_dst_utc (d * US_PER_DAY + r) =
    (last_sunday (ord2year d) 3 <? d) && (d <=? last_sunday (ord2year d) 10).
Proof.
  intros Hr. unfold berlin_dst_utc. cbv zeta.
  rewrite day_of_wall by (unfold US_PER_DAY, US_PER_HOUR in *; lia).
  generalize (last_sunday (ord2year d) 3) (last_sunday (ord2year d) 10).
  intros a b. unfold US_PER_DAY, US_PER_HOUR in *.
  f_equal.
  - destruct (Z.leb_spec (a * (24 * 3600000000) + 3600000000)
                         (d * (24 * 3600000000) + r));
      destruct (Z.ltb_spec a d); lia.
  - destruct (Z.ltb_spec (d * (24 * 3600000000) + r)
                         (b * (24 * 3600000000) + 3600000000));
      destruct (Z.leb_spec d b); lia.
Qed.

Lemma berlin_dst_utc_late d r :
  US_PER_HOUR ≤ r < US_PER_DAY →
  berlin_dst_utc (d * US_PER_DAY + r) =
    (last_sunday (ord2year d) 3 <=? d) && (d <? last_sunday (ord2year d) 10).
Proof.
  intros Hr. unfold berlin_dst_utc. cbv zeta.
  rewrite day_of_wall by (unfold US_PER_DAY, US_PER_HOUR in *; lia).
  generalize (last_sunday (ord2year d) 3) (last_sunday (ord2year d) 10).
  intros a b. unfold US_PER_DAY, US_PER_HOUR in *.
  f_equal.
  - destruct (Z.leb_spec (a * (24 * 3600000000) + 3600000000)
                         (d * (24 * 3600000000) + r));
      destruct (Z.leb_spec a d); lia.
  - destruct (Z.ltb_spec (d * (24 * 3600000000) + r)
                         (b * (24 * 3600000000) + 3600000000));
      destruct (Z.ltb_spec d b); lia.
Qed.

(** 00:59:59.999999 and 01:00 of a day have the same UTC offset. *)
Lemma berlin_offset_last_microsecond d :
  utcoffset BERLIN_TZ (d * US_PER_DAY + US_PER_HOUR - 1)
  = utcoffset BERLIN_TZ (d * US_PER_DAY + US_PER_HOUR).
Proof.
  cbn [utcoffset BERLIN_TZ].
  replace (d * US_PER_DAY + US_PER_HOUR - 1)
    with (d * US_PER_DAY + (US_PER_HOUR - 1)) by lia.
  rewrite !berlin_dst_wall_early; [done | |]; unfold US_PER_HOUR; lia.
Qed.

(** The start of a platform day, read in Berlin, is 01:00 of its date. *)
Lemma of_day_start_local d :
  fromutc BERLIN_TZ (to_utc BERLIN_TZ (d * US_PER_DAY + US_PER_HOUR))
  = d * US_PER_DAY + US_PER_HOUR.
Proof.
  unfold to_utc. cbn [utcoffset fromutc BERLIN_TZ].
  rewrite berlin_dst_wall_early by (unfold US_PER_HOUR; lia).
  destruct (last_sunday_in_year (ord2year d) 3 ltac:(by left)) as [_ Ha].
  set (a := last_sunday (ord2year d) 3) in *.
  set (b := last_sunday (ord2year d) 10) in *.
  destruct (Z.ltb_spec a d) as [Had|Had]; cbn [andb];
    [destruct (Z.leb_spec d b) as [Hdb|Hdb]|].
  - (* summer time: the start is 23:00 UTC of the day before *)
    replace (d * US_PER_DAY + US_PER_HOUR - 2 * US_PER_HOUR)
      with ((d - 1) * US_PER_DAY + 23 * US_PER_HOUR)
      by (unfold US_PER_DAY; lia).
    rewrite berlin_dst_utc_late by (unfold US_PER_DAY, US_PER_HOUR; lia).
    rewrite (ord2year_between a (d - 1) d (ord2year d)) by (done || lia).
    fold a b.
    destruct (Z.leb_spec a (d - 1)); [|lia].
    destruct (Z.ltb_spec (d - 1) b); [|lia].
    cbn [andb]. unfold US_PER_DAY. lia.
  - replace (d * US_PER_DAY + US_PER_HOUR - US_PER_HOUR)
      with (d * US_PER_DAY + 0) by lia.
    rewrite berlin_dst_utc_early by (unfold US_PER_HOUR; lia).
    fold a b. destruct (Z.ltb_spec a d); [|lia].
    destruct (Z.leb_spec d b); [lia|]. cbn [andb]. lia.
  - replace (d * US_PER_DAY + US_PER_HOUR - US_PER_HOUR)
      with (d * US_PER_DAY + 0) by lia.
    rewrite berlin_dst_utc_early by (unfold US_PER_HOUR; lia).
    fold a b. destruct (Z.ltb_spec a d); [lia|]. cbn [andb]. lia.
Qed.

(** C4. For every date [D], the platform day of [D] ends one microsecond
    before the platform day of [D + 1] starts, and the start of the
    platform day of [D] is 01:00 Berlin time on [D]; the days on which the
    clocks change are dates like any other. (Berlin time is the rule of
    [BERLIN_TZ].) *)
Theorem of_day_ranges_adjacent (D : Z) :
  (OnlyFansCalendar.get_of_day_range D).2
    = (OnlyFansCalendar.get_of_day_range (D + 1)).1 - 1 ∧
  fromutc BERLIN_TZ (OnlyFansCalendar.get_of_day_range D).1
    = D * US_PER_DAY + US_PER_HOUR.
Proof.
  unfold OnlyFansCalendar.get_of_day_range. cbv zeta. cbn [fst snd]. split.
  - unfold to_utc.
    replace (D * US_PER_DAY + US_PER_HOUR + US_PER_DAY - 1)
      with ((D + 1) * US_PER_DAY + US_PER_HOUR - 1) by lia.
    rewrite berlin_offset_last_microsecond. lia.
  - apply of_day_start_local.
Qed.

Local Close Scope Z_scope.

(** ** Revenue of one account *)




Example sample_revenue :
  ∃ stats,
    calculate_revenue sample_http_get sample_str_to_float
      (PStr "OnlyFans") (PStr "maxes") 0 1 = Some stats ∧
    transaction_count stats = 5%nat ∧
    Qeq (total_amount stats) 90 ∧
    currency stats = PStr "EUR".
Proof. eexists. split; [vm_compute; reflexivity|]. repeat split. Qed.


(** ** The daily report job *)

Lemma ChatMapping_has_no_platform (m : ChatMapping) :
  attr_value m "platform" = None ∧ attr_value m "platform_account_id" = None.
Proof. split; reflexivity. Qed.

(** C1 (what the code does). [daily_report_job] reads [mapping.platform]
    and [mapping.platform_account_id], which a [ChatMapping] does not
    have: for every chat with daily reports on the [AttributeError] is
    caught and logged, and the job sends no report at all, whatever the
    registry and whatever the API would answer. *)
Theorem daily_report_job_sends_nothing
    (http_get : request → option pyval) (str_to_float : string → option Q)
    (str_to_int : string → option Z)
    (mappings : pydict ChatMapping) (now : Z) :
  daily_report_job http_get str_to_float str_to_int mappings now = [].
Proof.
  unfold daily_report_job. destruct mappings as [|kv0 rest]; [done|].
  destruct (OnlyFansCalendar.get_previous_of_day now) as [start_utc end_utc].
  generalize (kv0 :: rest). intros l.
  induction l as [|kv l IH]; [done|].
  cbn [omap list_omap]. rewrite IH.
  by destruct (py_truthy (enable_daily_report kv.2)).
Qed.

Example daily_report_job_sample :
  py_truthy (enable_daily_report
               (default (mkChatMapping [] PNone PNone PNone PNone PNone PNone)
                        (PyDict.get "-1001" sample_mappings))) = true ∧
  daily_report_job sample_http_get sample_str_to_float sample_str_to_int
    sample_mappings 0 = [].
Proof. split; reflexivity. Qed.

(** ** Whale alerts *)




(** X1. [whale_alert_job] builds its request from [mapping.platform], as
    [daily_report_job] does: with a [ChatMapping] it never gets to the
    fans, sends nothing and leaves [bot_data] as it is. *)
Lemma whale_alert_job_sends_nothing
    (http_get : request → option pyval) (str_to_int : string → option Z)
    (py_str : pyval → string) (clock : nat → Q)
    (mappings : pydict ChatMapping) (st : gmap string Q * nat) :
  whale_alert_job http_get str_to_int py_str clock mappings st = (st, []).
Proof.
  induction mappings as [|[chat_id mapping] rest IH]; [done|].
  cbn [whale_alert_job]. destruct (py_truthy _); [|exact IH].
  unfold whale_alerts_for. cbn [attr_value ChatMapping_getattr String.eqb].
  simpl. by rewrite IH.
Qed.

(** ** The today command with several accounts *)

Section Today.
Variable http_get : request → option pyval.
Variable str_to_float : string → option Q.







End Today.



(** ** Linking and unlinking *)

Example py_strip_lower : py_lower (py_strip "  OnlyFans ") = "onlyfans".
Proof. reflexivity. Qed.

Lemma Forall_values_del {V} (P : V → Prop) k (d : pydict V) :
  Forall P d.*2 → Forall P (PyDict.del k d).*2.
Proof.
  induction d as [|[k0 v0] d IH]; simpl; [done|].
  intros Hd. apply Forall_cons in Hd as [H0 Hd].
  destruct (String.eqb_spec k0 k); simpl; [done|]. constructor; auto.
Qed.

Lemma Forall_values_get {V} (P : V → Prop) k v (d : pydict V) :
  Forall P d.*2 → PyDict.get k d = Some v → P v.
Proof.
  intros Hd Hget. apply get_Some_elem in Hget.
  rewrite Forall_forall in Hd. apply Hd.
  apply list_elem_of_fmap. by exists (k, v).
Qed.

Lemma already_linked_spec p a ms :
  already_linked p a ms = true ↔ (PStr p, PStr a) ∈ map model_key ms.
Proof.
  unfold already_linked. rewrite existsb_exists, list_elem_of_fmap.
  split.
  - intros (m & Hin & Hm). apply andb_true_iff in Hm as [Hp Ha].
    exists m. split; [|by apply list_elem_of_In].
    destruct m as [mp ma mn]. unfold model_key. simpl in *.
    destruct mp; try done. destruct ma; try done.
    apply String.eqb_eq in Hp, Ha. by subst.
  - intros (m & Hkey & Hin). exists m. split; [by apply list_elem_of_In|].
    destruct m as [mp ma mn]. unfold model_key in Hkey. simpl in *.
    injection Hkey as <- <-. simpl. by rewrite !String.eqb_refl.
Qed.

Lemma list_remove_delete i x ms :
  ∃ j : nat, list_remove i x ms = delete j ms.
Proof.
  revert i. induction ms as [|y ms IH]; intros i; simpl.
  - by exists 0%nat.
  - destruct i as [|i]; [by exists 0%nat|].
    destruct (model_eq y x); [by exists 0%nat|].
    destruct (IH i) as [j ->]. by exists (S j).
Qed.

Lemma list_remove_unique i x (m : ChatMapping) :
  models_unique m →
  models_unique (with_models m (list_remove i x (models m))).
Proof.
  unfold models_unique. simpl. intros Hnd.
  destruct (list_remove_delete i x (models m)) as [j ->].
  eapply sublist_NoDup; [exact Hnd|].
  change (map model_key) with (fmap (M:=list) model_key).
  rewrite list_fmap_delete. apply sublist_delete.
Qed.

Lemma cmd_link_unique args chat_id M M' :
  registry_unique M →
  saved_by (cmd_link args chat_id M) = Some M' → registry_unique M'.
Proof.
  intros HM. unfold cmd_link.
  destruct args as [|arg0 [|arg1 opt]]; try done.
  destruct (match opt with [] => _ | _ => _ end) as [ct nick].
  destruct (negb _); [done|].
  destruct (PyDict.get chat_id M) as [existing|] eqn:Hget.
  - destruct (already_linked _ _ (models existing)) eqn:Hal; [done|].
    intros [= <-]. apply Forall_values_set; [|done].
    unfold models_unique. simpl. rewrite map_app. apply NoDup_app.
    split; [exact (Forall_values_get _ _ _ _ HM Hget)|]. split.
    + intros k Hk Hk'. apply list_elem_of_singleton in Hk'. subst k.
      apply already_linked_spec in Hk. congruence.
    + apply NoDup_singleton.
  - destruct (bool_decide _); intros [= <-];
      (apply Forall_values_set; [|done]); apply NoDup_singleton.
Qed.

Lemma cmd_unlink_unique args chat_id M M' :
  registry_unique M →
  saved_by (cmd_unlink args chat_id M) = Some M' → registry_unique M'.
Proof.
  intros HM. unfold cmd_unlink.
  destruct (PyDict.get chat_id M) as [mapping|] eqn:Hget; [|done].
  destruct args as [|a args]; [by destruct (models mapping)|].
  destruct (String.eqb _ "all").
  - intros [= <-]. by apply Forall_values_del.
  - destruct (find_model _ _ 0) as [[[i x]|]|]; try done.
    pose proof (list_remove_unique i x mapping
                  (Forall_values_get _ _ _ _ HM Hget)) as Hu.
    destruct (list_remove i x (models mapping)) as [|m ms].
    + intros [= <-]. by apply Forall_values_del.
    + intros [= <-]. by apply Forall_values_set.
Qed.

Lemma cmd_link_outcome arg0 arg1 opt chat_id M :
  let p := py_lower (py_strip arg0) in
  let a := py_strip arg1 in
  let linked := match PyDict.get chat_id M with
                | Some m => map model_key (models m)
                | None => []
                end in
  p = "onlyfans" ∨ p = "fansly" →
  ((PStr p, PStr a) ∈ linked →
   cmd_link (arg0 :: arg1 :: opt) chat_id M
   = Answer None (ReplyAlreadyLinked a p)) ∧
  ((PStr p, PStr a) ∉ linked →
   ∃ M' r m',
     cmd_link (arg0 :: arg1 :: opt) chat_id M = Answer (Some M') r ∧
     PyDict.get chat_id M' = Some m' ∧
     (PStr p, PStr a) ∈ map model_key (models m') ∧
     ∀ other, other ≠ chat_id → PyDict.get other M' = PyDict.get other M).
Proof.
  intros p a linked Hp. unfold cmd_link. fold p a.
  destruct (match opt with [] => _ | _ => _ end) as [ct nick].
  assert (negb (String.eqb p "onlyfans" || String.eqb p "fansly") = false) as ->.
  { destruct Hp as [-> | ->]; reflexivity. }
  subst linked. destruct (PyDict.get chat_id M) as [existing|] eqn:Hget.
  - split.
    + intros Hin. apply already_linked_spec in Hin. by rewrite Hin.
    + intros Hnot. destruct (already_linked p a (models existing)) eqn:Hal.
      { apply already_linked_spec in Hal. done. }
      eexists _, _, _. split; [reflexivity|]. split; [apply get_set_eq|].
      split.
      * simpl. rewrite map_app. apply elem_of_app. right.
        apply list_elem_of_singleton. reflexivity.
      * intros other Hne. by apply get_set_ne.
  - split; [intros Hin; by apply elem_of_nil in Hin|]. intros _.
    destruct (bool_decide (ct = Some "chatter"));
      (eexists _, _, _; split; [reflexivity|]; split; [apply get_set_eq|];
       split; [apply list_elem_of_singleton; reflexivity
              | intros other Hne; by apply get_set_ne]).
Qed.

(** C8 (amended). Starting from mappings in which no chat has two models
    with the same [(platform, account_id)], whatever [cmd_link] and
    [cmd_unlink] save is again such a set of mappings; linking a supported
    platform's account that the chat already has is rejected and nothing is
    saved; linking one the chat does not have is accepted, whatever other
    chats are linked to, and leaves the other chats as they are.
    (Nicknames are not compared.) *)
Theorem link_unlink_keep_models_unique
    (args : list string) (chat_id : string) (M : pydict ChatMapping) :
  registry_unique M →
  (∀ M', saved_by (cmd_link args chat_id M) = Some M' → registry_unique M') ∧
  (∀ M', saved_by (cmd_unlink args chat_id M) = Some M' → registry_unique M') ∧
  (∀ arg0 arg1 opt,
     args = arg0 :: arg1 :: opt →
     let p := py_lower (py_strip arg0) in
     let a := py_strip arg1 in
     let linked := match PyDict.get chat_id M with
                   | Some m => map model_key (models m)
                   | None => []
                   end in
     p = "onlyfans" ∨ p = "fansly" →
     ((PStr p, PStr a) ∈ linked →
      cmd_link args chat_id M = Answer None (ReplyAlreadyLinked a p)) ∧
     ((PStr p, PStr a) ∉ linked →
      ∃ M' r m',
        cmd_link args chat_id M = Answer (Some M') r ∧
        PyDict.get chat_id M' = Some m' ∧
        (PStr p, PStr a) ∈ map model_key (models m') ∧
        ∀ other, other ≠ chat_id → PyDict.get other M' = PyDict.get other M)).
Proof.
  intros HM. split; [|split].
  - intros M'. by apply cmd_link_unique.
  - intros M'. by apply cmd_unlink_unique.
  - intros arg0 arg1 opt ->. apply cmd_link_outcome.
Qed.

(** C8 (as stated) fails for nicknames: a chat has a model nicknamed
    "Bella"; [/link onlyfans 222 agency bella] is accepted, and the chat
    then has two models that answer to the name "bella". *)
Lemma cmd_link_accepts_a_second_bella :
  registry_unique bella_mappings ∧
  Forall (λ m, names_unique (models m) = true) bella_mappings.*2 ∧
  saved_by (cmd_link ["onlyfans"; "222"; "agency"; "bella"] "-1001"
              bella_mappings)
  = Some [("-1001", mkChatMapping two_bellas (PStr "agency") (PBool true)
                      (PBool true) (PBool false) (PBool false) (PInt 4))] ∧
  names_unique two_bellas = false.
Proof.
  split; [|split; [|split]].
  - repeat constructor. intros H. by apply elem_of_nil in H.
  - by repeat constructor.
  - reflexivity.
  - reflexivity.
Qed.

Lemma link_unlink_keep_models_unique_witness :
  registry_unique bella_mappings ∧
  ∀ M', saved_by (cmd_link ["onlyfans"; "222"; "agency"; "bella"] "-1001"
                    bella_mappings) = Some M' → registry_unique M'.
Proof.
  assert (H : registry_unique bella_mappings).
  { repeat constructor. intros H. by apply elem_of_nil in H. }
  split; [exact H|].
  apply (link_unlink_keep_models_unique
           ["onlyfans"; "222"; "agency"; "bella"] "-1001" bella_mappings H).
Defined.

(** ** Sorting by sales *)

Lemma insert_desc_perm x l : insert_desc x l ≡ₚ x :: l.
Proof.
  induction l as [|y l IH]; simpl; [done|].
  destruct (Qle_bool (total_sales y) (total_sales x)); [done|].
  rewrite IH. apply Permutation_swap.
Qed.

Lemma sort_by_sales_desc_perm l : sort_by_sales_desc l ≡ₚ l.
Proof.
  induction l as [|x l IH]; simpl; [done|].
  rewrite insert_desc_perm. by rewrite IH.
Qed.





(** ** First occurrences *)

Section FirstOccurrences.
Context {A : Type} `{EqDecision A}.
Implicit Types (l : list A) (x : A).

Lemma elem_of_first_occurrences x l : x ∈ first_occurrences l ↔ x ∈ l.
Proof.
  induction l as [|y l IH]; simpl; [done|].
  rewrite !elem_of_cons, list_elem_of_filter, IH.
  destruct (decide (x = y)) as [->|Hne]; [split; auto|].
  split; [intros [?|[_ ?]]; auto | intros [?|?]; auto].
Qed.



End FirstOccurrences.

(** ** Combining chatters *)











(** ** The chatter report *)




(** Marc has sales 200 with 80 messages on one account and sales 50 with
    60 messages on another; Tiny, with 10 messages, is left out; the third
    account cannot be fetched. *)
Example marc_merged :
  ∃ e,
    merge_chatters
      (fetch_chatters chatter_http_get sample_str_to_float sample_str_to_int
         two_accounts 0).1 = Some [e] ∧
    chatter_name e = PStr "Marc" ∧
    (total_sales e == 250)%Q ∧ total_messages e = 140%Z ∧
    template_messages e = 30%Z ∧ manual_messages e = 110%Z ∧
    (avg_response_time_seconds e == 75)%Q ∧
    (ppv_conversion_rate e == 3 # 8)%Q.
Proof. eexists. split; [reflexivity|]. repeat split. Qed.


(** ** Commands on the stored state *)

(** A link that is rejected leaves the stored state as it was, on both
    backends. *)
Lemma rejected_link_keeps_state dbms (s : db) args chat_id :
  (∀ M, (DatabaseStorageWrapper.load s).1 = Some M →
        saved_by (cmd_link args chat_id M) = None) →
  (run_command dbms Postgres (cmd_link args chat_id) s).2 = s.
Proof.
  intros Hrej. unfold run_command, st_bind, st_ret. cbn [storage_load].
  pose proof (load_all_mappings_state s) as Hs.
  unfold DatabaseStorageWrapper.load, st_bind, st_ret in *.
  destruct (load_all_mappings s) as [existing s0]. simpl in Hs. subst s0.
  cbn [fst snd] in *.
  destruct (DatabaseStorageWrapper.load_entries existing []) as [M|]; [|done].
  specialize (Hrej M eq_refl).
  destruct (cmd_link args chat_id M) as [[M'|] r|]; try done.
Qed.

Example unlink_by_nickname :
  saved_by (cmd_unlink ["BELLA"] "-1001"
              [("-1001", mkChatMapping two_bellas (PStr "agency") (PBool true)
                           (PBool true) (PBool false) (PBool false) (PInt 4))])
  = Some [("-1001", mkChatMapping
                      [mkModelConfig (PStr "onlyfans") (PStr "222") (PStr "bella")]
                      (PStr "agency") (PBool true) (PBool true) (PBool false)
                      (PBool false) (PInt 4))].
Proof. reflexivity. Qed.

(* ===================================================================== *)
(** * Further properties of the code *)
(* ===================================================================== *)

(** ** Handlers and jobs that read the single-account fields *)

Lemma single_account_report_None
    (http_get : request → option pyval) (str_to_float : string → option Q)
    (mapping : ChatMapping) (range : Z * Z) (title : string) :
  single_account_report http_get str_to_float mapping range title = None.
Proof. reflexivity. Qed.

(** X2. [weekly_report_job] reads [mapping.platform] like the daily job: it
    sends nothing, whatever the registry and the API. *)
Theorem weekly_report_job_sends_nothing
    (http_get : request → option pyval) (str_to_float : string → option Q)
    (str_to_int : string → option Z)
    (mappings : pydict ChatMapping) (now : Z) :
  weekly_report_job http_get str_to_float str_to_int mappings now = [].
Proof.
  unfold weekly_report_job. destruct mappings as [|kv0 rest]; [done|].
  generalize (kv0 :: rest). intros l.
  induction l as [|kv l IH]; [done|].
  cbn [omap list_omap]. rewrite IH.
  unfold weekly_report_for. rewrite single_account_report_None.
  by destruct (py_truthy (enable_weekly_report kv.2)).
Qed.

(** X3. [cmd_yesterday] and [cmd_week] answer a linked chat with the error
    message and an unlinked one with the hint to link, whatever the API
    would return; they save nothing. *)
Theorem yesterday_and_week_always_fail
    (http_get : request → option pyval) (str_to_float : string → option Q)
    (chat_id : string) (mappings : pydict ChatMapping) (now : Z) :
  let expected :=
    Answer None (if PyDict.mem chat_id mappings then ReplyError
                 else ReplyNotLinked) in
  cmd_yesterday http_get str_to_float chat_id mappings now = expected ∧
  cmd_week http_get str_to_float chat_id mappings now = expected.
Proof.
  unfold cmd_yesterday, cmd_week, PyDict.mem.
  destruct (PyDict.get chat_id mappings); split;
    by rewrite ?single_account_report_None.
Qed.

(** ** Platform days *)

Local Open Scope Z_scope.

Lemma last_sunday_bounds y :
  days_before_year y + 84 ≤ last_sunday y 3 ≤ days_before_year y + 91 ∧
  days_before_year y + 298 ≤ last_sunday y 10 ≤ days_before_year y + 305.
Proof.
  unfold last_sunday. cbv zeta.
  assert (H3 : days_before_year y + 90 ≤ ymd2ord y 3 31
               ≤ days_before_year y + 91).
  { unfold ymd2ord, days_before_month. change (Z.to_nat 3) with 3%nat.
    destruct (is_leap y); cbn; lia. }
  assert (H10 : days_before_year y + 304 ≤ ymd2ord y 10 31
                ≤ days_before_year y + 305).
  { unfold ymd2ord, days_before_month. change (Z.to_nat 10) with 10%nat.
    destruct (is_leap y); cbn; lia. }
  pose proof (Z.mod_pos_bound (ymd2ord y 3 31) 7 ltac:(lia)).
  pose proof (Z.mod_pos_bound (ymd2ord y 10 31) 7 ltac:(lia)).
  lia.
Qed.

(** The next day is in the same year, or it is the first day of the next
    year. *)
Lemma ord2year_succ d :
  ord2year (d + 1) = ord2year d ∨
  (ord2year (d + 1) = ord2year d + 1 ∧ d = days_before_year (ord2year d + 1)).
Proof.
  pose proof (ord2year_spec d) as Hd.
  destruct (Z.eq_dec d (days_before_year (ord2year d + 1))) as [E|E].
  - right. split; [|exact E]. apply ord2year_unique.
    pose proof (days_before_year_mono (ord2year d + 1) (ord2year d + 1 + 1)
                  ltac:(lia)). lia.
  - left. apply ord2year_unique. lia.
Qed.

Lemma offset_at_one d :
  utcoffset BERLIN_TZ (d * US_PER_DAY + US_PER_HOUR)
  = if summer_at_one d then 2 * US_PER_HOUR else US_PER_HOUR.
Proof.
  cbn [utcoffset BERLIN_TZ].
  by rewrite berlin_dst_wall_early by (unfold US_PER_HOUR; lia).
Qed.

(** The two ends of a platform day in terms of the clock changes. *)
Lemma of_day_range_values d :
  OnlyFansCalendar.get_of_day_range d
  = (d * US_PER_DAY + US_PER_HOUR
     - (if summer_at_one d then 2 * US_PER_HOUR else US_PER_HOUR),
     (d + 1) * US_PER_DAY + US_PER_HOUR
     - (if summer_at_one (d + 1) then 2 * US_PER_HOUR else US_PER_HOUR) - 1).
Proof.
  unfold OnlyFansCalendar.get_of_day_range, to_utc. cbv zeta.
  replace (d * US_PER_DAY + US_PER_HOUR + US_PER_DAY - 1)
    with ((d + 1) * US_PER_DAY + US_PER_HOUR - 1) by lia.
  rewrite berlin_offset_last_microsecond, !offset_at_one. f_equal. lia.
Qed.

(** Summer time at 01:00 of the next day, from the day itself. *)
Lemma summer_at_one_succ d :
  summer_at_one (d + 1)
  = (last_sunday (ord2year d) 3 <=? d) && (d <? last_sunday (ord2year d) 10).
Proof.
  unfold summer_at_one.
  pose proof (ord2year_spec d) as Hd.
  pose proof (last_sunday_bounds (ord2year d)) as [Ha Hb].
  destruct (ord2year_succ d) as [-> | [-> E]].
  - generalize (last_sunday (ord2year d) 3) (last_sunday (ord2year d) 10).
    intros a b. f_equal.
    + destruct (Z.ltb_spec a (d + 1)); destruct (Z.leb_spec a d); lia.
    + destruct (Z.leb_spec (d + 1) b); destruct (Z.ltb_spec d b); lia.
  - pose proof (last_sunday_bounds (ord2year d + 1)) as [Ha' Hb'].
    pose proof (days_before_year_mono (ord2year d) (ord2year d + 1)
                  ltac:(lia)).
    destruct (Z.ltb_spec (last_sunday (ord2year d + 1) 3) (d + 1)); [lia|].
    destruct (Z.leb_spec (last_sunday (ord2year d) 3) d); [|lia].
    destruct (Z.ltb_spec d (last_sunday (ord2year d) 10)); [lia|].
    reflexivity.
Qed.

(** X4. A platform day has 24 hours, except the one that starts on the last
    Sunday of March, which has 23, and the one that starts on the last
    Sunday of October, which has 25. *)
Theorem of_day_length (D : Z) :
  let '(start_utc, end_utc) := OnlyFansCalendar.get_of_day_range D in
  end_utc - start_utc + 1 =
    if D =? last_sunday (ord2year D) 3 then 23 * US_PER_HOUR
    else if D =? last_sunday (ord2year D) 10 then 25 * US_PER_HOUR
    else 24 * US_PER_HOUR.
Proof.
  rewrite of_day_range_values, summer_at_one_succ. unfold summer_at_one.
  pose proof (last_sunday_bounds (ord2year D)) as [Ha Hb].
  generalize dependent (last_sunday (ord2year D) 3).
  generalize dependent (last_sunday (ord2year D) 10).
  intros b Hb a Ha. unfold US_PER_DAY, US_PER_HOUR.
  destruct (Z.eqb_spec D a); destruct (Z.eqb_spec D b);
    destruct (Z.ltb_spec a D); destruct (Z.leb_spec D b);
    destruct (Z.leb_spec a D); destruct (Z.ltb_spec D b); cbn [andb]; lia.
Qed.

Lemma of_day_start_mono d1 d2 :
  d1 < d2 →
  (OnlyFansCalendar.get_of_day_range d1).1 + 23 * US_PER_HOUR
  ≤ (OnlyFansCalendar.get_of_day_range d2).1.
Proof.
  intros Hlt. rewrite !of_day_range_values. cbn [fst].
  unfold US_PER_DAY, US_PER_HOUR.
  destruct (summer_at_one d1); destruct (summer_at_one d2); lia.
Qed.

Lemma of_day_next_start d :
  (OnlyFansCalendar.get_of_day_range d).2 + 1
  = (OnlyFansCalendar.get_of_day_range (d + 1)).1.
Proof. rewrite !of_day_range_values. cbn [fst snd]. lia. Qed.

(** An instant between the starts of two platform days lies in exactly
    one of the days in between. *)
Lemma of_days_cover (n : nat) (d t : Z) :
  (OnlyFansCalendar.get_of_day_range d).1 ≤ t
  < (OnlyFansCalendar.get_of_day_range (d + Z.of_nat n)).1 →
  ∃ i, 0 ≤ i < Z.of_nat n ∧
       (OnlyFansCalendar.get_of_day_range (d + i)).1 ≤ t
       ≤ (OnlyFansCalendar.get_of_day_range (d + i)).2.
Proof.
  induction n as [|n IH]; intros [Hlo Hhi].
  - rewrite Z.add_0_r in Hhi. lia.
  - destruct (Z_lt_le_dec t
                (OnlyFansCalendar.get_of_day_range (d + Z.of_nat n)).1)
      as [Hlt|Hge].
    + destruct (IH (conj Hlo Hlt)) as (i & Hi & Ht). exists i. split; [lia|done].
    + exists (Z.of_nat n). split; [lia|]. split; [done|].
      pose proof (of_day_next_start (d + Z.of_nat n)) as Hn.
      replace (d + Z.of_nat n + 1) with (d + Z.of_nat (S n)) in Hn by lia.
      lia.
Qed.

(** X5. The window of the weekly report is made of the seven platform days
    that end with yesterday's: an instant is in the window iff it is in one
    of these days; the window lasts 7 times 24 hours, give or take the hour
    of a clock change. *)
Theorem last_seven_days_are_seven_days (now t : Z) :
  let start_day := fromutc BERLIN_TZ now / US_PER_DAY - 7 in
  let '(start_utc, end_utc) := last_seven_days now in
  (start_utc ≤ t ≤ end_utc ↔
   ∃ i, 0 ≤ i ≤ 6 ∧
        (OnlyFansCalendar.get_of_day_range (start_day + i)).1 ≤ t
        ≤ (OnlyFansCalendar.get_of_day_range (start_day + i)).2) ∧
  167 * US_PER_HOUR ≤ end_utc - start_utc + 1 ≤ 169 * US_PER_HOUR.
Proof.
  intros start_day. unfold last_seven_days. cbv zeta.
  replace (fromutc BERLIN_TZ now / US_PER_DAY - 1 - 6) with start_day
    by (unfold start_day; lia).
  replace (fromutc BERLIN_TZ now / US_PER_DAY - 1) with (start_day + 6)
    by (unfold start_day; lia).
  generalize start_day. clear. intros d.
  pose proof (of_day_next_start (d + 6)) as Hend.
  replace (d + 6 + 1) with (d + Z.of_nat 7) in Hend by lia.
  split; [split|].
  - intros [Hlo Hhi].
    destruct (of_days_cover 7 d t) as (i & Hi & Ht); [lia|].
    exists i. split; [lia | done].
  - intros (i & Hi & Hlo & Hhi). split.
    + destruct (Z.eq_dec i 0) as [->|Hne]; [by rewrite Z.add_0_r in Hlo|].
      pose proof (of_day_start_mono d (d + i) ltac:(lia)).
      unfold US_PER_HOUR in *. lia.
    + destruct (Z.eq_dec i 6) as [->|Hne]; [done|].
      pose proof (of_day_next_start (d + i)) as Hn.
      pose proof (of_day_start_mono (d + i + 1) (d + Z.of_nat 7) ltac:(lia)).
      unfold US_PER_HOUR in *. lia.
  - rewrite !of_day_range_values. cbn [fst snd].
    unfold US_PER_DAY, US_PER_HOUR.
    destruct (summer_at_one d); destruct (summer_at_one (d + 6 + 1)); lia.
Qed.

Lemma berlin_dst_utc_cases (t : Z) :
  let d := t / US_PER_DAY in
  berlin_dst_utc t =
    if t mod US_PER_DAY <? US_PER_HOUR
    then (last_sunday (ord2year d) 3 <? d) && (d <=? last_sunday (ord2year d) 10)
    else (last_sunday (ord2year d) 3 <=? d) && (d <? last_sunday (ord2year d) 10).
Proof.
  intros d.
  assert (Ht : t = d * US_PER_DAY + t mod US_PER_DAY).
  { unfold d. rewrite Z.mul_comm. apply Z.div_mod.
    unfold US_PER_DAY, US_PER_HOUR. lia. }
  pose proof (Z.mod_pos_bound t US_PER_DAY
                ltac:(unfold US_PER_DAY, US_PER_HOUR; lia)) as Hr.
  destruct (Z.ltb_spec (t mod US_PER_DAY) US_PER_HOUR) as [Hlt|Hge].
  - rewrite Ht at 1. by rewrite berlin_dst_utc_early by lia.
  - rewrite Ht at 1. by rewrite berlin_dst_utc_late by lia.
Qed.

(** The day before a day that is not the first of its year is in the
    same year. *)
Lemma ord2year_pred d :
  days_before_year (ord2year d) + 1 < d → ord2year (d - 1) = ord2year d.
Proof.
  intros Hd. pose proof (ord2year_spec d). apply ord2year_unique. lia.
Qed.

(** The start that [get_current_of_day] returns is the start of a
    platform day: the one of yesterday's date before 01:00 Berlin time. *)
Lemma current_of_day_start (now : Z) :
  let now_berlin := fromutc BERLIN_TZ now in
  let today := now_berlin / US_PER_DAY in
  let of_day := if now_berlin mod US_PER_DAY <? US_PER_HOUR
                then today - 1 else today in
  OnlyFansCalendar.get_current_of_day now
  = ((OnlyFansCalendar.get_of_day_range of_day).1, now).
Proof.
  intros now_berlin today of_day.
  assert (HDAY : 0 < US_PER_DAY) by (unfold US_PER_DAY, US_PER_HOUR; lia).
  pose proof (Z.mod_pos_bound now_berlin US_PER_DAY HDAY) as Hrb.
  unfold OnlyFansCalendar.get_current_of_day. cbv zeta.
    fold now_berlin. fold today. f_equal. unfold of_day.
    assert ((now_berlin mod US_PER_DAY / US_PER_HOUR <? 1)
            = (now_berlin mod US_PER_DAY <? US_PER_HOUR)) as ->.
    { destruct (Z.ltb_spec (now_berlin mod US_PER_DAY) US_PER_HOUR).
      - rewrite Z.div_small by lia. reflexivity.
      - destruct (Z.ltb_spec (now_berlin mod US_PER_DAY / US_PER_HOUR) 1);
          [|done].
        exfalso. unfold US_PER_HOUR in *.
        Z.to_euclidean_division_equations. lia. }
    destruct (now_berlin mod US_PER_DAY <? US_PER_HOUR).
    + unfold OnlyFansCalendar.get_of_day_range. cbv zeta. cbn [fst].
      f_equal. lia.
    + reflexivity.
Qed.

(** An instant lies in the platform day of its Berlin date, or before
    01:00 in the one of the date before. *)
Lemma now_in_of_day (now : Z) :
  let now_berlin := fromutc BERLIN_TZ now in
  let today := now_berlin / US_PER_DAY in
  let of_day := if now_berlin mod US_PER_DAY <? US_PER_HOUR
                then today - 1 else today in
  (OnlyFansCalendar.get_of_day_range of_day).1 ≤ now
  ≤ (OnlyFansCalendar.get_of_day_range of_day).2.
Proof.
  intros now_berlin today of_day.
  assert (HDAY : 0 < US_PER_DAY) by (unfold US_PER_DAY, US_PER_HOUR; lia).
  pose proof (Z.mod_pos_bound now_berlin US_PER_DAY HDAY) as Hrb.
  assert (Hnb : now_berlin = today * US_PER_DAY + now_berlin mod US_PER_DAY).
  { unfold today. rewrite Z.mul_comm. apply Z.div_mod. lia. }
  pose proof (berlin_dst_utc_cases now) as Hdst. cbv zeta in Hdst.
    pose proof (Z.mod_pos_bound now US_PER_DAY HDAY) as Hru.
    assert (Hnow : now = now / US_PER_DAY * US_PER_DAY + now mod US_PER_DAY).
    { rewrite Z.mul_comm. apply Z.div_mod. lia. }
    assert (Hfrom : now_berlin
                    = now + (if berlin_dst_utc now then 2 * US_PER_HOUR
                             else US_PER_HOUR)) by reflexivity.
    set (du := now / US_PER_DAY) in *. set (ru := now mod US_PER_DAY) in *.
    set (rb := now_berlin mod US_PER_DAY) in *.
    rewrite !of_day_range_values. cbn [fst snd]. unfold of_day.
    pose proof (last_sunday_bounds (ord2year today)) as [Ha Hb].
    pose proof (ord2year_spec today) as Hy.
    destruct (Z.ltb_spec rb US_PER_HOUR) as [Hearly|Hlate].
    + (* before 01:00: the day of yesterday's date *)
      replace (today - 1 + 1) with today by lia. split.
      * destruct (summer_at_one (today - 1)); destruct (berlin_dst_utc now);
          unfold US_PER_DAY, US_PER_HOUR in *; lia.
      * destruct (summer_at_one today) eqn:Hsum;
          destruct (berlin_dst_utc now) eqn:Hd;
          try (unfold US_PER_DAY, US_PER_HOUR in *; lia).
        (* summer time at 01:00 today, but not at [now]: impossible *)
        exfalso. unfold summer_at_one in Hsum.
        apply andb_true_iff in Hsum as [Hs1 Hs2].
        apply Z.ltb_lt in Hs1. apply Z.leb_le in Hs2.
        assert (Hdu : du = today - 1)
          by (unfold US_PER_DAY, US_PER_HOUR in *; lia).
        assert (Hyear : ord2year (today - 1) = ord2year today)
          by (apply ord2year_pred; lia).
        rewrite Hdu, Hyear in Hdst.
        destruct (Z.ltb_spec ru US_PER_HOUR);
          [unfold US_PER_DAY, US_PER_HOUR in *; lia|].
        symmetry in Hdst. apply andb_false_iff in Hdst as [Hf|Hf].
        -- apply Z.leb_gt in Hf. lia.
        -- apply Z.ltb_ge in Hf. lia.
    + (* from 01:00 on: the day of today's date *)
      split.
      * destruct (summer_at_one today) eqn:Hsum;
          destruct (berlin_dst_utc now) eqn:Hd;
          try (unfold US_PER_DAY, US_PER_HOUR in *; lia).
        (* summer time at [now], but not at 01:00 today *)
        destruct (Z_lt_le_dec rb (2 * US_PER_HOUR)) as [Hrb2|Hrb2];
          [|unfold US_PER_DAY, US_PER_HOUR in *; lia].
        exfalso.
        assert (Hdu : du = today - 1)
          by (unfold US_PER_DAY, US_PER_HOUR in *; lia).
        rewrite Hdu in Hdst.
        destruct (Z.ltb_spec ru US_PER_HOUR);
          [unfold US_PER_DAY, US_PER_HOUR in *; lia|].
        symmetry in Hdst. apply andb_true_iff in Hdst as [Ht1 Ht2].
        apply Z.leb_le in Ht1. apply Z.ltb_lt in Ht2.
        pose proof (last_sunday_bounds (ord2year (today - 1))) as [Ha' Hb'].
        pose proof (ord2year_spec (today - 1)) as Hy'.
        assert (Hyear : ord2year today = ord2year (today - 1)).
        { apply ord2year_unique.
          pose proof (days_before_year_mono (ord2year (today - 1))
                        (ord2year (today - 1) + 1) ltac:(lia)). lia. }
        rewrite <- Hyear in Ht1, Ht2.
        unfold summer_at_one in Hsum. apply andb_false_iff in Hsum as [Hf|Hf].
        -- apply Z.ltb_ge in Hf. lia.
        -- apply Z.leb_gt in Hf. lia.
      * destruct (summer_at_one (today + 1)); destruct (berlin_dst_utc now);
          unfold US_PER_DAY, US_PER_HOUR in *; lia.
Qed.

(** X6. [get_current_of_day] returns the start of the platform day that is
    running at [now] (the one of yesterday's date before 01:00 Berlin
    time) and [now] itself; [now] lies in that platform day. *)
Theorem current_of_day_contains_now (now : Z) :
  let now_berlin := fromutc BERLIN_TZ now in
  let today := now_berlin / US_PER_DAY in
  let of_day := if now_berlin mod US_PER_DAY <? US_PER_HOUR
                then today - 1 else today in
  OnlyFansCalendar.get_current_of_day now
  = ((OnlyFansCalendar.get_of_day_range of_day).1, now) ∧
  (OnlyFansCalendar.get_of_day_range of_day).1 ≤ now
  ≤ (OnlyFansCalendar.get_of_day_range of_day).2.
Proof. split; [apply current_of_day_start | apply now_in_of_day]. Qed.

(** X7. From 01:00 Berlin time on, the day [get_previous_of_day] returns ends
    one microsecond before the day [get_current_of_day] starts. Before
    01:00 the two are the same platform day: the previous day returned is
    the one that is still running. *)
Theorem previous_of_day_and_current (now : Z) :
  let now_berlin := fromutc BERLIN_TZ now in
  let previous := OnlyFansCalendar.get_previous_of_day now in
  let current := OnlyFansCalendar.get_current_of_day now in
  if now_berlin mod US_PER_DAY <? US_PER_HOUR
  then previous.1 = current.1 ∧ previous.1 ≤ now ≤ previous.2
  else previous.2 + 1 = current.1 ∧ previous.2 < now.
Proof.
  intros now_berlin previous current.
  pose proof (current_of_day_start now) as Hc.
  pose proof (now_in_of_day now) as Hin. cbv zeta in Hc, Hin.
  fold now_berlin in Hc, Hin. fold current in Hc.
  unfold previous, OnlyFansCalendar.get_previous_of_day. cbv zeta.
  fold now_berlin. rewrite Hc. cbn [fst snd].
  destruct (now_berlin mod US_PER_DAY <? US_PER_HOUR).
  - split; [reflexivity | exact Hin].
  - pose proof (of_day_next_start (now_berlin / US_PER_DAY - 1)) as Hn.
    replace (now_berlin / US_PER_DAY - 1 + 1) with (now_berlin / US_PER_DAY)
      in Hn by lia.
    lia.
Qed.

Local Close Scope Z_scope.

(** ** What the commands keep of the registry *)

Lemma del_set_fresh {V} k (v : V) (d : pydict V) :
  PyDict.get k d = None → PyDict.del k (PyDict.set k v d) = d.
Proof.
  induction d as [|[k0 v0] d IH]; simpl.
  - by rewrite String.eqb_refl.
  - destruct (String.eqb_spec k0 k) as [->|Hne]; [done|]. intros Hget.
    simpl. destruct (String.eqb_spec k0 k); [done|]. by rewrite IH.
Qed.

Lemma keys_set_get {V} k (v v0 : V) (d : pydict V) :
  PyDict.get k d = Some v0 → PyDict.keys (PyDict.set k v d) = PyDict.keys d.
Proof.
  intros Hget. apply keys_set_present. apply elem_of_keys_get. by eexists.
Qed.

(** What [cmd_config] saves: the chat's record with one of the five
    settings replaced. *)
Lemma cmd_config_saved sti args chat_id M M' :
  (cmd_config sti args chat_id M).1 = Some M' →
  ∃ m m' (i : nat) v,
    PyDict.get chat_id M = Some m ∧
    M' = PyDict.set chat_id m' M ∧
    models m' = models m ∧ chat_type m' = chat_type m ∧
    settings m' = <[i := v]> (settings m) ∧
    (i = 4%nat → ∃ t : Z, v = PInt t ∧ (0 ≤ t ≤ 5)%Z).
Proof.
  unfold cmd_config.
  destruct (PyDict.get chat_id M) as [m|] eqn:Hget; [|done].
  destruct args as [|arg0 [|arg1 rest]]; [done..|]. cbv zeta.
  generalize (String.eqb (py_lower arg1) "on"). intros value.
  destruct (String.eqb (py_lower arg0) "daily");
    [intros [= <-]; eexists m, _, 0%nat, _; by repeat split|].
  destruct (String.eqb (py_lower arg0) "weekly");
    [intros [= <-]; eexists m, _, 1%nat, _; by repeat split|].
  destruct (String.eqb (py_lower arg0) "whale");
    [intros [= <-]; eexists m, _, 2%nat, _; by repeat split|].
  destruct (String.eqb (py_lower arg0) "chatter_report");
    [intros [= <-]; eexists m, _, 3%nat, _; by repeat split|].
  destruct (String.eqb (py_lower arg0) "threshold"); [|done].
  destruct (sti arg1) as [t|]; [|done].
  destruct (Z.leb_spec 0 t); [|done]. destruct (Z.leb_spec t 5); [|done].
  intros [= <-]. eexists m, _, 4%nat, _. repeat split; try done.
  intros _. by exists t.
Qed.

(** What [cmd_link] saves: the chat's record with one more model, or a
    fresh record with the one model and the settings of its chat type. *)
Lemma cmd_link_saved args chat_id M M' :
  saved_by (cmd_link args chat_id M) = Some M' →
  ∃ m' new,
    M' = PyDict.set chat_id m' M ∧
    match PyDict.get chat_id M with
    | Some m => m' = with_models m (models m ++ [new])
    | None =>
        models m' = [new] ∧
        ∃ chatter : bool,
          chat_type m' = PStr (if chatter then "chatter" else "agency") ∧
          settings m' = [PBool (negb chatter); PBool (negb chatter);
                         PBool chatter; PBool false; PInt 4]
    end.
Proof.
  unfold cmd_link.
  destruct args as [|arg0 [|arg1 opt]]; try done.
  destruct (match opt with [] => _ | _ => _ end) as [ct nick].
  destruct (negb _); [done|].
  destruct (PyDict.get chat_id M) as [existing|] eqn:Hget.
  - destruct (already_linked _ _ (models existing)); [done|].
    intros [= <-]. by eexists _, _.
  - destruct (bool_decide _); intros [= <-]; eexists _, _;
      (split; [reflexivity|]); (split; [reflexivity|]).
    + by exists true.
    + by exists false.
Qed.

(** What [cmd_unlink] saves: the registry without the chat, or with the
    chat's record and the models that are left, of which there is one at
    least. *)
Lemma cmd_unlink_saved args chat_id M M' :
  saved_by (cmd_unlink args chat_id M) = Some M' →
  ∃ m, PyDict.get chat_id M = Some m ∧
       (M' = PyDict.del chat_id M ∨
        ∃ ms, ms ≠ [] ∧ M' = PyDict.set chat_id (with_models m ms) M).
Proof.
  unfold cmd_unlink.
  destruct (PyDict.get chat_id M) as [m|] eqn:Hget; [|done].
  intros Hs. exists m. split; [done|]. revert Hs.
  destruct args as [|a args]; [by destruct (models m)|].
  destruct (String.eqb _ "all"); [intros [= <-]; by left|].
  destruct (find_model _ _ 0) as [[[i x]|]|]; try done.
  destruct (list_remove i x (models m)) as [|y ms].
  - intros [= <-]. by left.
  - intros [= <-]. right. by exists (y :: ms).
Qed.

(** X8. The commands never leave a chat without models in the registry: a
    link adds one, a removal of the last one removes the chat, and
    [/config] does not touch them. *)
Theorem commands_keep_a_model_per_chat
    (str_to_int : string → option Z) (args : list string) (chat_id : string)
    (M M' : pydict ChatMapping) :
  Forall has_models M.*2 →
  saved_by (cmd_link args chat_id M) = Some M' ∨
  saved_by (cmd_unlink args chat_id M) = Some M' ∨
  (cmd_config str_to_int args chat_id M).1 = Some M' →
  Forall has_models M'.*2.
Proof.
  intros HM [Hs|[Hs|Hs]].
  - apply cmd_link_saved in Hs as (m' & new & -> & Hm').
    apply Forall_values_set; [|done]. unfold has_models.
    destruct (PyDict.get chat_id M) as [m|].
    + subst m'. simpl. by destruct (models m).
    + destruct Hm' as [-> _]. done.
  - apply cmd_unlink_saved in Hs as (m & Hget & [->|(ms & Hms & ->)]).
    + by apply Forall_values_del.
    + by apply Forall_values_set.
  - apply cmd_config_saved in Hs
      as (m & m' & i & v & Hget & -> & Hmodels & _).
    apply Forall_values_set; [|done]. unfold has_models. rewrite Hmodels.
    exact (Forall_values_get _ _ _ _ HM Hget).
Qed.

Lemma commands_keep_a_model_per_chat_witness :
  Forall has_models
    [("-1001", mkChatMapping
                 [mkModelConfig (PStr "onlyfans") (PStr "222") (PStr "bella")]
                 (PStr "agency") (PBool true) (PBool true) (PBool false)
                 (PBool false) (PInt 4))].*2.
Proof.
  apply (commands_keep_a_model_per_chat digit_to_int ["BELLA"] "-1001"
           [("-1001", mkChatMapping two_bellas (PStr "agency") (PBool true)
                        (PBool true) (PBool false) (PBool false) (PInt 4))]).
  - repeat constructor. unfold has_models. simpl. discriminate.
  - right. left. reflexivity.
Defined.

(** X9. A whale threshold that is an integer from 0 to 5 in every chat stays
    one: [/config threshold] stores nothing else, a first link stores 4,
    and the other commands keep what is there. *)
Theorem commands_keep_threshold_in_range
    (str_to_int : string → option Z) (args : list string) (chat_id : string)
    (M M' : pydict ChatMapping) :
  Forall threshold_in_range M.*2 →
  saved_by (cmd_link args chat_id M) = Some M' ∨
  saved_by (cmd_unlink args chat_id M) = Some M' ∨
  (cmd_config str_to_int args chat_id M).1 = Some M' →
  Forall threshold_in_range M'.*2.
Proof.
  intros HM [Hs|[Hs|Hs]].
  - apply cmd_link_saved in Hs as (m' & new & -> & Hm').
    apply Forall_values_set; [|done].
    destruct (PyDict.get chat_id M) as [m|] eqn:Hget.
    + subst m'. exact (Forall_values_get _ _ _ _ HM Hget).
    + destruct Hm' as (_ & chatter & _ & Hset).
      injection Hset as _ _ _ _ Ht. exists 4%Z. split; [done | lia].
  - apply cmd_unlink_saved in Hs as (m & Hget & [->|(ms & Hms & ->)]).
    + by apply Forall_values_del.
    + apply Forall_values_set; [|done].
      exact (Forall_values_get _ _ _ _ HM Hget).
  - apply cmd_config_saved in Hs
      as (m & m' & i & v & Hget & -> & _ & _ & Hset & Hv).
    apply Forall_values_set; [|done].
    pose proof (Forall_values_get _ _ _ _ HM Hget) as Hm.
    unfold threshold_in_range in *. unfold settings in Hset.
    destruct i as [|[|[|[|[|i]]]]]; cbn in Hset;
      injection Hset as _ _ _ _ Ht; rewrite Ht; try exact Hm.
    by apply Hv.
Qed.

Lemma commands_keep_threshold_in_range_witness :
  Forall threshold_in_range
    [("-1001", mkChatMapping
                 [mkModelConfig (PStr "onlyfans") (PStr "111") (PStr "Bella")]
                 (PStr "agency") (PBool true) (PBool true) (PBool false)
                 (PBool false) (PInt 5))].*2.
Proof.
  apply (commands_keep_threshold_in_range digit_to_int ["Threshold"; "5"]
           "-1001" bella_mappings).
  - repeat constructor. exists 4%Z. split; [reflexivity | lia].
  - right. right. reflexivity.
Defined.

(** X10. Whatever [cmd_config] saves is the registry it loaded with one of the
    five settings of the chat replaced: the chats and their order, the
    records of the other chats, and the models and the type of this chat
    are as before. *)
Theorem cmd_config_changes_one_setting
    (str_to_int : string → option Z) (args : list string) (chat_id : string)
    (M M' : pydict ChatMapping) :
  (cmd_config str_to_int args chat_id M).1 = Some M' →
  PyDict.keys M' = PyDict.keys M ∧
  (∀ other, other ≠ chat_id → PyDict.get other M' = PyDict.get other M) ∧
  ∃ m m' (i : nat) v,
    PyDict.get chat_id M = Some m ∧ PyDict.get chat_id M' = Some m' ∧
    models m' = models m ∧ chat_type m' = chat_type m ∧
    settings m' = <[i := v]> (settings m).
Proof.
  intros Hs. apply cmd_config_saved in Hs
    as (m & m' & i & v & Hget & -> & Hmodels & Htype & Hset & _).
  split; [by eapply keys_set_get|]. split.
  - intros other Hne. by apply get_set_ne.
  - exists m, m', i, v. by rewrite get_set_eq.
Qed.

Lemma cmd_config_changes_one_setting_witness :
  ∃ m m' (i : nat) v,
    PyDict.get "-1001" bella_mappings = Some m ∧
    PyDict.get "-1001"
      [("-1001", mkChatMapping
                   [mkModelConfig (PStr "onlyfans") (PStr "111") (PStr "Bella")]
                   (PStr "agency") (PBool true) (PBool false) (PBool false)
                   (PBool false) (PInt 4))] = Some m' ∧
    models m' = models m ∧ chat_type m' = chat_type m ∧
    settings m' = <[i := v]> (settings m).
Proof.
  apply (cmd_config_changes_one_setting digit_to_int ["weekly"; "off"]
           "-1001" bella_mappings).
  reflexivity.
Defined.

(** X11. [/config threshold x] on a linked chat: an [x] that [int] refuses is
    answered as invalid, an integer outside 0..5 as out of range, and in
    both cases nothing is saved; an integer from 0 to 5 is stored as the
    chat's threshold. *)
Theorem cmd_config_threshold_bounds
    (str_to_int : string → option Z) (arg0 arg1 : string) (rest : list string)
    (chat_id : string) (M : pydict ChatMapping) :
  is_Some (PyDict.get chat_id M) →
  py_lower arg0 = "threshold" →
  let result := cmd_config str_to_int (arg0 :: arg1 :: rest) chat_id M in
  match str_to_int arg1 with
  | None => result = (None, Some ConfigThresholdInvalid)
  | Some t =>
      if decide (0 ≤ t ≤ 5)%Z then
        ∃ M', result = (Some M', Some (ConfigThresholdSet t)) ∧
              whale_alert_threshold <$> PyDict.get chat_id M' = Some (PInt t)
      else result = (None, Some ConfigThresholdOutOfRange)
  end.
Proof.
  intros [m Hget] Harg. unfold cmd_config. rewrite Hget, Harg. cbv zeta.
  cbn [String.eqb Ascii.eqb Bool.eqb].
  destruct (str_to_int arg1) as [t|]; [|done].
  destruct (decide (0 ≤ t ≤ 5)%Z) as [Hin|Hout].
  - destruct (Z.leb_spec 0 t); [|lia]. destruct (Z.leb_spec t 5); [|lia].
    eexists. split; [reflexivity|]. by rewrite get_set_eq.
  - destruct (Z.leb_spec 0 t); [|done]. destruct (Z.leb_spec t 5); [lia|done].
Qed.

Lemma cmd_config_threshold_bounds_witness :
  cmd_config digit_to_int ["THRESHOLD"; "9"] "-1001" bella_mappings
  = (None, Some ConfigThresholdOutOfRange).
Proof.
  apply (cmd_config_threshold_bounds digit_to_int "THRESHOLD" "9" []
           "-1001" bella_mappings).
  - by eexists.
  - reflexivity.
Defined.

(** ** Removing a model *)

Lemma py_eq_PStr v s : py_eq v (PStr s) = true → v = PStr s.
Proof.
  destruct v; simpl; try done.
  intros H. apply String.eqb_eq in H. by subst.
Qed.

(** Models that are equal answer to the same names. *)
Lemma model_eq_matches identifier y x :
  model_eq y x = true →
  model_matches identifier x = Some true →
  model_matches identifier y = Some true.
Proof.
  unfold model_eq. intros H.
  apply andb_true_iff in H as [H Hn]. apply andb_true_iff in H as [_ Ha].
  unfold model_matches.
  destruct (platform_account_id x) as [| | | |sa| |] eqn:Hx; try done.
  apply py_eq_PStr in Ha. rewrite Ha. simpl.
  destruct (String.eqb (py_lower sa) identifier); [done|].
  destruct (nickname x) as [| | | |sn| |] eqn:Hnx;
    try (by destruct (py_truthy _)).
  apply py_eq_PStr in Hn. by rewrite Hn.
Qed.

(** The loop stops at the first model that answers to the name. *)
Lemma find_model_first identifier ms (i j : nat) x :
  find_model identifier ms i = Some (Some (j, x)) →
  ∃ k : nat,
    j = (i + k)%nat ∧ ms !! k = Some x ∧
    model_matches identifier x = Some true ∧
    ∀ (k' : nat) y, (k' < k)%nat → ms !! k' = Some y →
                    model_matches identifier y = Some false.
Proof.
  revert i. induction ms as [|m ms IH]; intros i; [done|].
  cbn [find_model].
  destruct (model_matches identifier m) as [[|]|] eqn:Hm; try done;
    cbn [mbind option_bind].
  - intros [= <- <-]. exists 0%nat. repeat split; [lia|done|].
    intros k' y Hlt. lia.
  - intros H. apply IH in H as (k & -> & Hk & Hx & Hbefore).
    exists (S k). repeat split; [lia|done..|].
    intros [|k'] y Hlt; simpl.
    + by intros [= <-].
    + apply Hbefore. lia.
Qed.

(** [ms.remove(x)] takes the element at the index where [x] was found
    when no element before it equals [x]. *)
Lemma list_remove_at (i : nat) x ms :
  (∀ (k : nat) y, (k < i)%nat → ms !! k = Some y → model_eq y x = false) →
  is_Some (ms !! i) →
  list_remove i x ms = delete i ms.
Proof.
  revert i. induction ms as [|y ms IH]; intros i Hbefore [z Hz]; [done|].
  destruct i as [|i]; [done|]. cbn [list_remove].
  rewrite (Hbefore 0%nat y) by (done || lia). simpl. f_equal.
  apply IH; [|by exists z].
  intros k y' Hlt Hy'. apply (Hbefore (S k)); [lia | done].
Qed.

(** X12. A removal by name takes the first model of the chat that answers to
    the name, whether by its account id or by its nickname; the models
    after it stay, and a chat that is left without a model goes. *)
Theorem cmd_unlink_removes_first_match
    (args : list string) (chat_id : string) (M M' : pydict ChatMapping)
    (m : ChatMapping) :
  let identifier := py_lower (py_join_space args) in
  PyDict.get chat_id M = Some m →
  identifier ≠ "all" →
  saved_by (cmd_unlink args chat_id M) = Some M' →
  ∃ (i : nat) removed,
    models m !! i = Some removed ∧
    model_matches identifier removed = Some true ∧
    (∀ (j : nat) other, (j < i)%nat → models m !! j = Some other →
                        model_matches identifier other = Some false) ∧
    M' = match delete i (models m) with
         | [] => PyDict.del chat_id M
         | ms => PyDict.set chat_id (with_models m ms) M
         end.
Proof.
  intros identifier Hget Hall. unfold cmd_unlink. rewrite Hget.
  destruct args as [|a args]; [by destruct (models m)|].
  fold identifier. destruct (String.eqb_spec identifier "all"); [done|].
  destruct (find_model identifier (models m) 0) as [[[j x]|]|] eqn:Hfind;
    try done.
  apply find_model_first in Hfind as (k & -> & Hk & Hx & Hbefore).
  simpl. rewrite list_remove_at; [| |by exists x].
  - intros Hs. exists k, x. repeat split; try done.
    destruct (delete k (models m)); by injection Hs as <-.
  - intros k' y Hlt Hy. destruct (model_eq y x) eqn:Heq; [|done].
    pose proof (model_eq_matches identifier y x Heq Hx) as Hy'.
    rewrite (Hbefore k' y Hlt Hy) in Hy'. done.
Qed.

Lemma cmd_unlink_removes_first_match_witness :
  ∃ (i : nat) removed,
    two_bellas !! i = Some removed ∧
    model_matches "bella" removed = Some true ∧
    (∀ (j : nat) other, (j < i)%nat → two_bellas !! j = Some other →
                        model_matches "bella" other = Some false) ∧
    [("-1001", second_bella_mapping)]
    = match delete i two_bellas with
      | [] => PyDict.del "-1001" [("-1001", two_bellas_mapping)]
      | ms => PyDict.set "-1001" (with_models two_bellas_mapping ms)
                [("-1001", two_bellas_mapping)]
      end.
Proof.
  apply (cmd_unlink_removes_first_match ["BELLA"] "-1001"
           [("-1001", two_bellas_mapping)] [("-1001", second_bella_mapping)]
           two_bellas_mapping).
  - reflexivity.
  - discriminate.
  - reflexivity.
Defined.

(** X13. A link that creates the record of a chat is undone by removing the
    account that was linked: what is saved then is the registry from
    before the link. *)
Theorem link_then_unlink_restores
    (arg0 arg1 : string) (opt : list string) (chat_id : string)
    (M : pydict ChatMapping) :
  let p := py_lower (py_strip arg0) in
  PyDict.get chat_id M = None →
  p = "onlyfans" ∨ p = "fansly" →
  ∃ M1 r,
    cmd_link (arg0 :: arg1 :: opt) chat_id M = Answer (Some M1) r ∧
    saved_by (cmd_unlink [py_strip arg1] chat_id M1) = Some M.
Proof.
  intros p Hget Hp. unfold cmd_link. fold p.
  destruct (match opt with [] => _ | _ => _ end) as [ct nick].
  assert (negb (String.eqb p "onlyfans" || String.eqb p "fansly") = false)
    as -> by (by destruct Hp as [-> | ->]).
  rewrite Hget.
  destruct (bool_decide (ct = Some "chatter")); eexists _, _;
    (split; [reflexivity|]);
    unfold cmd_unlink; rewrite get_set_eq; cbn [py_join_space];
    (destruct (String.eqb _ "all");
       [by rewrite del_set_fresh|]);
    cbn [models find_model model_matches platform_account_id py_lower_val
         mbind option_bind];
    rewrite String.eqb_refl; cbn [list_remove saved_by];
    by rewrite del_set_fresh.
Qed.

Lemma link_then_unlink_restores_witness :
  ∃ M1 r,
    cmd_link ["OnlyFans"; "333"; "chatter"; "Cleo"] "-1002" bella_mappings
    = Answer (Some M1) r ∧
    saved_by (cmd_unlink [py_strip "333"] "-1002" M1) = Some bella_mappings.
Proof.
  apply (link_then_unlink_restores "OnlyFans" "333" ["chatter"; "Cleo"]
           "-1002" bella_mappings).
  - reflexivity.
  - left. reflexivity.
Defined.

(** ** The flat file: a record that cannot be read *)

Lemma load_items_bad (data : pydict pyval) (acc : pydict ChatMapping) :
  Exists (λ kv, decode_mapping kv.2 = None) data → load_items data acc = None.
Proof.
  intros Hbad. revert acc.
  induction Hbad as [[k md] data Hmd|[k md] data Hbad IH]; intros acc;
    cbn [load_items].
  - simpl in Hmd. by rewrite Hmd.
  - destruct (decode_mapping md); [apply IH | done].
Qed.

Lemma load_bad_file (data : pydict pyval) :
  Exists (λ kv, decode_mapping kv.2 = None) data →
  StorageManager.load (FileJson (PDict data)) = ([], FileJson (PDict data)).
Proof.
  intros Hbad. unfold StorageManager.load, st_bind, st_read, st_ret.
  by rewrite load_items_bad.
Qed.

(** X14. [StorageManager.load] reads all the records or none: when one record
    of the file cannot be decoded, the result is the empty registry, as
    for a missing file. The file itself is left as it is. *)
Theorem load_with_a_bad_record_is_empty (data : pydict pyval) :
  Exists (λ kv, decode_mapping kv.2 = None) data →
  StorageManager.load (FileJson (PDict data)) = ([], FileJson (PDict data)).
Proof. apply load_bad_file. Qed.

Lemma load_with_a_bad_record_is_empty_witness :
  StorageManager.load damaged_file = ([], damaged_file).
Proof.
  apply (load_with_a_bad_record_is_empty
           [("-1001", encode_mapping second_bella_mapping);
            ("-1002", PDict [("models", PList [PDict [("platform", PStr "fansly")]]);
                             ("chat_type", PStr "agency")])]).
  apply Exists_cons_tl, Exists_cons_hd. reflexivity.
Defined.

(** X15. With the flat file, a link in a chat while one record of the file
    cannot be decoded is answered as a first link, and the file is
    rewritten with the record of that chat alone: the records of all the
    other chats are gone from it. *)
Theorem link_over_a_bad_record_replaces_the_file
    (dbms_accepts : string → pydict pyval → bool)
    (data : pydict pyval) (arg0 arg1 : string) (opt : list string)
    (chat_id : string) :
  let p := py_lower (py_strip arg0) in
  Exists (λ kv, decode_mapping kv.2 = None) data →
  p = "onlyfans" ∨ p = "fansly" →
  ∃ m chat_type',
    run_command dbms_accepts JsonFile (cmd_link (arg0 :: arg1 :: opt) chat_id)
      (FileJson (PDict data))
    = (Some (ReplyLinked (py_strip arg1) p chat_type'),
       FileJson (PDict [(chat_id, encode_mapping m)])) ∧
    map model_key (models m) = [(PStr p, PStr (py_strip arg1))].
Proof.
  intros p Hbad Hp.
  unfold run_command. cbn [storage_load storage_save durable].
  unfold st_bind at 1 2.
  rewrite (load_bad_file data Hbad).
  unfold st_ret at 1. unfold cmd_link. fold p.
  destruct (match opt with [] => _ | _ => _ end) as [ct nick].
  assert (negb (String.eqb p "onlyfans" || String.eqb p "fansly") = false)
    as -> by (by destruct Hp as [-> | ->]).
  cbn [PyDict.get].
  destruct (bool_decide (ct = Some "chatter")); eexists _, _;
    (split; [reflexivity|]); reflexivity.
Qed.

Lemma link_over_a_bad_record_replaces_the_file_witness :
  ∃ m chat_type',
    run_command (λ _ _, true) JsonFile
      (cmd_link ["Fansly"; "777"] "-1003") damaged_file
    = (Some (ReplyLinked (py_strip "777") (py_lower (py_strip "Fansly"))
               chat_type'),
       FileJson (PDict [("-1003", encode_mapping m)])) ∧
    map model_key (models m)
    = [(PStr (py_lower (py_strip "Fansly")), PStr (py_strip "777"))].
Proof.
  apply (link_over_a_bad_record_replaces_the_file (λ _ _, true)
           [("-1001", encode_mapping second_bella_mapping);
            ("-1002", PDict [("models", PList [PDict [("platform", PStr "fansly")]]);
                             ("chat_type", PStr "agency")])]
           "Fansly" "777" [] "-1003").
  - apply Exists_cons_tl, Exists_cons_hd. reflexivity.
  - right. reflexivity.
Defined.

(** ** The chatter report *)

(** X16. [get_yesterday_performance] asks for two UTC dates: the end date is
    yesterday's Berlin date; the start date is the same date in winter
    and the date before it in summer, when 01:00 in Berlin is 23:00 UTC of
    the day before. *)
Theorem yesterday_performance_dates
    (http_get : request → option pyval) (str_to_float : string → option Q)
    (str_to_int : string → option Z) (platform' account_id : pyval) (now : Z) :
  let yesterday := (fromutc BERLIN_TZ now / US_PER_DAY - 1)%Z in
  let start_date :=
    (if summer_at_one yesterday then yesterday - 1 else yesterday)%Z in
  get_yesterday_performance http_get str_to_float str_to_int
    platform' account_id now
  = get_chatter_performance http_get str_to_float str_to_int
      platform' account_id
      (start_date * US_PER_DAY)%Z (yesterday * US_PER_DAY)%Z.
Proof.
  intros yesterday start_date.
  unfold get_yesterday_performance, get_chatter_performance. cbv zeta.
  fold yesterday.
  set (today := (fromutc BERLIN_TZ now / US_PER_DAY)%Z) in *.
  assert (Hs : (to_utc BERLIN_TZ (yesterday * US_PER_DAY + US_PER_HOUR)
                / US_PER_DAY = start_date)%Z).
  { unfold to_utc, start_date. rewrite offset_at_one.
    destruct (summer_at_one yesterday).
    - replace (yesterday * US_PER_DAY + US_PER_HOUR - 2 * US_PER_HOUR)%Z
        with ((yesterday - 1) * US_PER_DAY + 23 * US_PER_HOUR)%Z
        by (unfold US_PER_DAY; lia).
      apply day_of_wall. unfold US_PER_DAY, US_PER_HOUR. lia.
    - replace (yesterday * US_PER_DAY + US_PER_HOUR - US_PER_HOUR)%Z
        with (yesterday * US_PER_DAY + 0)%Z by lia.
      apply day_of_wall. unfold US_PER_DAY, US_PER_HOUR. lia. }
  assert (He : (to_utc BERLIN_TZ
                  (today * US_PER_DAY + (59 * 60 + 59) * 1000000)
                / US_PER_DAY = yesterday)%Z).
  { unfold to_utc. cbn [utcoffset BERLIN_TZ].
    rewrite berlin_dst_wall_early by (unfold US_PER_HOUR; lia).
    destruct (_ && _).
    - replace (today * US_PER_DAY + (59 * 60 + 59) * 1000000
               - 2 * US_PER_HOUR)%Z
        with (yesterday * US_PER_DAY
              + (22 * US_PER_HOUR + (59 * 60 + 59) * 1000000))%Z
        by (unfold yesterday, US_PER_DAY; lia).
      apply day_of_wall. unfold US_PER_DAY, US_PER_HOUR. lia.
    - replace (today * US_PER_DAY + (59 * 60 + 59) * 1000000
               - US_PER_HOUR)%Z
        with (yesterday * US_PER_DAY
              + (23 * US_PER_HOUR + (59 * 60 + 59) * 1000000))%Z
        by (unfold yesterday, US_PER_DAY; lia).
      apply day_of_wall. unfold US_PER_DAY, US_PER_HOUR. lia. }
  rewrite Hs, He.
  rewrite !Z.div_mul by (unfold US_PER_DAY, US_PER_HOUR; lia).
  reflexivity.
Qed.

(** X17. An account whose chatter request fails is left out of the report of
    the chat: the report is the one the chat would get without these
    accounts. *)
Theorem chatter_report_skips_failed_accounts
    (http_get : request → option pyval) (str_to_float : string → option Q)
    (str_to_int : string → option Z) (chat_id : string)
    (mapping : ChatMapping) (now : Z) :
  let answered (model : ModelConfig) :=
    is_Some (get_yesterday_performance http_get str_to_float str_to_int
               (platform model) (platform_account_id model) now) in
  chatter_report_for http_get str_to_float str_to_int chat_id mapping now
  = chatter_report_for http_get str_to_float str_to_int chat_id
      (with_models mapping (filter answered (models mapping))) now.
Proof.
  intros answered. unfold chatter_report_for. cbn [models with_models].
  assert (Hf : ∀ ms,
             fetch_chatters http_get str_to_float str_to_int ms now
             = fetch_chatters http_get str_to_float str_to_int
                 (filter answered ms) now); [|by rewrite <- Hf].
  induction ms as [|model ms IH]; [done|].
  rewrite filter_cons. unfold answered at 1.
  destruct (decide _) as [[l Hl]|Hnone]; cbn [fetch_chatters].
  - by rewrite <- IH.
  - rewrite <- IH.
    destruct (get_yesterday_performance _ _ _ _ _ _);
      [by destruct Hnone|].
    by destruct (fetch_chatters _ _ _ ms now).
Qed.

(** *** Sums *)

Lemma fold_left_Zadd_shift (l : list Z) (a : Z) :
  fold_left Z.add l a = (a + fold_left Z.add l 0)%Z.
Proof.
  revert a. induction l as [|x l IH]; intros a; simpl; [lia|].
  rewrite (IH (a + x)%Z), (IH (0 + x)%Z). lia.
Qed.

Lemma z_sum_cons (x : Z) (l : list Z) : z_sum (x :: l) = (x + z_sum l)%Z.
Proof. unfold z_sum. simpl. apply fold_left_Zadd_shift. Qed.

Lemma z_sum_perm (l l' : list Z) : l ≡ₚ l' → z_sum l = z_sum l'.
Proof.
  induction 1 as [|x l l' _ IH|x y l|l l' l'' _ IH1 _ IH2];
    rewrite ?z_sum_cons; [done|lia|lia|congruence].
Qed.

Lemma fold_left_Qplus_shift (l : list Q) (a : Q) :
  (fold_left Qplus l a == a + fold_left Qplus l 0)%Q.
Proof.
  revert a. induction l as [|x l IH]; intros a; simpl; [lra|].
  rewrite (IH (a + x)%Q), (IH (0 + x)%Q). lra.
Qed.

Lemma py_sum_cons (x : Q) (l : list Q) : (py_sum (x :: l) == x + py_sum l)%Q.
Proof.
  unfold py_sum. simpl. rewrite fold_left_Qplus_shift. lra.
Qed.

Lemma py_sum_perm (l l' : list Q) : l ≡ₚ l' → (py_sum l == py_sum l')%Q.
Proof.
  induction 1 as [|x l l' _ IH|x y l|l l' l'' _ IH1 _ IH2];
    rewrite ?py_sum_cons; [reflexivity|lra|lra|].
  by rewrite IH1.
Qed.

(** *** The merge keeps the totals *)

Section MergeTotals.

Variables (count : ChatterStats → Z) (sum_count : chatter_sums → Z).
Hypothesis sum_count_add :
  ∀ c s, sum_count (add_stats c s) = (sum_count c + count s)%Z.
Hypothesis sum_count_none : sum_count no_sums = 0%Z.

Lemma combine_into_count k stats c :
  z_sum (map (λ e, sum_count e.2.2) (combine_into k stats c))
  = (z_sum (map (λ e, sum_count e.2.2) c) + count stats)%Z.
Proof.
  induction c as [|[k' [n a]] c IH]; simpl.
  - rewrite z_sum_cons, sum_count_add, sum_count_none. unfold z_sum. simpl. lia.
  - destruct (decide (k' = k)); simpl; rewrite !z_sum_cons; simpl.
    + rewrite sum_count_add. lia.
    + rewrite IH. lia.
Qed.

Lemma combine_chatters_count all c R :
  combine_chatters all c = Some R →
  z_sum (map (λ e, sum_count e.2.2) R)
  = (z_sum (map (λ e, sum_count e.2.2) c) + z_sum (map count all))%Z.
Proof.
  revert c. induction all as [|s all IH]; intros c; simpl.
  - intros [= <-]. unfold z_sum at 3. simpl. lia.
  - destruct (key_of (chatter_name s)) as [k|]; [|done]. simpl.
    intros H. rewrite (IH _ H), combine_into_count, z_sum_cons. lia.
Qed.

End MergeTotals.

Lemma combine_into_sales k stats c :
  (py_sum (map (λ e, sum_sales e.2.2) (combine_into k stats c))
   == py_sum (map (λ e, sum_sales e.2.2) c) + total_sales stats)%Q.
Proof.
  induction c as [|[k' [n a]] c IH]; simpl.
  - rewrite py_sum_cons. unfold py_sum. simpl. lra.
  - destruct (decide (k' = k)); simpl; rewrite !py_sum_cons; simpl.
    + lra.
    + rewrite IH. lra.
Qed.

Lemma combine_chatters_sales all c R :
  combine_chatters all c = Some R →
  (py_sum (map (λ e, sum_sales e.2.2) R)
   == py_sum (map (λ e, sum_sales e.2.2) c) + py_sum (map total_sales all))%Q.
Proof.
  revert c. induction all as [|s all IH]; intros c; simpl.
  - intros [= <-]. unfold py_sum at 3. simpl. lra.
  - destruct (key_of (chatter_name s)) as [k|]; [|done]. simpl.
    intros H. rewrite (IH _ H), combine_into_sales, py_sum_cons. lra.
Qed.

Lemma map_to_stats (f : ChatterStats → Z) (g : chatter_sums → Z)
    (R : list (hkey * (pyval * chatter_sums))) :
  (∀ e, f (to_stats e) = g e.2.2) →
  map f (map to_stats R) = map (λ e, g e.2.2) R.
Proof. intros Hfg. rewrite map_map. apply map_ext. intros e. apply Hfg. Qed.

(** X18. The merge neither loses nor doubles anything: the messages, the
    templates and the manual messages of the merged records add up to
    those of all the fetched records, and so do the sales (as rational
    numbers: the merge adds them up in another order). The totals at the
    head of the report are those of the fetched records. *)
Theorem merge_keeps_the_totals (all final : list ChatterStats) :
  merge_chatters all = Some final →
  (report_totals final).1.2 = z_sum (map total_messages all) ∧
  z_sum (map template_messages final) = z_sum (map template_messages all) ∧
  z_sum (map manual_messages final) = z_sum (map manual_messages all) ∧
  ((report_totals final).1.1 == py_sum (map total_sales all))%Q.
Proof.
  unfold merge_chatters.
  destruct (combine_chatters all []) as [R|] eqn:HR; [|done].
  intros [= <-]. cbn [report_totals fst snd].
  pose proof (sort_by_sales_desc_perm (map to_stats R)) as Hp.
  repeat split.
  - rewrite (z_sum_perm _ _ (Permutation_map total_messages Hp)).
    rewrite (map_to_stats _ sum_messages) by (by intros [k [n a]]).
    by rewrite (combine_chatters_count total_messages sum_messages) with (c := [])
      (all := all).
  - rewrite (z_sum_perm _ _ (Permutation_map template_messages Hp)).
    rewrite (map_to_stats _ sum_template) by (by intros [k [n a]]).
    by rewrite (combine_chatters_count template_messages sum_template)
      with (c := []) (all := all).
  - rewrite (z_sum_perm _ _ (Permutation_map manual_messages Hp)).
    rewrite (map_to_stats _ sum_manual) by (by intros [k [n a]]).
    by rewrite (combine_chatters_count manual_messages sum_manual)
      with (c := []) (all := all).
  - rewrite (py_sum_perm _ _ (Permutation_map total_sales Hp)).
    rewrite map_map.
    rewrite (map_ext (λ e, total_sales (to_stats e)) (λ e, sum_sales e.2.2))
      by (by intros [k [n a]]).
    rewrite (combine_chatters_sales all [] R HR). unfold py_sum at 1. simpl.
    lra.
Qed.

Lemma merge_keeps_the_totals_witness :
  (report_totals merged_sample).1.2
  = z_sum (map total_messages [marc_a; lena_a; marc_b]).
Proof.
  apply (merge_keeps_the_totals [marc_a; lena_a; marc_b] merged_sample).
  reflexivity.
Defined.

(** ** Revenue when the subscribers cannot be fetched *)

(** X19. A failure of the subscribers request does not fail
    [calculate_revenue]: the amount, the currency and the count are what
    they are with the subscribers, and the two subscriber numbers are
    [None]. *)
Theorem revenue_without_subscribers
    (http_get : request → option pyval) (str_to_float : string → option Q)
    (platform' account_id : pyval) (start end_ : Z) (stats : RevenueStats) :
  calculate_revenue http_get str_to_float platform' account_id start end_
  = Some stats →
  calculate_revenue (without_subscribers http_get) str_to_float
    platform' account_id start end_
  = Some {| total_amount := total_amount stats;
            currency := currency stats;
            transaction_count := transaction_count stats;
            start_time := start_time stats;
            end_time := end_time stats;
            new_subscribers := PNone;
            total_subscribers := PNone |}.
Proof.
  unfold calculate_revenue, get_transactions, get_subscribers.
  destruct platform' as [| | | |p| |]; try done.
  cbn [without_subscribers].
  destruct (http_get (ReqTransactions _ _ _ _ _)) as [[| | | | | |d]|];
    try done.
  cbn [mbind option_bind].
  destruct (py_iter _) as [transactions|]; [|done]. cbn [mbind option_bind].
  destruct (revenue_loop _ _ _) as [acc|]; [|done]. cbn [mbind option_bind].
  destruct (py_len _) as [n|]; [|done]. cbn [mbind option_bind].
  by intros [= <-].
Qed.

Lemma revenue_without_subscribers_witness :
  ∃ stats,
    calculate_revenue (without_subscribers subscribers_http_get)
      sample_str_to_float (PStr "OnlyFans") (PStr "maxes") 0 1 = Some stats ∧
    transaction_count stats = 5%nat ∧ new_subscribers stats = PNone.
Proof.
  destruct (calculate_revenue subscribers_http_get sample_str_to_float
              (PStr "OnlyFans") (PStr "maxes") 0 1) as [stats|] eqn:E;
    [|discriminate E].
  eexists. split.
  - exact (revenue_without_subscribers subscribers_http_get
             sample_str_to_float (PStr "OnlyFans") (PStr "maxes") 0 1 stats E).
  - cbn [transaction_count new_subscribers]. split; [|reflexivity].
    injection E as <-. reflexivity.
Defined.

(** ** The relational backend: what is saved is what is loaded *)

Lemma mapM_model_rows k (ms : list ModelConfig) :
  mapM (model_row_of k) (map encode_model ms)
  = Some (map (λ x, mkModelRow k (platform x) (platform_account_id x)
                      (nickname x)) ms).
Proof.
  apply mapM_Some. induction ms as [|x ms IH]; simpl; constructor; done.
Qed.

Lemma mapM_model_row_of_chat k l rows :
  mapM (model_row_of k) l = Some rows → Forall (λ r, mr_chat_id r = k) rows.
Proof.
  intros H. apply mapM_Some in H.
  induction H as [|x r l rows Hx _ IH]; constructor; [|done].
  destruct x; try done. by injection Hx as <-.
Qed.

(** What [save_mapping] does with the dictionary of the wrapper. *)
Lemma save_mapping_dict dbms k m s :
  save_mapping dbms k (DatabaseStorageWrapper.mapping_dict m) s
  = if dbms k (DatabaseStorageWrapper.mapping_dict m)
    then (Done, mkDb (PyDict.set k (row_of m) (chat_mappings s))
                     (filter (λ r, mr_chat_id r ≠ k) (chat_models s)
                      ++ rows_of k m))
    else (Raised, s).
Proof.
  unfold save_mapping, DatabaseStorageWrapper.mapping_dict.
  cbn [PyDict.get_default PyDict.get String.eqb Ascii.eqb Bool.eqb py_iter].
  by rewrite mapM_model_rows.
Qed.

Lemma filter_none {A} (P : A → Prop) `{∀ x, Decision (P x)} (l : list A) :
  Forall (λ x, ¬ P x) l → filter P l = [].
Proof.
  induction 1 as [|x l Hx _ IH]; [done|].
  by rewrite filter_cons, decide_False, IH.
Qed.

Lemma filter_chat_rows k (ms : list model_row) (rows : list model_row) :
  Forall (λ r, mr_chat_id r = k) rows →
  filter (λ r, mr_chat_id r = k)
         (filter (λ r, mr_chat_id r ≠ k) ms ++ rows) = rows.
Proof.
  intros Hrows. rewrite filter_app, list_filter_filter.
  rewrite (filter_none _ ms) by (apply Forall_forall; by intros r _ [? ?]).
  simpl. induction Hrows as [|r rows Hr _ IH]; [done|].
  by rewrite filter_cons, decide_True, IH.
Qed.

Lemma filter_other_rows k k' (ms : list model_row) (rows : list model_row) :
  k' ≠ k → Forall (λ r, mr_chat_id r = k) rows →
  filter (λ r, mr_chat_id r = k')
         (filter (λ r, mr_chat_id r ≠ k) ms ++ rows)
  = filter (λ r, mr_chat_id r = k') ms.
Proof.
  intros Hne Hrows. rewrite filter_app, list_filter_filter.
  rewrite (filter_none _ rows)
    by (eapply Forall_impl; [exact Hrows|]; simpl; intros r Hr; congruence).
  rewrite app_nil_r. apply list_filter_iff. intros r.
  split; [by intros [? _] | intros Hr; split; [done | congruence]].
Qed.

Lemma decode_model_rows k (ms : list ModelConfig) :
  mapM decode_model
    (map (λ r, PDict [("platform", mr_platform r);
                      ("platform_account_id", mr_platform_account_id r);
                      ("nickname", mr_nickname r)])
         (map (λ x, mkModelRow k (platform x) (platform_account_id x)
                      (nickname x)) ms))
  = Some ms.
Proof.
  apply mapM_Some. induction ms as [|[p a n] ms IH]; simpl; constructor; done.
Qed.

(** The rows of a record are read back as the record. *)
Lemma load_saved_rows k m cm ms :
  (load_mapping k
     (mkDb (PyDict.set k (row_of m) cm)
           (filter (λ r, mr_chat_id r ≠ k) ms ++ rows_of k m))).1
  ≫= DatabaseStorageWrapper.load_entry = Some m.
Proof.
  unfold load_mapping. cbn [fst chat_mappings chat_models].
  rewrite get_set_eq, filter_chat_rows.
  - cbn [mbind option_bind]. unfold DatabaseStorageWrapper.load_entry.
    cbn [PyDict.get_default PyDict.get String.eqb Ascii.eqb Bool.eqb py_iter
         mbind option_bind].
    unfold rows_of. rewrite decode_model_rows. cbn [mbind option_bind].
    by destruct m.
  - unfold rows_of. apply Forall_forall. intros r Hr.
    apply list_elem_of_fmap in Hr as (x & -> & _). done.
Qed.

(** [save_mapping] for one chat leaves what is read for another. *)
Lemma save_mapping_other dbms k md s k' :
  k' ≠ k →
  (load_mapping k' (save_mapping dbms k md s).2).1 = (load_mapping k' s).1.
Proof.
  intros Hne. unfold save_mapping.
  destruct (py_iter _) as [l|]; [|done].
  destruct (mapM _ l) as [rows|] eqn:Hrows; [|done].
  destruct (dbms k md); [|done].
  unfold load_mapping. cbn [fst snd chat_mappings chat_models].
  rewrite get_set_ne by done.
  by rewrite (filter_other_rows k k' _ rows Hne
                (mapM_model_row_of_chat _ _ _ Hrows)).
Qed.

Lemma save_each_other dbms (S : pydict ChatMapping) s k' :
  k' ∉ PyDict.keys S →
  (load_mapping k' (DatabaseStorageWrapper.save_each dbms S s).2).1
  = (load_mapping k' s).1.
Proof.
  revert s. induction S as [|[k m] S IH]; intros s; [done|].
  simpl. rewrite not_elem_of_cons. intros [Hne Hk'].
  cbn [DatabaseStorageWrapper.save_each]. unfold st_bind.
  pose proof (save_mapping_other dbms k
                (DatabaseStorageWrapper.mapping_dict m) s k' Hne) as Hother.
  destruct (save_mapping dbms k (DatabaseStorageWrapper.mapping_dict m) s)
    as [[|] s1]; cbn [snd] in Hother.
  - etransitivity; [exact (IH s1 Hk') | exact Hother].
  - exact Hother.
Qed.

(** After a [save_each] that went through, every record is read back as
    it was saved. *)
Lemma save_each_saved dbms (S : pydict ChatMapping) s s' :
  NoDup (PyDict.keys S) →
  DatabaseStorageWrapper.save_each dbms S s = (Done, s') →
  ∀ k m, PyDict.get k S = Some m →
         (load_mapping k s').1 ≫= DatabaseStorageWrapper.load_entry = Some m.
Proof.
  revert s. induction S as [|[k0 m0] S IH]; intros s; [done|].
  change (PyDict.keys ((k0, m0) :: S)) with (k0 :: PyDict.keys S).
  rewrite NoDup_cons. intros [Hk0 Hnd].
  cbn [DatabaseStorageWrapper.save_each PyDict.get]. unfold st_bind.
  rewrite save_mapping_dict.
  destruct (dbms k0 _); [|done].
  intros Hsave k m.
  destruct (String.eqb_spec k0 k) as [->|Hne].
  - intros [= <-].
    replace s' with (DatabaseStorageWrapper.save_each dbms S
                       (mkDb (PyDict.set k (row_of m0) (chat_mappings s))
                             (filter (λ r, mr_chat_id r ≠ k) (chat_models s)
                              ++ rows_of k m0))).2
      by (by rewrite Hsave).
    rewrite save_each_other by done. apply load_saved_rows.
  - intros Hget. exact (IH _ Hnd Hsave k m Hget).
Qed.

(** What [load_all_mappings] collects for a chat. *)
Lemma load_each_get ids acc s k :
  PyDict.get k (load_each ids acc s).1
  = match (if decide (k ∈ ids) then (load_mapping k s).1 else None) with
    | Some d => Some d
    | None => PyDict.get k acc
    end.
Proof.
  revert acc. induction ids as [|k0 ids IH]; intros acc.
  - by rewrite decide_False by apply not_elem_of_nil.
  - cbn [load_each]. unfold st_bind.
    assert (Hcase : load_mapping k0 s = (None, s) ∨
                    ∃ x d, load_mapping k0 s = (Some (x :: d), s)).
    { unfold load_mapping.
      destruct (PyDict.get k0 (chat_mappings s));
        [right; by eexists _, _ | by left]. }
    destruct Hcase as [E|(x & d & E)]; rewrite E; cbv beta iota; rewrite IH.
    + destruct (decide (k = k0)) as [->|Hne].
      * rewrite (decide_True (P := k0 ∈ k0 :: ids))
          by (apply elem_of_cons; by left).
        rewrite E. cbn [fst]. by destruct (decide (k0 ∈ ids)).
      * destruct (decide (k ∈ ids)) as [Hin|Hnin].
        -- by rewrite decide_True by (apply elem_of_cons; by right).
        -- rewrite decide_False; [done|].
           rewrite elem_of_cons. by intros [?|?].
    + destruct (decide (k = k0)) as [->|Hne].
      * rewrite (decide_True (P := k0 ∈ k0 :: ids))
          by (apply elem_of_cons; by left).
        rewrite E. cbn [fst].
        destruct (decide (k0 ∈ ids)); [done | by rewrite get_set_eq].
      * rewrite get_set_ne by done.
        destruct (decide (k ∈ ids)) as [Hin|Hnin].
        -- by rewrite decide_True by (apply elem_of_cons; by right).
        -- rewrite decide_False; [done|].
           rewrite elem_of_cons. by intros [?|?].
Qed.

Lemma load_each_NoDup ids acc s :
  NoDup (PyDict.keys acc) → NoDup (PyDict.keys (load_each ids acc s).1).
Proof.
  revert acc. induction ids as [|k0 ids IH]; intros acc Hacc; [done|].
  cbn [load_each]. unfold st_bind, load_mapping.
  destruct (PyDict.get k0 (chat_mappings s)); apply IH; [|done].
  by apply NoDup_keys_set.
Qed.

(** What the wrapper's [load] makes of the dictionaries. *)
Lemma load_entries_get items acc M k :
  DatabaseStorageWrapper.load_entries items acc = Some M →
  NoDup (PyDict.keys items) →
  PyDict.get k M
  = match PyDict.get k items with
    | Some md => DatabaseStorageWrapper.load_entry md
    | None => PyDict.get k acc
    end.
Proof.
  revert acc. induction items as [|[k0 md0] items IH]; intros acc.
  - by intros [= <-].
  - cbn [DatabaseStorageWrapper.load_entries PyDict.get].
    change (PyDict.keys ((k0, md0) :: items)) with (k0 :: PyDict.keys items).
    destruct (DatabaseStorageWrapper.load_entry md0) as [m0|] eqn:Hm0;
      [|done].
    cbn [mbind option_bind]. rewrite NoDup_cons. intros HM [Hk0 Hnd].
    rewrite (IH _ HM Hnd).
    destruct (String.eqb_spec k0 k) as [->|Hne].
    + apply get_None_keys in Hk0. by rewrite Hk0, get_set_eq.
    + destruct (PyDict.get k items); [done|]. by apply get_set_ne.
Qed.

Lemma wrapper_save_as_save_each dbms (S : pydict ChatMapping) s :
  ∃ s1, DatabaseStorageWrapper.save dbms S s
        = DatabaseStorageWrapper.save_each dbms S s1.
Proof.
  unfold DatabaseStorageWrapper.save, st_bind.
  destruct (load_all_mappings s) as [existing s0].
  destruct (DatabaseStorageWrapper.delete_each _ s0) as [[] s1].
  by exists s1.
Qed.

(** X20. After a [save] of the wrapper that went through, its [load] returns
    a registry with the same record for every chat, and no other chat.
    (The keys of the saved registry are distinct, as the keys of a
    dictionary are, and the fields of its records have the types of
    their columns.) *)
Theorem database_save_load_roundtrip
    (dbms_accepts : string → pydict pyval → bool)
    (S : pydict ChatMapping) (s : db) :
  NoDup (PyDict.keys S) →
  Forall (λ m, column_typed m = true) S.*2 →
  (DatabaseStorageWrapper.save dbms_accepts S s).1 = Done →
  ∃ M,
    (DatabaseStorageWrapper.load
       (DatabaseStorageWrapper.save dbms_accepts S s).2).1 = Some M ∧
    ∀ chat_id, PyDict.get chat_id M = PyDict.get chat_id S.
Proof.
  intros Hnd _ Hdone.
  pose proof (wrapper_save_keys dbms_accepts S s) as Hkeys.
  destruct (wrapper_save_as_save_each dbms_accepts S s) as [s1 Hsave].
  rewrite Hsave in *.
  destruct (DatabaseStorageWrapper.save_each dbms_accepts S s1)
    as [r s'] eqn:Heach.
  cbn [fst snd] in *. subst r.
  destruct (wrapper_load_total s') as (M & HM & _).
  exists M. split; [done|]. intros k.
  unfold DatabaseStorageWrapper.load, st_bind, st_ret in HM.
  pose proof (load_each_get (PyDict.keys (chat_mappings s')) [] s' k) as HD.
  pose proof (load_each_NoDup (PyDict.keys (chat_mappings s')) [] s'
                (NoDup_nil_2)) as HndD.
  unfold load_all_mappings, st_bind, st_read in HM.
  destruct (load_each (PyDict.keys (chat_mappings s')) [] s') as [D s2].
  cbn [fst] in *.
  rewrite (load_entries_get D [] M k HM HndD), HD. cbn [PyDict.get].
  destruct (PyDict.get k S) as [m|] eqn:HS.
  - pose proof (save_each_saved dbms_accepts S s1 s' Hnd Heach k m HS) as Hm.
    destruct (load_mapping k s').1 as [d|] eqn:Hd; [|done].
    cbn [mbind option_bind] in Hm.
    rewrite decide_True; [done|].
    apply elem_of_keys_get. unfold load_mapping in Hd. cbn [fst] in Hd.
    by destruct (PyDict.get k (chat_mappings s')).
  - rewrite decide_False; [done|]. intros Hin.
    apply Hkeys, elem_of_keys_get in Hin as [m Hm]. congruence.
Qed.

Lemma database_save_load_roundtrip_witness :
  ∃ M,
    (DatabaseStorageWrapper.load
       (DatabaseStorageWrapper.save (λ _ _, true) sample_registry
          sample_db).2).1 = Some M ∧
    ∀ chat_id, PyDict.get chat_id M = PyDict.get chat_id sample_registry.
Proof.
  apply (database_save_load_roundtrip (λ _ _, true) sample_registry sample_db).
  - unfold sample_registry, PyDict.keys. cbn [map fst].
    apply NoDup_cons. split; [|apply NoDup_singleton].
    intros H. apply list_elem_of_singleton in H. discriminate H.
  - repeat constructor.
  - vm_compute. reflexivity.
Defined.

(** ** Today's revenue for a named model *)

Lemma find_model_found identifier ms (n i : nat) model :
  ms !! i = Some model →
  model_matches identifier model = Some true →
  (∀ (j : nat) other, (j < i)%nat → ms !! j = Some other →
                      model_matches identifier other = Some false) →
  find_model identifier ms n = Some (Some ((n + i)%nat, model)).
Proof.
  revert n i. induction ms as [|m ms IH]; intros n i Hi Hm Hbefore; [done|].
  cbn [find_model]. destruct i as [|i].
  - injection Hi as ->. rewrite Hm. cbn [mbind option_bind].
    by rewrite Nat.add_0_r.
  - rewrite (Hbefore 0%nat m) by (done || lia). cbn [mbind option_bind].
    rewrite (IH (S n) i Hi Hm).
    + do 3 f_equal. lia.
    + intros j other Hlt Hj. apply (Hbefore (S j)); [lia | done].
Qed.

(** X21. [/today name] (and [/stats name]) answers with the report of one
    model of this chat, the first that answers to the name: it is the
    answer [/today] gives in a chat that has this model alone. *)
Theorem cmd_today_named_model
    (http_get : request → option pyval) (str_to_float : string → option Q)
    (name : string) (rest : list string) (chat_id : string)
    (M : pydict ChatMapping) (m : ChatMapping) (i : nat) (model : ModelConfig)
    (now : Z) :
  PyDict.get chat_id M = Some m →
  py_lower name ≠ "" →
  models m !! i = Some model →
  model_matches (py_lower name) model = Some true →
  (∀ (j : nat) other, (j < i)%nat → models m !! j = Some other →
                      model_matches (py_lower name) other = Some false) →
  cmd_today http_get str_to_float (name :: rest) chat_id M now
  = cmd_today http_get str_to_float [] chat_id
      [(chat_id, with_models m [model])] now.
Proof.
  intros Hget Hname Hi Hm Hbefore. unfold cmd_today.
  rewrite Hget. cbn [PyDict.get]. rewrite String.eqb_refl.
  destruct (String.eqb_spec (py_lower name) "") as [|_]; [done|].
  rewrite (find_model_found _ _ 0 i model Hi Hm Hbefore).
  reflexivity.
Qed.

Lemma cmd_today_named_model_witness :
  cmd_today sample_http_get sample_str_to_float ["BELLA"] "-1001"
    [("-1001", two_bellas_mapping)] 0
  = cmd_today sample_http_get sample_str_to_float [] "-1001"
      [("-1001", with_models two_bellas_mapping
                   [mkModelConfig (PStr "onlyfans") (PStr "111")
                      (PStr "Bella")])] 0.
Proof.
  apply (cmd_today_named_model sample_http_get sample_str_to_float "BELLA" []
           "-1001" [("-1001", two_bellas_mapping)] two_bellas_mapping 0
           (mkModelConfig (PStr "onlyfans") (PStr "111") (PStr "Bella")) 0).
  - reflexivity.
  - discriminate.
  - reflexivity.
  - reflexivity.
  - intros j other Hlt. lia.
Defined.

(** ** Commands that change nothing *)

(** X22. A command that saves nothing leaves the stored state as it was, with
    the file and with the database: loading does not write. *)
Theorem command_without_save_keeps_the_state
    (dbms_accepts : string → pydict pyval → bool) (b : backend)
    (command : pydict ChatMapping → outcome) (s : durable b) :
  (∀ M, saved_by (command M) = None) →
  (run_command dbms_accepts b command s).2 = s.
Proof.
  intros Hnone. unfold run_command.
  assert (Hload : (storage_load b s).2 = s).
  { destruct b; cbn [storage_load durable] in *.
    - reflexivity.
    - unfold DatabaseStorageWrapper.load, st_bind, st_ret.
      pose proof (load_all_mappings_state s) as Hs.
      destruct (load_all_mappings s) as [existing s0]. exact Hs. }
  unfold st_bind at 1.
  destruct (storage_load b s) as [[M|] s0]; cbn [snd] in Hload; subst s0;
    [|done].
  specialize (Hnone M).
  by destruct (command M) as [[M'|] r|].
Qed.

Lemma command_without_save_keeps_the_state_witness :
  (run_command (λ _ _, true) Postgres
     (λ M, cmd_yesterday sample_http_get sample_str_to_float "-1001" M 0)
     sample_db).2 = sample_db.
Proof.
  apply (command_without_save_keeps_the_state (λ _ _, true) Postgres
           (λ M, cmd_yesterday sample_http_get sample_str_to_float "-1001" M 0)
           sample_db).
  intros M. unfold cmd_yesterday.
  destruct (PyDict.get "-1001" M); reflexivity.
Defined.
